(** * SRGAN training driver (train.py): an executable model and its properties

    The driver is an imperative orchestration of PyTorch calls.  It is
    embedded as monadic code over an explicit [world]: the generator and
    discriminator (weights and gradient accumulators), the three Adam
    optimizers, the two StepLR schedulers, the mutable part of [args], the
    checkpoint files, and the chronological record of every call that has an
    effect outside the function (forward passes, backward passes, optimizer
    and scheduler steps, scalar logging, checkpoint I/O).

    Networks, the Adam update and the criteria are opaque: weights are an
    abstract type, a tensor is the autograd graph that produced it, and a
    gradient accumulator is the formal sum of the losses back-propagated into
    it since it was last cleared.  Wall-clock timing, device placement and
    process-group set-up are outside the model of the world; what [main]
    and the entry of [main_worker] do to the arguments on the way there is
    modelled apart, as launch computations.  The module is taken to be
    imported (its [__name__] is not ["__main__"]), which is the only way
    [main_worker] can be reached, so the banner block that closes
    [train_gan] does not run. *)

From Stdlib Require Import ZArith QArith List String Lia DecimalString Sorted.
From Stdlib Require DecimalZ.
From stdpp Require Import base gmap strings.
Import ListNotations.
Open Scope Z_scope.

(** ** Python helpers *)

(** [str(n)] for an int, as an f-string renders it. *)
Definition str (z : Z) : string := NilZero.string_of_int (Z.to_int z).

(** [os.path.join(a, b)] for a relative [b]. *)
Definition os_path_join (a b : string) : string := a +:+ "/" +:+ b.

(** [range(a, b)]. *)
Definition range (a b : Z) : list Z :=
  map (fun k => a + Z.of_nat k) (seq 0 (Z.to_nat (b - a))).

(** Truth value of a string: non-empty. *)
Definition truthy (s : string) : bool :=
  match s with EmptyString => false | _ => true end.

Inductive phase := PSNR | GAN.
Inductive net := Generator | Discriminator.
Inductive optim := PsnrOptimizer | DiscriminatorOptimizer | GeneratorOptimizer.
Inductive sched := DiscriminatorScheduler | GeneratorScheduler.
Inductive writer := psnr_writer | gan_writer.

Definition net_eqb (a b : net) : bool :=
  match a, b with
  | Generator, Generator | Discriminator, Discriminator => true
  | _, _ => false
  end.

(** The parameters an optimizer was constructed over. *)
Definition params_of (o : optim) : net :=
  match o with
  | PsnrOptimizer | GeneratorOptimizer => Generator
  | DiscriminatorOptimizer => Discriminator
  end.

(** The optimizer a scheduler was constructed over. *)
Definition optimizer_of (s : sched) : optim :=
  match s with
  | DiscriminatorScheduler => DiscriminatorOptimizer
  | GeneratorScheduler => GeneratorOptimizer
  end.

(** The command-line arguments [main_worker] reads. *)
Record Args := {
  arch : string;
  psnr_epochs : Z;
  start_psnr_epoch : Z;
  gan_epochs : Z;
  start_gan_epoch : Z;
  psnr_lr : Q;
  gan_lr : Q;
  image_size : Z;
  resume_psnr : string;
  resume_d : string;
  resume_g : string;
  rank : Z;
  distributed : bool;
  multiprocessing_distributed : bool
}.

Definition set_start_psnr_epoch (e : Z) (a : Args) : Args :=
  {| arch := arch a; psnr_epochs := psnr_epochs a; start_psnr_epoch := e;
     gan_epochs := gan_epochs a; start_gan_epoch := start_gan_epoch a;
     psnr_lr := psnr_lr a; gan_lr := gan_lr a; image_size := image_size a;
     resume_psnr := resume_psnr a; resume_d := resume_d a;
     resume_g := resume_g a; rank := rank a; distributed := distributed a;
     multiprocessing_distributed := multiprocessing_distributed a |}.

Definition set_start_gan_epoch (e : Z) (a : Args) : Args :=
  {| arch := arch a; psnr_epochs := psnr_epochs a;
     start_psnr_epoch := start_psnr_epoch a;
     gan_epochs := gan_epochs a; start_gan_epoch := e;
     psnr_lr := psnr_lr a; gan_lr := gan_lr a; image_size := image_size a;
     resume_psnr := resume_psnr a; resume_d := resume_d a;
     resume_g := resume_g a; rank := rank a; distributed := distributed a;
     multiprocessing_distributed := multiprocessing_distributed a |}.

Inductive exn :=
| FileNotFoundError (path : string)
| KeyError (key : string)
| RuntimeError (msg : string)
| ZeroDivisionError.

(** ** Launching: [main] and the entry of [main_worker]

    [main] decides how many workers run and with which arguments; the entry
    of [main_worker] settles each worker's rank and its share of the batch
    size and of the data-loading workers.  What they call outside the file is
    recorded as a list of [launch_event]s.  The two steps whose result the
    file cannot determine are left open: [int], the parse of an environment
    variable, and [init_process_group], which says whether the process group
    could be joined. *)

Definition set_rank (r : Z) (a : Args) : Args :=
  {| arch := arch a; psnr_epochs := psnr_epochs a;
     start_psnr_epoch := start_psnr_epoch a;
     gan_epochs := gan_epochs a; start_gan_epoch := start_gan_epoch a;
     psnr_lr := psnr_lr a; gan_lr := gan_lr a; image_size := image_size a;
     resume_psnr := resume_psnr a; resume_d := resume_d a;
     resume_g := resume_g a; rank := r; distributed := distributed a;
     multiprocessing_distributed := multiprocessing_distributed a |}.

Definition set_distributed (d : bool) (a : Args) : Args :=
  {| arch := arch a; psnr_epochs := psnr_epochs a;
     start_psnr_epoch := start_psnr_epoch a;
     gan_epochs := gan_epochs a; start_gan_epoch := start_gan_epoch a;
     psnr_lr := psnr_lr a; gan_lr := gan_lr a; image_size := image_size a;
     resume_psnr := resume_psnr a; resume_d := resume_d a;
     resume_g := resume_g a; rank := rank a; distributed := d;
     multiprocessing_distributed := multiprocessing_distributed a |}.

(** The parsed arguments as [main] receives them: those [main_worker] reads
    after its set-up ([parsed]), and those only the launch reads. *)
Record Namespace := {
  parsed : Args;
  seed : option Z;
  gpu : option Z;
  dist_url : string;
  dist_backend : string;
  world_size : Z;
  batch_size : Z;
  workers : Z
}.

Definition set_parsed (a : Args) (ns : Namespace) : Namespace :=
  {| parsed := a; seed := seed ns; gpu := gpu ns; dist_url := dist_url ns;
     dist_backend := dist_backend ns; world_size := world_size ns;
     batch_size := batch_size ns; workers := workers ns |}.

Definition set_gpu (g : option Z) (ns : Namespace) : Namespace :=
  {| parsed := parsed ns; seed := seed ns; gpu := g; dist_url := dist_url ns;
     dist_backend := dist_backend ns; world_size := world_size ns;
     batch_size := batch_size ns; workers := workers ns |}.

Definition set_world_size (n : Z) (ns : Namespace) : Namespace :=
  {| parsed := parsed ns; seed := seed ns; gpu := gpu ns; dist_url := dist_url ns;
     dist_backend := dist_backend ns; world_size := n;
     batch_size := batch_size ns; workers := workers ns |}.

Definition set_batch_size (n : Z) (ns : Namespace) : Namespace :=
  {| parsed := parsed ns; seed := seed ns; gpu := gpu ns; dist_url := dist_url ns;
     dist_backend := dist_backend ns; world_size := world_size ns;
     batch_size := n; workers := workers ns |}.

Definition set_workers (n : Z) (ns : Namespace) : Namespace :=
  {| parsed := parsed ns; seed := seed ns; gpu := gpu ns; dist_url := dist_url ns;
     dist_backend := dist_backend ns; world_size := world_size ns;
     batch_size := batch_size ns; workers := n |}.

Inductive launch_exn :=
| Builtin (e : exn)
| ValueError (literal : string)
| TypeError (msg : string)
| ProcessGroupError.

Inductive launch_event :=
| la_seed (s : Z)
| la_warn (msg : string)
| la_logger_warning (msg : string)
| la_logger_info (msg : string)
| la_init_process_group (backend init_method : string) (world_size rank : Z).

(** One call [main_worker(gpu, ngpus_per_node, args)]. *)
Record invocation := {
  inv_gpu : option Z;
  inv_ngpus_per_node : Z;
  inv_args : Namespace
}.

(** How [main_worker] places the two networks. *)
Inductive placement :=
| on_cpu
| DistributedDataParallel_on (gpu : Z)
| DistributedDataParallel_everywhere
| single_gpu (gpu : Z)
| DataParallel_features
| DataParallel_whole.

(** Launch computations: the calls made, and a result or an exception. *)
Definition L (A : Type) : Type := list launch_event * (launch_exn + A).

Definition l_ret {A} (a : A) : L A := ([], inr a).

Definition l_raise {A} (e : launch_exn) : L A := ([], inl e).

Definition l_emit (e : launch_event) : L unit := ([e], inr tt).

Definition l_bind {A B} (c : L A) (k : A -> L B) : L B :=
  match c with
  | (es, inl e) => (es, inl e)
  | (es, inr a) => (es ++ fst (k a), snd (k a))
  end.

Definition is_None {A} (o : option A) : bool :=
  match o with None => true | Some _ => false end.

Section Launch.

(** [int(s)] for the text of an environment variable; [None] is ValueError. *)
Variable int : string -> option Z.
(** Whether [dist.init_process_group(backend, init_method, world_size, rank)]
    succeeds. *)
Variable init_process_group : string -> string -> Z -> Z -> bool.

Notation "x <- c1 ;; c2" := (l_bind c1 (fun x => c2))
  (at level 100, c1 at next level, right associativity).
Notation "c1 ;; c2" := (l_bind c1 (fun _ => c2))
  (at level 100, right associativity).

(** [int(os.environ[key])]. *)
Definition environ_int (environ : gmap string string) (key : string) : L Z :=
  match environ !! key with
  | None => l_raise (Builtin (KeyError key))
  | Some s => match int s with
              | Some n => l_ret n
              | None => l_raise (ValueError s)
              end
  end.

(** [int(a / b)] on ints: true division, then truncation toward zero (exact
    while the operands stay below 2^53). *)
Definition int_truediv (a b : Z) : L Z :=
  if b =? 0 then l_raise (Builtin ZeroDivisionError) else l_ret (Z.quot a b).

(** [main], from the parsed arguments, the environment and
    [torch.cuda.device_count()] to the calls of [main_worker] it makes:
    through [mp.spawn] one per process index in [range(ngpus_per_node)], each
    on its own copy of the arguments, or else a single direct call. *)
Definition main (args : Namespace) (environ : gmap string string) (device_count : Z) :
    L (list invocation) :=
  (match seed args with
   | Some s =>
       l_emit (la_seed s) ;;
       l_emit (la_warn ("You have chosen to seed training. " +:+
                        "This will turn on the CUDNN deterministic setting, " +:+
                        "which can slow down your training considerably! " +:+
                        "You may see unexpected behavior when restarting " +:+
                        "from checkpoints."))
   | None => l_ret tt
   end) ;;
  (if is_None (gpu args) then l_ret tt
   else l_emit (la_logger_warning
                  "You have chosen a specific GPU. This will completely disable data parallelism.")) ;;
  size <- (if String.eqb (dist_url args) "env://" && (world_size args =? -1)
           then environ_int environ "WORLD_SIZE"
           else l_ret (world_size args)) ;;
  let args := set_world_size size args in
  let args :=
    set_parsed (set_distributed ((1 <? world_size args)
                                 || multiprocessing_distributed (parsed args))
                  (parsed args)) args in
  let ngpus_per_node := device_count in
  if multiprocessing_distributed (parsed args) then
    let args := set_world_size (ngpus_per_node * world_size args) args in
    l_ret (map (fun i => {| inv_gpu := Some i; inv_ngpus_per_node := ngpus_per_node;
                            inv_args := args |})
             (range 0 ngpus_per_node))
  else
    l_ret [ {| inv_gpu := gpu args; inv_ngpus_per_node := ngpus_per_node;
               inv_args := args |} ].

(** [main_worker] up to the construction of the criteria: the arguments it
    goes on with, and the placement of the networks. *)
Definition main_worker_entry (call : invocation) (environ : gmap string string)
    (cuda_is_available : bool) : L (Namespace * placement) :=
  let gpu_ := inv_gpu call in
  let ngpus_per_node := inv_ngpus_per_node call in
  let args := set_gpu gpu_ (inv_args call) in
  (match gpu args with
   | Some g => l_emit (la_logger_info ("Use GPU: " +:+ str g +:+ " for training."))
   | None => l_ret tt
   end) ;;
  args <- (if distributed (parsed args) then
             r <- (if String.eqb (dist_url args) "env://" && (rank (parsed args) =? -1)
                   then environ_int environ "RANK"
                   else l_ret (rank (parsed args))) ;;
             r <- (if multiprocessing_distributed (parsed args) then
                     match gpu_ with
                     | Some g => l_ret (r * ngpus_per_node + g)
                     | None => l_raise (TypeError "unsupported operand type(s) for +: 'int' and 'NoneType'")
                     end
                   else l_ret r) ;;
             let args := set_parsed (set_rank r (parsed args)) args in
             l_emit (la_init_process_group (dist_backend args) (dist_url args)
                       (world_size args) (rank (parsed args))) ;;
             if init_process_group (dist_backend args) (dist_url args)
                  (world_size args) (rank (parsed args))
             then l_ret args else l_raise ProcessGroupError
           else l_ret args) ;;
  if negb cuda_is_available then
    l_emit (la_logger_warning "Using CPU, this will be slow.") ;;
    l_ret (args, on_cpu)
  else if distributed (parsed args) then
    match gpu args with
    | Some g =>
        b <- int_truediv (batch_size args) ngpus_per_node ;;
        let args := set_batch_size b args in
        n <- int_truediv (workers args + ngpus_per_node - 1) ngpus_per_node ;;
        let args := set_workers n args in
        l_ret (args, DistributedDataParallel_on g)
    | None => l_ret (args, DistributedDataParallel_everywhere)
    end
  else
    match gpu args with
    | Some g => l_ret (args, single_gpu g)
    | None =>
        if String.prefix "alexnet" (arch (parsed args))
           || String.prefix "vgg" (arch (parsed args))
        then l_ret (args, DataParallel_features)
        else l_ret (args, DataParallel_whole)
    end.

End Launch.

Section Training.

Set Default Proof Using "Type".

(** A module's [state_dict()]. *)
Variable Weights : Type.
(** The moment estimates and step counts of an Adam optimizer. *)
Variable AdamState : Type.

(** ** Tensors as autograd graphs *)

Inductive tensor :=
| lr_batch (ph : phase) (epoch : Z) (i : nat)
| hr_batch (ph : phase) (epoch : Z) (i : nat)
| full (fill : Z)
| forward (m : net) (w : Weights) (x : tensor)
| detach (t : tensor)
| MSELoss (x y : tensor)
| VGGLoss (x y : tensor)
| BCELoss (x y : tensor)
| add (a b : tensor)
| mul (c : Q) (a : tensor)
| div (a : tensor) (n : Z).

(** Does back-propagation from [t] reach the parameters of [m]?  A detached
    tensor and the data carry no graph. *)
Fixpoint requires_grad (m : net) (t : tensor) : bool :=
  match t with
  | lr_batch _ _ _ | hr_batch _ _ _ | full _ => false
  | forward m' _ x => net_eqb m m' || requires_grad m x
  | detach _ => false
  | MSELoss x y | VGGLoss x y | BCELoss x y | add x y =>
      requires_grad m x || requires_grad m y
  | mul _ a | div a _ => requires_grad m a
  end.

(** Python floats read off tensors or returned by the evaluation. *)
Inductive scalar :=
| item (t : tensor)
| mean_item (t : tensor)
| metric (name : string) (w : Weights).

(** A gradient accumulator: the losses back-propagated into it since the
    last [zero_grad()]; [[]] is the zero gradient. *)
Definition gradient := list tensor.

Record nn_Module := { weights : Weights; grad : gradient }.

(** An Adam optimizer: the learning rate of its parameter group and its
    internal state. *)
Record Adam := { param_lr : Q; state : AdamState }.

Record StepLR := { step_size : Z; gamma : Q; last_epoch : Z }.

(** What a checkpoint file holds: a bare state dict, or the record written
    by [torch.save] at the end of an epoch. *)
Inductive pyobj :=
| state_dict (sd : Weights)
| checkpoint (epoch : Z) (arch_tag : string) (sd : Weights) (optimizer : Adam).

(** One Adam update of the weights from the accumulated gradient. *)
Variable Adam_step : AdamState -> Q -> Weights -> gradient -> AdamState * Weights.
(** [configure(args)] and [discriminator_for_vgg(image_size)]: the freshly
    built networks; and the state of a freshly built optimizer. *)
Variable configure : Args -> Weights.
Variable discriminator_for_vgg : Z -> Weights.
Variable Adam_init : AdamState.

(** ** Observable calls *)

Inductive event :=
| ev_set_epoch (epoch : Z)
| ev_train (m : net)
| ev_zero_grad (m : net)
| ev_call (m : net) (w : Weights) (x : tensor)
| ev_backward (loss : tensor)
| ev_step (o : optim)
| ev_scheduler_step (s : sched)
| ev_update (meter : string) (v : scalar) (n : tensor)
| ev_add_scalar (wr : writer) (tag : string) (v : scalar) (global_step : Z)
| ev_display (i : nat)
| ev_save_image (t : tensor) (path : string)
| ev_test (w : Weights)
| ev_save (obj : pyobj) (path : string)
| ev_load (path : string)
| ev_load_state_dict (m : net)
| ev_optimizer_load_state_dict (o : optim)
| ev_info (msg : string).

(** ** The world *)

Record world := {
  args : Args;
  generator : nn_Module;
  discriminator : nn_Module;
  psnr_optimizer : Adam;
  discriminator_optimizer : Adam;
  generator_optimizer : Adam;
  discriminator_scheduler : StepLR;
  generator_scheduler : StepLR;
  files : gmap string pyobj;
  trace : list event   (* newest first *)
}.

(** The calls made so far, oldest first. *)
Definition history (w : world) : list event := rev (trace w).

Definition set_args (a : Args) (w : world) : world :=
  {| args := a; generator := generator w; discriminator := discriminator w;
     psnr_optimizer := psnr_optimizer w;
     discriminator_optimizer := discriminator_optimizer w;
     generator_optimizer := generator_optimizer w;
     discriminator_scheduler := discriminator_scheduler w;
     generator_scheduler := generator_scheduler w;
     files := files w; trace := trace w |}.

Definition set_net (m : net) (v : nn_Module) (w : world) : world :=
  {| args := args w;
     generator := match m with Generator => v | _ => generator w end;
     discriminator := match m with Discriminator => v | _ => discriminator w end;
     psnr_optimizer := psnr_optimizer w;
     discriminator_optimizer := discriminator_optimizer w;
     generator_optimizer := generator_optimizer w;
     discriminator_scheduler := discriminator_scheduler w;
     generator_scheduler := generator_scheduler w;
     files := files w; trace := trace w |}.

Definition set_optim (o : optim) (v : Adam) (w : world) : world :=
  {| args := args w; generator := generator w; discriminator := discriminator w;
     psnr_optimizer := match o with PsnrOptimizer => v | _ => psnr_optimizer w end;
     discriminator_optimizer :=
       match o with DiscriminatorOptimizer => v | _ => discriminator_optimizer w end;
     generator_optimizer :=
       match o with GeneratorOptimizer => v | _ => generator_optimizer w end;
     discriminator_scheduler := discriminator_scheduler w;
     generator_scheduler := generator_scheduler w;
     files := files w; trace := trace w |}.

Definition set_sched (s : sched) (v : StepLR) (w : world) : world :=
  {| args := args w; generator := generator w; discriminator := discriminator w;
     psnr_optimizer := psnr_optimizer w;
     discriminator_optimizer := discriminator_optimizer w;
     generator_optimizer := generator_optimizer w;
     discriminator_scheduler :=
       match s with DiscriminatorScheduler => v | _ => discriminator_scheduler w end;
     generator_scheduler :=
       match s with GeneratorScheduler => v | _ => generator_scheduler w end;
     files := files w; trace := trace w |}.

Definition set_files (f : gmap string pyobj) (w : world) : world :=
  {| args := args w; generator := generator w; discriminator := discriminator w;
     psnr_optimizer := psnr_optimizer w;
     discriminator_optimizer := discriminator_optimizer w;
     generator_optimizer := generator_optimizer w;
     discriminator_scheduler := discriminator_scheduler w;
     generator_scheduler := generator_scheduler w;
     files := f; trace := trace w |}.

Definition record (e : event) (w : world) : world :=
  {| args := args w; generator := generator w; discriminator := discriminator w;
     psnr_optimizer := psnr_optimizer w;
     discriminator_optimizer := discriminator_optimizer w;
     generator_optimizer := generator_optimizer w;
     discriminator_scheduler := discriminator_scheduler w;
     generator_scheduler := generator_scheduler w;
     files := files w; trace := e :: trace w |}.

Definition get_net (m : net) (w : world) : nn_Module :=
  match m with Generator => generator w | Discriminator => discriminator w end.

Definition get_optim (o : optim) (w : world) : Adam :=
  match o with
  | PsnrOptimizer => psnr_optimizer w
  | DiscriminatorOptimizer => discriminator_optimizer w
  | GeneratorOptimizer => generator_optimizer w
  end.

Definition get_sched (s : sched) (w : world) : StepLR :=
  match s with
  | DiscriminatorScheduler => discriminator_scheduler w
  | GeneratorScheduler => generator_scheduler w
  end.

(** ** Computations: state and exceptions *)

Inductive outcome (A : Type) :=
| Returned (a : A) (w : world)
| Raised (e : exn) (w : world).
Arguments Returned {A} a w.
Arguments Raised {A} e w.

Definition M (A : Type) : Type := world -> outcome A.

Definition ret {A} (a : A) : M A := fun w => Returned a w.

Definition bind {A B} (c : M A) (k : A -> M B) : M B :=
  fun w => match c w with
           | Returned a w' => k a w'
           | Raised e w' => Raised e w'
           end.

Definition raise {A} (e : exn) : M A := fun w => Raised e w.
Definition gets {A} (f : world -> A) : M A := fun w => Returned (f w) w.
Definition modify (f : world -> world) : M unit := fun w => Returned tt (f w).
Definition emit (e : event) : M unit := modify (record e).
Definition when (b : bool) (c : M unit) : M unit := if b then c else ret tt.

(** The world an outcome leaves behind. *)
Definition final {A} (o : outcome A) : world :=
  match o with Returned _ w | Raised _ w => w end.

Notation "x <- c1 ;; c2" := (bind c1 (fun x => c2))
  (at level 100, c1 at next level, right associativity).
Notation "c1 ;; c2" := (bind c1 (fun _ => c2))
  (at level 100, right associativity).

(** [for x in xs: body(x)]. *)
Fixpoint for_ {A} (xs : list A) (body : A -> M unit) : M unit :=
  match xs with
  | [] => ret tt
  | x :: rest => body x ;; for_ rest body
  end.

(** [a % b], which raises on a zero divisor. *)
Definition py_mod (a b : Z) : M Z :=
  if b =? 0 then raise ZeroDivisionError else ret (a mod b).

(** ** PyTorch and file-system primitives *)

(** [m.zero_grad()]. *)
Definition zero_grad (m : net) : M unit :=
  emit (ev_zero_grad m) ;;
  modify (fun w => set_net m {| weights := weights (get_net m w); grad := [] |} w).

(** [m(x)]: a forward pass under the current weights. *)
Definition call (m : net) (x : tensor) : M tensor :=
  wts <- gets (fun w => weights (get_net m w)) ;;
  emit (ev_call m wts x) ;;
  ret (forward m wts x).

Definition accumulate (loss : tensor) (m : net) : M unit :=
  when (requires_grad m loss)
    (modify (fun w => set_net m {| weights := weights (get_net m w);
                                   grad := grad (get_net m w) ++ [loss] |} w)).

(** [loss.backward()]: adds to the accumulators of every network whose
    parameters the graph of [loss] reaches. *)
Definition backward (loss : tensor) : M unit :=
  emit (ev_backward loss) ;;
  accumulate loss Generator ;;
  accumulate loss Discriminator.

(** [optimizer.step()]. *)
Definition step (o : optim) : M unit :=
  emit (ev_step o) ;;
  modify (fun w =>
    let p := get_net (params_of o) w in
    let a := get_optim o w in
    let r := Adam_step (state a) (param_lr a) (weights p) (grad p) in
    set_optim o {| param_lr := param_lr a; state := fst r |}
      (set_net (params_of o) {| weights := snd r; grad := grad p |} w)).

(** [scheduler.step()] of [torch.optim.lr_scheduler.StepLR]: the epoch
    counter advances, and the learning rate is multiplied by [gamma] when the
    counter is a non-zero multiple of [step_size]. *)
Definition StepLR_step (s : sched) : M unit :=
  emit (ev_scheduler_step s) ;;
  sch <- gets (get_sched s) ;;
  let e := last_epoch sch + 1 in
  modify (set_sched s {| step_size := step_size sch; gamma := gamma sch;
                         last_epoch := e |}) ;;
  keep <- (if e =? 0 then ret true
           else r <- py_mod e (step_size sch) ;; ret (negb (r =? 0))) ;;
  when (negb keep)
    (modify (fun w =>
       let a := get_optim (optimizer_of s) w in
       set_optim (optimizer_of s)
         {| param_lr := (param_lr a * gamma sch)%Q; state := state a |} w)).

(** The file at a path, if any; the empty path names no file. *)
Definition lookup_file (p : string) (w : world) : option pyobj :=
  if truthy p then files w !! p else None.

(** [os.path.isfile(p)]. *)
Definition isfile (p : string) : M bool :=
  gets (fun w => match lookup_file p w with Some _ => true | None => false end).

(** [torch.load(p)]. *)
Definition torch_load (p : string) : M pyobj :=
  emit (ev_load p) ;;
  f <- gets (lookup_file p) ;;
  match f with
  | Some o => ret o
  | None => raise (FileNotFoundError p)
  end.

(** [torch.save(obj, p)]. *)
Definition torch_save (obj : pyobj) (p : string) : M unit :=
  emit (ev_save obj p) ;;
  modify (fun w => set_files (<[p := obj]> (files w)) w).

(** [checkpoint["epoch"]], [checkpoint["state_dict"]], [checkpoint["optimizer"]]. *)
Definition getitem_epoch (o : pyobj) : M Z :=
  match o with
  | checkpoint e _ _ _ => ret e
  | state_dict _ => raise (KeyError "epoch")
  end.

Definition getitem_state_dict (o : pyobj) : M pyobj :=
  match o with
  | checkpoint _ _ sd _ => ret (state_dict sd)
  | state_dict _ => raise (KeyError "state_dict")
  end.

Definition getitem_optimizer (o : pyobj) : M Adam :=
  match o with
  | checkpoint _ _ _ a => ret a
  | state_dict _ => raise (KeyError "optimizer")
  end.

(** [m.load_state_dict(obj)]: the weights are overwritten in place; the
    keys of a checkpoint record are not those of a state dict. *)
Definition load_state_dict (m : net) (obj : pyobj) : M unit :=
  emit (ev_load_state_dict m) ;;
  match obj with
  | state_dict sd =>
      modify (fun w => set_net m {| weights := sd; grad := grad (get_net m w) |} w)
  | checkpoint _ _ _ _ => raise (RuntimeError "Error(s) in loading state_dict")
  end.

(** [optimizer.load_state_dict(a)]: parameter groups (learning rate
    included) and state are replaced. *)
Definition optimizer_load_state_dict (o : optim) (a : Adam) : M unit :=
  emit (ev_optimizer_load_state_dict o) ;;
  modify (set_optim o a).

Definition logger_info (msg : string) : M unit := emit (ev_info msg).

Definition add_scalar (wr : writer) (tag : string) (v : scalar) (global_step : Z) : M unit :=
  emit (ev_add_scalar wr tag v global_step).

(** Modelled from the spec: [AverageMeter.update(v, n)] of
    srgan_pytorch.utils.common, the Metric Aggregator's [update(value,
    weight)] that folds an observation into the running mean of the meter
    called [name]; [progress.display(i)] is recorded as [ev_display i]. *)
Definition update (name : string) (v : scalar) (n : tensor) : M unit :=
  emit (ev_update name v n).

Definition save_image (t : tensor) (path : string) : M unit :=
  emit (ev_save_image t path).

(** Modelled from the spec: [test] of srgan_pytorch.utils.estimate, the
    evaluation collaborator [evaluate(generator, test_batches, device) ->
    (psnr, ssim, lpips, gmsd)]; it scores the generator as it stands. *)
Definition test : M (scalar * scalar * scalar * scalar) :=
  wts <- gets (fun w => weights (generator w)) ;;
  emit (ev_test wts) ;;
  ret (metric "PSNR" wts, metric "SSIM" wts, metric "LPIPS" wts, metric "GMSD" wts).

(** ** train_psnr *)

(** [len(train_dataloader)]. *)
Variable len_train_dataloader : nat.

Definition train_psnr_batch (epoch : Z) (i : nat) : M unit :=
  let lr := lr_batch PSNR epoch i in
  let hr := hr_batch PSNR epoch i in
  zero_grad Generator ;;
  sr <- call Generator lr ;;
  let mse_loss := MSELoss sr hr in
  backward mse_loss ;;
  step PsnrOptimizer ;;
  update "MSE Loss" (item mse_loss) lr ;;
  let iters := Z.of_nat i + epoch * Z.of_nat len_train_dataloader + 1 in
  add_scalar psnr_writer "Train/MSE Loss" (item mse_loss) iters ;;
  when (Z.of_nat i mod 100 =? 0) (emit (ev_display i)) ;;
  when (iters mod 1000 =? 0)
    (save_image hr (os_path_join (os_path_join "runs" "hr")
                      ("PSNR_" +:+ str iters +:+ ".bmp")) ;;
     sr <- call Generator lr ;;
     save_image (detach sr) (os_path_join (os_path_join "runs" "sr")
                               ("PSNR_" +:+ str iters +:+ ".bmp"))).

Definition train_psnr (epoch : Z) : M unit :=
  emit (ev_train Generator) ;;
  for_ (seq 0 len_train_dataloader) (train_psnr_batch epoch).

(** ** train_gan *)

(** What stage (1) hands over to stage (2) and to the logging. *)
Record D_update := {
  sr_of : tensor;
  d_loss_of : tensor;
  d_hr_of : scalar;
  d_sr1_of : scalar
}.

(** (1) Update D network. *)
Definition update_D (lr hr real_label fake_label : tensor) : M D_update :=
  zero_grad Discriminator ;;
  real_output <- call Discriminator hr ;;
  let d_loss_real := BCELoss real_output real_label in
  sr <- call Generator lr ;;
  fake_output <- call Discriminator (detach sr) ;;
  let d_loss_fake := BCELoss fake_output fake_label in
  let d_loss := div (add d_loss_real d_loss_fake) 2 in
  backward d_loss ;;
  let d_hr := mean_item real_output in
  let d_sr1 := mean_item fake_output in
  step DiscriminatorOptimizer ;;
  ret {| sr_of := sr; d_loss_of := d_loss; d_hr_of := d_hr; d_sr1_of := d_sr1 |}.

Record G_update := {
  g_loss_of : tensor;
  content_loss_of : tensor;
  adversarial_loss_of : tensor;
  d_sr2_of : scalar
}.

(** (2) Update G network. *)
Definition update_G (sr hr real_label : tensor) : M G_update :=
  zero_grad Generator ;;
  let content_loss := VGGLoss sr (detach hr) in
  fake_output <- call Discriminator sr ;;
  let adversarial_loss := BCELoss fake_output real_label in
  let g_loss := add content_loss (mul (1 # 1000) adversarial_loss) in
  backward g_loss ;;
  let d_sr2 := mean_item fake_output in
  step GeneratorOptimizer ;;
  ret {| g_loss_of := g_loss; content_loss_of := content_loss;
         adversarial_loss_of := adversarial_loss; d_sr2_of := d_sr2 |}.

Definition train_gan_batch (epoch : Z) (i : nat) : M unit :=
  let lr := lr_batch GAN epoch i in
  let hr := hr_batch GAN epoch i in
  let real_label := full 1 in
  let fake_label := full 0 in
  a <- update_D lr hr real_label fake_label ;;
  b <- update_G (sr_of a) hr real_label ;;
  update "D Loss" (item (d_loss_of a)) lr ;;
  update "G Loss" (item (g_loss_of b)) lr ;;
  update "Content Loss" (item (content_loss_of b)) lr ;;
  update "Adversarial Loss" (item (adversarial_loss_of b)) lr ;;
  update "D(x)" (d_hr_of a) lr ;;
  update "D(SR1)" (d_sr1_of a) lr ;;
  update "D(SR2)" (d_sr2_of b) lr ;;
  let iters := Z.of_nat i + epoch * Z.of_nat len_train_dataloader + 1 in
  add_scalar gan_writer "Train/D Loss" (item (d_loss_of a)) iters ;;
  add_scalar gan_writer "Train/G Loss" (item (d_loss_of a)) iters ;;
  add_scalar gan_writer "Train/Content Loss" (item (content_loss_of b)) iters ;;
  add_scalar gan_writer "Train/Adversarial Loss" (item (adversarial_loss_of b)) iters ;;
  add_scalar gan_writer "Train/D(LR)" (d_hr_of a) iters ;;
  add_scalar gan_writer "Train/D(SR1)" (d_sr1_of a) iters ;;
  add_scalar gan_writer "Train/D(SR2)" (d_sr2_of b) iters ;;
  when (Z.of_nat i mod 100 =? 0) (emit (ev_display i)) ;;
  when (iters mod 1000 =? 0)
    (save_image hr (os_path_join (os_path_join "runs" "hr")
                      ("GAN_" +:+ str iters +:+ ".bmp")) ;;
     sr <- call Generator lr ;;
     save_image (detach sr) (os_path_join (os_path_join "runs" "sr")
                               ("GAN_" +:+ str iters +:+ ".bmp"))).

Definition train_gan (epoch : Z) : M unit :=
  emit (ev_train Discriminator) ;;
  emit (ev_train Generator) ;;
  for_ (seq 0 len_train_dataloader) (train_gan_batch epoch).

(** ** main_worker *)

(** The networks, optimizers and schedulers as [main_worker] builds them,
    over the checkpoint files present when the run starts. *)
Definition construct (a : Args) (fs : gmap string pyobj) : world :=
  {| args := a;
     generator := {| weights := configure a; grad := [] |};
     discriminator := {| weights := discriminator_for_vgg (image_size a); grad := [] |};
     psnr_optimizer := {| param_lr := psnr_lr a; state := Adam_init |};
     discriminator_optimizer := {| param_lr := gan_lr a; state := Adam_init |};
     generator_optimizer := {| param_lr := gan_lr a; state := Adam_init |};
     discriminator_scheduler :=
       {| step_size := gan_epochs a / 2; gamma := 1 # 10; last_epoch := 0 |};
     generator_scheduler :=
       {| step_size := gan_epochs a / 2; gamma := 1 # 10; last_epoch := 0 |};
     files := fs;
     trace := [] |}.

(** [if args.resume_psnr: ...] *)
Definition resume_psnr_checkpoint : M unit :=
  a <- gets args ;;
  when (truthy (resume_psnr a))
    (found <- isfile (resume_psnr a) ;;
     if found then
       logger_info ("Loading checkpoint '" +:+ resume_psnr a +:+ "'.") ;;
       ckpt <- torch_load (resume_psnr a) ;;
       epoch <- getitem_epoch ckpt ;;
       modify (fun w => set_args (set_start_psnr_epoch epoch (args w)) w) ;;
       sd <- getitem_state_dict ckpt ;;
       load_state_dict Generator sd ;;
       o <- getitem_optimizer ckpt ;;
       optimizer_load_state_dict PsnrOptimizer o ;;
       e <- getitem_epoch ckpt ;;
       logger_info ("Loaded checkpoint '" +:+ resume_psnr a +:+ "' (epoch "
                    +:+ str e +:+ ").")
     else
       logger_info ("No checkpoint found at '" +:+ resume_psnr a +:+ "'.")).

(** [if args.resume_d or args.resume_g: ...] *)
Definition resume_gan_checkpoint : M unit :=
  a <- gets args ;;
  when (truthy (resume_d a) || truthy (resume_g a))
    (found_d <- isfile (resume_d a) ;;
     found <- (if found_d then ret true else isfile (resume_g a)) ;;
     if found then
       logger_info ("Loading checkpoint '" +:+ resume_d a +:+ "'.") ;;
       logger_info ("Loading checkpoint '" +:+ resume_g a +:+ "'.") ;;
       checkpoint_d <- torch_load (resume_d a) ;;
       checkpoint_g <- torch_load (resume_g a) ;;
       epoch <- getitem_epoch checkpoint_d ;;
       modify (fun w => set_args (set_start_gan_epoch epoch (args w)) w) ;;
       sd <- getitem_state_dict checkpoint_d ;;
       load_state_dict Discriminator sd ;;
       o <- getitem_optimizer checkpoint_d ;;
       optimizer_load_state_dict DiscriminatorOptimizer o ;;
       sd <- getitem_state_dict checkpoint_g ;;
       load_state_dict Generator sd ;;
       o <- getitem_optimizer checkpoint_g ;;
       optimizer_load_state_dict GeneratorOptimizer o ;;
       e_d <- getitem_epoch checkpoint_d ;;
       logger_info ("Loaded checkpoint '" +:+ resume_d a +:+ "' (epoch "
                    +:+ str e_d +:+ ").") ;;
       e_g <- getitem_epoch checkpoint_g ;;
       logger_info ("Loaded checkpoint '" +:+ resume_g a +:+ "' (epoch "
                    +:+ str e_g +:+ ").")
     else
       logger_info ("No checkpoint found at '" +:+ resume_d a +:+ "' or '"
                    +:+ resume_g a +:+ "'.")).

(** [not args.multiprocessing_distributed or
     (args.multiprocessing_distributed and args.rank % ngpus_per_node == 0)] *)
Definition is_primary (ngpus_per_node : Z) : M bool :=
  a <- gets args ;;
  if negb (multiprocessing_distributed a) then ret true
  else r <- py_mod (rank a) ngpus_per_node ;; ret (r =? 0).

(** [test] and the four [gan_writer.add_scalar("Test/...", ..., epoch + 1)]. *)
Definition test_and_log (epoch : Z) : M unit :=
  r <- test ;;
  let '(psnr_value, ssim_value, lpips_value, gmsd_value) := r in
  add_scalar gan_writer "Test/PSNR" psnr_value (epoch + 1) ;;
  add_scalar gan_writer "Test/SSIM" ssim_value (epoch + 1) ;;
  add_scalar gan_writer "Test/LPIPS" lpips_value (epoch + 1) ;;
  add_scalar gan_writer "Test/GMSD" gmsd_value (epoch + 1).

Definition best_PSNR : string := os_path_join "weights" "PSNR.pth".

(** The body of [for epoch in range(args.start_psnr_epoch, args.psnr_epochs)]. *)
Definition psnr_epoch (ngpus_per_node : Z) (epoch : Z) : M unit :=
  a <- gets args ;;
  when (distributed a) (emit (ev_set_epoch epoch)) ;;
  train_psnr epoch ;;
  test_and_log epoch ;;
  primary <- is_primary ngpus_per_node ;;
  when primary
    (sd <- gets (fun w => weights (generator w)) ;;
     o <- gets psnr_optimizer ;;
     torch_save (checkpoint (epoch + 1) (arch a) sd o)
       (os_path_join "weights" ("PSNR_epoch" +:+ str epoch +:+ ".pth"))) ;;
  best <- torch_load best_PSNR ;;
  load_state_dict Generator best.

(** The body of [for epoch in range(args.start_gan_epoch, args.gan_epochs)]. *)
Definition gan_epoch (ngpus_per_node : Z) (epoch : Z) : M unit :=
  a <- gets args ;;
  when (distributed a) (emit (ev_set_epoch epoch)) ;;
  train_gan epoch ;;
  StepLR_step DiscriminatorScheduler ;;
  StepLR_step GeneratorScheduler ;;
  test_and_log epoch ;;
  primary <- is_primary ngpus_per_node ;;
  when primary
    (sd <- gets (fun w => weights (discriminator w)) ;;
     o <- gets discriminator_optimizer ;;
     torch_save (checkpoint (epoch + 1) "vgg" sd o)
       (os_path_join "weights" ("Discriminator_epoch" +:+ str epoch +:+ ".pth")) ;;
     sd <- gets (fun w => weights (generator w)) ;;
     o <- gets generator_optimizer ;;
     torch_save (checkpoint (epoch + 1) (arch a) sd o)
       (os_path_join "weights" ("Generator_epoch" +:+ str epoch +:+ ".pth"))).

Definition psnr_phase (ngpus_per_node : Z) : M unit :=
  a <- gets args ;;
  for_ (range (start_psnr_epoch a) (psnr_epochs a)) (psnr_epoch ngpus_per_node).

Definition gan_phase (ngpus_per_node : Z) : M unit :=
  a <- gets args ;;
  for_ (range (start_gan_epoch a) (gan_epochs a)) (gan_epoch ngpus_per_node).

(** The first [k] iterations of the GAN loop. *)
Definition gan_epochs_completed (ngpus_per_node : Z) (k : nat) : M unit :=
  a <- gets args ;;
  for_ (firstn k (range (start_gan_epoch a) (gan_epochs a))) (gan_epoch ngpus_per_node).

(** [main_worker], from "optionally resume from a checkpoint" on, up to the
    GAN loop. *)
Definition until_gan_phase (ngpus_per_node : Z) : M unit :=
  resume_psnr_checkpoint ;;
  resume_gan_checkpoint ;;
  a <- gets args ;;
  logger_info ("Train information:" +:+ "
	PSNR-oral epochs: " +:+ str (psnr_epochs a) +:+ "
	GAN-oral epochs:  " +:+ str (gan_epochs a)) ;;
  psnr_phase ngpus_per_node.

(** [main_worker]; it runs on the world [construct] builds. *)
Definition main_worker (ngpus_per_node : Z) : M unit :=
  until_gan_phase ngpus_per_node ;;
  gan_phase ngpus_per_node.

(** * Summaries of the code, and the specification's wording

    The worlds and calls each piece of code is proved to produce, and the
    quantities of the specification ([spec_...]) they are compared with. *)

(** ** One GAN iteration, summarised *)

(** The batch of iteration [i] of a GAN epoch, and the super-resolved
    tensor the generator makes of it at the start of the iteration. *)
Definition sr_at (w : world) (epoch : Z) (i : nat) : tensor :=
  forward Generator (weights (generator w)) (lr_batch GAN epoch i).

(** The discriminator loss as the specification words it:
    (adversarial_loss(discriminator(hr), real_label)
     + adversarial_loss(discriminator(detached sr), fake_label)) / 2,
    the discriminator being the one iteration starts with. *)
Definition spec_d_loss (w : world) (epoch : Z) (i : nat) : tensor :=
  let D := forward Discriminator (weights (discriminator w)) in
  div (add (BCELoss (D (hr_batch GAN epoch i)) (full 1))
           (BCELoss (D (detach (sr_at w epoch i))) (full 0))) 2.

(** The discriminator optimizer's update of stage (1). *)
Definition D_stepped (w : world) (epoch : Z) (i : nat) : AdamState * Weights :=
  Adam_step (state (discriminator_optimizer w)) (param_lr (discriminator_optimizer w))
    (weights (discriminator w)) [spec_d_loss w epoch i].

(** The generator loss as the specification words it:
    content_loss + 0.001 * adversarial_loss(discriminator(sr), real_label),
    the discriminator being the one stage (1) has updated. *)
Definition spec_g_loss (w : world) (epoch : Z) (i : nat) : tensor :=
  let D := forward Discriminator (snd (D_stepped w epoch i)) in
  add (VGGLoss (sr_at w epoch i) (detach (hr_batch GAN epoch i)))
      (mul (1 # 1000) (BCELoss (D (sr_at w epoch i)) (full 1))).

Definition G_stepped (w : world) (epoch : Z) (i : nat) : AdamState * Weights :=
  Adam_step (state (generator_optimizer w)) (param_lr (generator_optimizer w))
    (weights (generator w)) [spec_g_loss w epoch i].

(** The calls of stage (1), in order. *)
Definition stage_A_calls (w : world) (epoch : Z) (i : nat) : list event :=
  [ ev_zero_grad Discriminator;
    ev_call Discriminator (weights (discriminator w)) (hr_batch GAN epoch i);
    ev_call Generator (weights (generator w)) (lr_batch GAN epoch i);
    ev_call Discriminator (weights (discriminator w)) (detach (sr_at w epoch i));
    ev_backward (spec_d_loss w epoch i);
    ev_step DiscriminatorOptimizer ].

(** The calls of stage (2), in order. *)
Definition stage_B_calls (w : world) (epoch : Z) (i : nat) : list event :=
  [ ev_zero_grad Generator;
    ev_call Discriminator (snd (D_stepped w epoch i)) (sr_at w epoch i);
    ev_backward (spec_g_loss w epoch i);
    ev_step GeneratorOptimizer ].

(** The world stage (1) leaves. *)
Definition after_stage_A (w : world) (epoch : Z) (i : nat) : world :=
  {| args := args w;
     generator := generator w;
     discriminator := {| weights := snd (D_stepped w epoch i);
                         grad := [spec_d_loss w epoch i] |};
     psnr_optimizer := psnr_optimizer w;
     discriminator_optimizer :=
       {| param_lr := param_lr (discriminator_optimizer w);
          state := fst (D_stepped w epoch i) |};
     generator_optimizer := generator_optimizer w;
     discriminator_scheduler := discriminator_scheduler w;
     generator_scheduler := generator_scheduler w;
     files := files w;
     trace := rev (stage_A_calls w epoch i) ++ trace w |}.

(** The world stage (2) leaves. *)
Definition after_stage_B (w : world) (epoch : Z) (i : nat) : world :=
  {| args := args w;
     generator := {| weights := snd (G_stepped w epoch i);
                     grad := [spec_g_loss w epoch i] |};
     discriminator := {| weights := snd (D_stepped w epoch i);
                         grad := [spec_d_loss w epoch i; spec_g_loss w epoch i] |};
     psnr_optimizer := psnr_optimizer w;
     discriminator_optimizer :=
       {| param_lr := param_lr (discriminator_optimizer w);
          state := fst (D_stepped w epoch i) |};
     generator_optimizer :=
       {| param_lr := param_lr (generator_optimizer w);
          state := fst (G_stepped w epoch i) |};
     discriminator_scheduler := discriminator_scheduler w;
     generator_scheduler := generator_scheduler w;
     files := files w;
     trace := rev (stage_B_calls w epoch i) ++ rev (stage_A_calls w epoch i) ++ trace w |}.

(** The global iteration counter as the specification words it:
    batch_index + epoch_index * batches_per_epoch + 1. *)
Definition spec_iters (epoch : Z) (i : nat) : Z :=
  Z.of_nat i + epoch * Z.of_nat len_train_dataloader + 1.

(** [w] with further calls recorded (given oldest first). *)
Definition log_calls (es : list event) (w : world) : world :=
  {| args := args w; generator := generator w; discriminator := discriminator w;
     psnr_optimizer := psnr_optimizer w;
     discriminator_optimizer := discriminator_optimizer w;
     generator_optimizer := generator_optimizer w;
     discriminator_scheduler := discriminator_scheduler w;
     generator_scheduler := generator_scheduler w;
     files := files w; trace := rev es ++ trace w |}.

(** The meter updates and scalar-log writes that follow the two stages. *)
Definition gan_report_calls (w : world) (epoch : Z) (i : nat) : list event :=
  let lr := lr_batch GAN epoch i in
  let d_loss := spec_d_loss w epoch i in
  let g_loss := spec_g_loss w epoch i in
  let content_loss := VGGLoss (sr_at w epoch i) (detach (hr_batch GAN epoch i)) in
  let fake_B := forward Discriminator (snd (D_stepped w epoch i)) (sr_at w epoch i) in
  let adversarial_loss := BCELoss fake_B (full 1) in
  let d_hr := mean_item (forward Discriminator (weights (discriminator w))
                           (hr_batch GAN epoch i)) in
  let d_sr1 := mean_item (forward Discriminator (weights (discriminator w))
                            (detach (sr_at w epoch i))) in
  let d_sr2 := mean_item fake_B in
  let iters := spec_iters epoch i in
  [ ev_update "D Loss" (item d_loss) lr;
    ev_update "G Loss" (item g_loss) lr;
    ev_update "Content Loss" (item content_loss) lr;
    ev_update "Adversarial Loss" (item adversarial_loss) lr;
    ev_update "D(x)" d_hr lr;
    ev_update "D(SR1)" d_sr1 lr;
    ev_update "D(SR2)" d_sr2 lr;
    ev_add_scalar gan_writer "Train/D Loss" (item d_loss) iters;
    ev_add_scalar gan_writer "Train/G Loss" (item d_loss) iters;
    ev_add_scalar gan_writer "Train/Content Loss" (item content_loss) iters;
    ev_add_scalar gan_writer "Train/Adversarial Loss" (item adversarial_loss) iters;
    ev_add_scalar gan_writer "Train/D(LR)" d_hr iters;
    ev_add_scalar gan_writer "Train/D(SR1)" d_sr1 iters;
    ev_add_scalar gan_writer "Train/D(SR2)" d_sr2 iters ].

(** Progress display every 100 batches, sample capture every 1000 global
    iterations (with a fresh forward pass of the updated generator). *)
Definition gan_periodic_calls (w : world) (epoch : Z) (i : nat) : list event :=
  (if Z.of_nat i mod 100 =? 0 then [ev_display i] else [])
  ++ (if spec_iters epoch i mod 1000 =? 0
      then [ ev_save_image (hr_batch GAN epoch i)
               (os_path_join (os_path_join "runs" "hr")
                  ("GAN_" +:+ str (spec_iters epoch i) +:+ ".bmp"));
             ev_call Generator (snd (G_stepped w epoch i)) (lr_batch GAN epoch i);
             ev_save_image
               (detach (forward Generator (snd (G_stepped w epoch i))
                          (lr_batch GAN epoch i)))
               (os_path_join (os_path_join "runs" "sr")
                  ("GAN_" +:+ str (spec_iters epoch i) +:+ ".bmp")) ]
      else []).

(** The world one GAN iteration leaves. *)
Definition after_gan_batch (epoch : Z) (w : world) (i : nat) : world :=
  log_calls (gan_report_calls w epoch i ++ gan_periodic_calls w epoch i)
    (after_stage_B w epoch i).

(** ** Reading the record of calls *)

(** Gradient clearing, back-propagation, optimizer steps and discriminator
    forward passes: the calls of the two update stages. *)
Definition is_update_call (e : event) : bool :=
  match e with
  | ev_zero_grad _ | ev_backward _ | ev_step _ | ev_call Discriminator _ _ => true
  | _ => false
  end.

Definition is_backward_or_step (e : event) : bool :=
  match e with
  | ev_backward _ | ev_step _ => true
  | _ => false
  end.

(** The writes to the scalar-log series called [tag]. *)
Definition writes_to (tag : string) (e : event) : bool :=
  match e with
  | ev_add_scalar _ t _ _ => String.eqb t tag
  | _ => false
  end.

(** The value an [add_scalar] call logs differs from [v]. *)
Definition logs_other_than (v : scalar) (e : event) : Prop :=
  match e with
  | ev_add_scalar _ _ v' _ => v' <> v
  | _ => True
  end.

(** ** Whole epochs of training *)

(** One PSNR iteration, summarised. *)
Definition spec_mse_loss (w : world) (epoch : Z) (i : nat) : tensor :=
  MSELoss (forward Generator (weights (generator w)) (lr_batch PSNR epoch i))
          (hr_batch PSNR epoch i).

Definition P_stepped (w : world) (epoch : Z) (i : nat) : AdamState * Weights :=
  Adam_step (state (psnr_optimizer w)) (param_lr (psnr_optimizer w))
    (weights (generator w)) [spec_mse_loss w epoch i].

Definition psnr_batch_calls (epoch : Z) (w : world) (i : nat) : list event :=
  [ ev_zero_grad Generator;
    ev_call Generator (weights (generator w)) (lr_batch PSNR epoch i);
    ev_backward (spec_mse_loss w epoch i);
    ev_step PsnrOptimizer;
    ev_update "MSE Loss" (item (spec_mse_loss w epoch i)) (lr_batch PSNR epoch i);
    ev_add_scalar psnr_writer "Train/MSE Loss" (item (spec_mse_loss w epoch i))
      (spec_iters epoch i) ]
  ++ (if Z.of_nat i mod 100 =? 0 then [ev_display i] else [])
  ++ (if spec_iters epoch i mod 1000 =? 0
      then [ ev_save_image (hr_batch PSNR epoch i)
               (os_path_join (os_path_join "runs" "hr")
                  ("PSNR_" +:+ str (spec_iters epoch i) +:+ ".bmp"));
             ev_call Generator (snd (P_stepped w epoch i)) (lr_batch PSNR epoch i);
             ev_save_image
               (detach (forward Generator (snd (P_stepped w epoch i))
                          (lr_batch PSNR epoch i)))
               (os_path_join (os_path_join "runs" "sr")
                  ("PSNR_" +:+ str (spec_iters epoch i) +:+ ".bmp")) ]
      else []).

Definition after_psnr_batch (epoch : Z) (w : world) (i : nat) : world :=
  {| args := args w;
     generator := {| weights := snd (P_stepped w epoch i);
                     grad := [spec_mse_loss w epoch i] |};
     discriminator := discriminator w;
     psnr_optimizer := {| param_lr := param_lr (psnr_optimizer w);
                          state := fst (P_stepped w epoch i) |};
     discriminator_optimizer := discriminator_optimizer w;
     generator_optimizer := generator_optimizer w;
     discriminator_scheduler := discriminator_scheduler w;
     generator_scheduler := generator_scheduler w;
     files := files w;
     trace := rev (psnr_batch_calls epoch w i) ++ trace w |}.

Definition gan_batch_calls (epoch : Z) (w : world) (i : nat) : list event :=
  stage_A_calls w epoch i ++ stage_B_calls w epoch i
  ++ gan_report_calls w epoch i ++ gan_periodic_calls w epoch i.

(** The calls of a run of iterations, each summarised by [calls] and
    leaving the world [next]. *)
Fixpoint calls_of (next : world -> nat -> world) (calls : world -> nat -> list event)
    (batches : list nat) (w : world) : list event :=
  match batches with
  | [] => []
  | i :: rest => calls w i ++ calls_of next calls rest (next w i)
  end.

Definition after_train_psnr (epoch : Z) (w : world) : world :=
  fold_left (after_psnr_batch epoch) (seq 0 len_train_dataloader)
    (record (ev_train Generator) w).

Definition after_train_gan (epoch : Z) (w : world) : world :=
  fold_left (after_gan_batch epoch) (seq 0 len_train_dataloader)
    (record (ev_train Generator) (record (ev_train Discriminator) w)).

Definition train_psnr_calls (epoch : Z) (w : world) : list event :=
  ev_train Generator
  :: calls_of (after_psnr_batch epoch) (psnr_batch_calls epoch)
       (seq 0 len_train_dataloader) (record (ev_train Generator) w).

Definition train_gan_calls (epoch : Z) (w : world) : list event :=
  ev_train Discriminator :: ev_train Generator
  :: calls_of (after_gan_batch epoch) (gan_batch_calls epoch)
       (seq 0 len_train_dataloader)
       (record (ev_train Generator) (record (ev_train Discriminator) w)).

(** What training leaves alone: arguments, files, schedulers and learning
    rates. *)
Definition training_frame (w w' : world) : Prop :=
  args w' = args w /\ files w' = files w /\
  discriminator_scheduler w' = discriminator_scheduler w /\
  generator_scheduler w' = generator_scheduler w /\
  param_lr (psnr_optimizer w') = param_lr (psnr_optimizer w) /\
  param_lr (discriminator_optimizer w') = param_lr (discriminator_optimizer w) /\
  param_lr (generator_optimizer w') = param_lr (generator_optimizer w).

(** What the PSNR phase leaves alone besides: everything of the GAN phase. *)
Definition gan_state_frame (w w' : world) : Prop :=
  discriminator w' = discriminator w /\
  discriminator_optimizer w' = discriminator_optimizer w /\
  generator_optimizer w' = generator_optimizer w /\
  discriminator_scheduler w' = discriminator_scheduler w /\
  generator_scheduler w' = generator_scheduler w.

(** Calls that only training makes: no scheduler step, evaluation,
    checkpoint I/O or logger message. *)
Definition is_training_call (e : event) : bool :=
  match e with
  | ev_scheduler_step _ | ev_test _ | ev_save _ _ | ev_load _
  | ev_load_state_dict _ | ev_optimizer_load_state_dict _ | ev_info _
  | ev_set_epoch _ => false
  | ev_add_scalar _ tag _ _ => String.prefix "Train/" tag
  | _ => true
  end.

(** The global steps written to the series [tag], in order. *)
Definition steps_of (tag : string) (calls : list event) : list Z :=
  flat_map (fun e => match e with
                     | ev_add_scalar _ t _ s => if String.eqb t tag then [s] else []
                     | _ => []
                     end) calls.

(** The scalar-log series each phase's training step writes. *)
Definition train_series (ph : phase) : list string :=
  match ph with
  | PSNR => ["Train/MSE Loss"]
  | GAN => ["Train/D Loss"; "Train/G Loss"; "Train/Content Loss";
            "Train/Adversarial Loss"; "Train/D(LR)"; "Train/D(SR1)"; "Train/D(SR2)"]
  end.

(** The world after the two "Loading checkpoint" messages of the GAN resume
    block. *)
Definition gan_resume_announced (w : world) : world :=
  log_calls [ ev_info ("Loading checkpoint '" +:+ resume_d (args w) +:+ "'.");
              ev_info ("Loading checkpoint '" +:+ resume_g (args w) +:+ "'.") ] w.

(** ** The epoch bodies of [main_worker] *)

(** The evaluation and its four scalar-log writes. *)
Definition test_calls (epoch : Z) (w : world) : list event :=
  let wts := weights (generator w) in
  [ ev_test wts;
    ev_add_scalar gan_writer "Test/PSNR" (metric "PSNR" wts) (epoch + 1);
    ev_add_scalar gan_writer "Test/SSIM" (metric "SSIM" wts) (epoch + 1);
    ev_add_scalar gan_writer "Test/LPIPS" (metric "LPIPS" wts) (epoch + 1);
    ev_add_scalar gan_writer "Test/GMSD" (metric "GMSD" wts) (epoch + 1) ].

(** The checkpoint-save gate: the sole process, or the first of its node. *)
Definition primary (ngpus_per_node : Z) (a : Args) : bool :=
  negb (multiprocessing_distributed a) || (rank a mod ngpus_per_node =? 0).

(** The gate can be evaluated: a multi-process run has GPUs to count. *)
Definition gate_defined (ngpus_per_node : Z) (a : Args) : Prop :=
  multiprocessing_distributed a = true -> ngpus_per_node <> 0.

(** [train_sampler.set_epoch(epoch)] under distributed training. *)
Definition announce_epoch (epoch : Z) (w : world) : world :=
  if distributed (args w) then record (ev_set_epoch epoch) w else w.

(** [w] after [torch.save(obj, path)]. *)
Definition saved (obj : pyobj) (path : string) (w : world) : world :=
  set_files (<[path := obj]> (files w)) (record (ev_save obj path) w).

Definition psnr_checkpoint (epoch : Z) (w : world) : pyobj :=
  checkpoint (epoch + 1) (arch (args w)) (weights (generator w)) (psnr_optimizer w).

Definition psnr_checkpoint_path (epoch : Z) : string :=
  os_path_join "weights" ("PSNR_epoch" +:+ str epoch +:+ ".pth").

(** A PSNR epoch up to and including the checkpoint-save gate. *)
Definition after_psnr_save (ngpus_per_node epoch : Z) (w : world) : world :=
  let w1 := after_train_psnr epoch (announce_epoch epoch w) in
  let w2 := log_calls (test_calls epoch w1) w1 in
  if primary ngpus_per_node (args w)
  then saved (psnr_checkpoint epoch w2) (psnr_checkpoint_path epoch) w2
  else w2.

(** The calls of a PSNR epoch up to and including the gate. *)
Definition psnr_epoch_calls (ngpus_per_node epoch : Z) (w : world) : list event :=
  let w0 := announce_epoch epoch w in
  let w1 := after_train_psnr epoch w0 in
  let w2 := log_calls (test_calls epoch w1) w1 in
  (if distributed (args w) then [ev_set_epoch epoch] else [])
  ++ train_psnr_calls epoch w0
  ++ test_calls epoch w1
  ++ (if primary ngpus_per_node (args w)
      then [ev_save (psnr_checkpoint epoch w2) (psnr_checkpoint_path epoch)]
      else []).

(** [scheduler.step()], summarised. *)
Definition after_scheduler_step (s : sched) (w : world) : world :=
  let sch := get_sched s w in
  let e := last_epoch sch + 1 in
  let a := get_optim (optimizer_of s) w in
  let w1 := set_sched s {| step_size := step_size sch; gamma := gamma sch;
                           last_epoch := e |}
              (record (ev_scheduler_step s) w) in
  if (e =? 0) || negb (e mod step_size sch =? 0) then w1
  else set_optim (optimizer_of s)
         {| param_lr := (param_lr a * gamma sch)%Q; state := state a |} w1.

Definition gan_checkpoints (epoch : Z) (w : world) : list (pyobj * string) :=
  [ (checkpoint (epoch + 1) "vgg" (weights (discriminator w)) (discriminator_optimizer w),
     os_path_join "weights" ("Discriminator_epoch" +:+ str epoch +:+ ".pth"));
    (checkpoint (epoch + 1) (arch (args w)) (weights (generator w)) (generator_optimizer w),
     os_path_join "weights" ("Generator_epoch" +:+ str epoch +:+ ".pth")) ].

(** A GAN epoch: training, the two scheduler steps, the evaluation, the
    checkpoint-save gate. *)
Definition after_gan_epoch (ngpus_per_node epoch : Z) (w : world) : world :=
  let w1 := after_train_gan epoch (announce_epoch epoch w) in
  let w2 := after_scheduler_step GeneratorScheduler
              (after_scheduler_step DiscriminatorScheduler w1) in
  let w3 := log_calls (test_calls epoch w2) w2 in
  if primary ngpus_per_node (args w)
  then fold_left (fun w '(obj, path) => saved obj path w) (gan_checkpoints epoch w3) w3
  else w3.

Definition gan_epoch_calls (ngpus_per_node epoch : Z) (w : world) : list event :=
  let w0 := announce_epoch epoch w in
  let w1 := after_train_gan epoch w0 in
  let w2 := after_scheduler_step GeneratorScheduler
              (after_scheduler_step DiscriminatorScheduler w1) in
  let w3 := log_calls (test_calls epoch w2) w2 in
  (if distributed (args w) then [ev_set_epoch epoch] else [])
  ++ train_gan_calls epoch w0
  ++ [ev_scheduler_step DiscriminatorScheduler; ev_scheduler_step GeneratorScheduler]
  ++ test_calls epoch w2
  ++ (if primary ngpus_per_node (args w)
      then map (fun '(obj, path) => ev_save obj path) (gan_checkpoints epoch w3)
      else []).

(** The world a PSNR epoch leaves once it has tried to load and install
    weights/PSNR.pth. *)
Definition reload_attempted (ngpus_per_node epoch : Z) (w : world) : world :=
  log_calls [ev_load best_PSNR; ev_load_state_dict Generator]
    (after_psnr_save ngpus_per_node epoch w).

(** ** The learning-rate schedule *)

(** Both schedulers are the StepLR that [main_worker] builds, [n] steps on,
    and the two GAN optimizers have the given learning rates. *)
Definition gan_schedule (a : Args) (n : Z) (lr_d lr_g : Q) (w : world) : Prop :=
  discriminator_scheduler w
  = {| step_size := gan_epochs a / 2; gamma := 1 # 10; last_epoch := n |} /\
  generator_scheduler w
  = {| step_size := gan_epochs a / 2; gamma := 1 # 10; last_epoch := n |} /\
  param_lr (discriminator_optimizer w) = lr_d /\
  param_lr (generator_optimizer w) = lr_g.

(** The learning rate after the scheduler's [e]-th step. *)
Definition decayed (a : Args) (e : Z) (lr : Q) : Q :=
  if e mod (gan_epochs a / 2) =? 0 then (lr * (1 # 10))%Q else lr.

(** ** From the start of [main_worker] to the GAN loop *)

(** The arguments agree on all but [start_psnr_epoch]. *)
Definition keeps_gan_args (a a' : Args) : Prop :=
  set_start_psnr_epoch 0 a' = set_start_psnr_epoch 0 a.

(** ** The global iteration counter *)

(** The training step and the epoch loop of a phase. *)
Definition train_batch (ph : phase) : Z -> nat -> M unit :=
  match ph with PSNR => train_psnr_batch | GAN => train_gan_batch end.

Definition phase_loop (ph : phase) : Z -> M unit :=
  match ph with PSNR => psnr_phase | GAN => gan_phase end.

Definition phase_start (ph : phase) (a : Args) : Z :=
  match ph with PSNR => start_psnr_epoch a | GAN => start_gan_epoch a end.

Definition phase_epochs (ph : phase) (a : Args) : Z :=
  match ph with PSNR => psnr_epochs a | GAN => gan_epochs a end.

(** Was a sample image captured? *)
Definition captures (calls : list event) : bool :=
  existsb (fun e => match e with ev_save_image _ _ => true | _ => false end) calls.

(** The counter values of whole epochs, batch by batch. *)
Definition epoch_iters (epochs : list Z) : list Z :=
  flat_map (fun epoch => map (spec_iters epoch) (seq 0 len_train_dataloader)) epochs.

(** A computation that writes nothing to the series [tag], however it
    ends. *)
Definition quiet {A} (tag : string) (c : M A) : Prop :=
  forall w, exists calls,
    history (final (c w)) = history w ++ calls /\ steps_of tag calls = [].

(** The order the specification words for a GAN epoch: once a scheduler has
    been advanced, no evaluation or checkpoint save follows. *)
Fixpoint after_first_scheduler_step (calls : list event) : list event :=
  match calls with
  | [] => []
  | ev_scheduler_step _ :: rest => rest
  | _ :: rest => after_first_scheduler_step rest
  end.

Definition spec_schedulers_advance_last (calls : list event) : bool :=
  forallb (fun e => match e with ev_test _ | ev_save _ _ => false | _ => true end)
    (after_first_scheduler_step calls).

(** ** Readings of the record of calls used beyond the two stages *)


(** A computation all of whose calls satisfy [P], however it ends. *)
Definition emits_only {A} (P : event -> Prop) (c : M A) : Prop :=
  forall w, exists calls,
    history (final (c w)) = history w ++ calls /\ Forall P calls.

(** A computation that keeps [I], however it ends. *)
Definition keeps {A} (I : world -> Prop) (c : M A) : Prop :=
  forall w, I w -> I (final (c w)).

(** The files the GAN loop saves to. *)
Definition discriminator_checkpoint_path (epoch : Z) : string :=
  os_path_join "weights" ("Discriminator_epoch" +:+ str epoch +:+ ".pth").

Definition generator_checkpoint_path (epoch : Z) : string :=
  os_path_join "weights" ("Generator_epoch" +:+ str epoch +:+ ".pth").

(** Each writer's series: the PSNR writer takes the PSNR training loss and
    the GAN writer everything else. *)
Definition scalar_routing (e : event) : Prop :=
  match e with
  | ev_add_scalar psnr_writer tag _ _ => tag = "Train/MSE Loss"
  | ev_add_scalar gan_writer tag _ _ => tag <> "Train/MSE Loss"
  | _ => True
  end.

(** Calls of GAN training: a step of either GAN optimizer or scheduler, a
    forward pass or a gradient reset of the discriminator. *)
Definition is_gan_training (e : event) : bool :=
  match e with
  | ev_step DiscriminatorOptimizer | ev_step GeneratorOptimizer
  | ev_scheduler_step _ | ev_call Discriminator _ _ | ev_zero_grad Discriminator => true
  | _ => false
  end.

(** Calls the GAN loop has no use for: a step of the PSNR optimizer, and
    every load, from disk or into a network or optimizer. *)
Definition is_psnr_step_or_load (e : event) : bool :=
  match e with
  | ev_step PsnrOptimizer | ev_load _ | ev_load_state_dict _
  | ev_optimizer_load_state_dict _ => true
  | _ => false
  end.

(** The file at [p] is a checkpoint record written at the end of [epoch]. *)
Definition checkpoint_of_epoch (epoch : Z) (p : string) (w : world) : Prop :=
  exists tag sd o, files w !! p = Some (checkpoint (epoch + 1) tag sd o).

(** The scalar-log series of the evaluation. *)
Definition test_series : list string :=
  ["Test/PSNR"; "Test/SSIM"; "Test/LPIPS"; "Test/GMSD"].

(** A learning rate multiplied [n] times by the schedulers' gamma. *)
Definition decay_times (n : nat) (lr : Q) : Q :=
  Nat.iter n (fun q => (q * (1 # 10))%Q) lr.

(** * Lemmas and theorems *)

Lemma update_D_returns (w : world) (epoch : Z) (i : nat) :
  update_D (lr_batch GAN epoch i) (hr_batch GAN epoch i) (full 1) (full 0) w
  = Returned {| sr_of := sr_at w epoch i;
                d_loss_of := spec_d_loss w epoch i;
                d_hr_of := mean_item (forward Discriminator (weights (discriminator w))
                                        (hr_batch GAN epoch i));
                d_sr1_of := mean_item (forward Discriminator (weights (discriminator w))
                                         (detach (sr_at w epoch i))) |}
             (after_stage_A w epoch i).
Proof. reflexivity. Qed.

Lemma update_G_returns (w : world) (epoch : Z) (i : nat) :
  update_G (sr_at w epoch i) (hr_batch GAN epoch i) (full 1) (after_stage_A w epoch i)
  = Returned {| g_loss_of := spec_g_loss w epoch i;
                content_loss_of := VGGLoss (sr_at w epoch i) (detach (hr_batch GAN epoch i));
                adversarial_loss_of :=
                  BCELoss (forward Discriminator (snd (D_stepped w epoch i))
                             (sr_at w epoch i)) (full 1);
                d_sr2_of := mean_item (forward Discriminator (snd (D_stepped w epoch i))
                                         (sr_at w epoch i)) |}
             (after_stage_B w epoch i).
Proof. reflexivity. Qed.

Lemma train_gan_batch_returns (epoch : Z) (i : nat) (w : world) :
  train_gan_batch epoch i w = Returned tt (after_gan_batch epoch w i).
Proof.
  unfold train_gan_batch, after_gan_batch, gan_periodic_calls, spec_iters.
  unfold bind at 1. rewrite update_D_returns.
  cbv beta iota delta [sr_of d_loss_of d_hr_of d_sr1_of].
  unfold bind at 1. rewrite update_G_returns.
  destruct (Z.of_nat i mod 100 =? 0) eqn:E100;
    destruct ((Z.of_nat i + epoch * Z.of_nat len_train_dataloader + 1) mod 1000 =? 0)
      eqn:E1000;
    cbn; rewrite ?E100, ?E1000; reflexivity.
Qed.

Lemma history_log_calls (es : list event) (w : world) :
  history (log_calls es w) = history w ++ es.
Proof.
  unfold history, log_calls; cbn. now rewrite rev_app_distr, rev_involutive.
Qed.

Lemma history_record (e : event) (w : world) :
  history (record e w) = history w ++ [e].
Proof. reflexivity. Qed.

Lemma history_after_stage_A (w : world) (epoch : Z) (i : nat) :
  history (after_stage_A w epoch i) = history w ++ stage_A_calls w epoch i.
Proof.
  unfold history, after_stage_A; cbn [trace].
  now rewrite rev_app_distr, rev_involutive.
Qed.

Lemma history_after_stage_B (w : world) (epoch : Z) (i : nat) :
  history (after_stage_B w epoch i)
  = history w ++ stage_A_calls w epoch i ++ stage_B_calls w epoch i.
Proof.
  unfold history, after_stage_B; cbn [trace].
  now rewrite !rev_app_distr, !rev_involutive, app_assoc.
Qed.

Lemma history_after_gan_batch (epoch : Z) (w : world) (i : nat) :
  history (after_gan_batch epoch w i)
  = history w ++ stage_A_calls w epoch i ++ stage_B_calls w epoch i
      ++ gan_report_calls w epoch i ++ gan_periodic_calls w epoch i.
Proof.
  unfold after_gan_batch.
  now rewrite history_log_calls, history_after_stage_B, <- !app_assoc.
Qed.

Lemma gan_periodic_no_update (w : world) (epoch : Z) (i : nat) :
  Forall (fun e => is_update_call e = false) (gan_periodic_calls w epoch i).
Proof.
  unfold gan_periodic_calls.
  destruct (_ =? 0); destruct (_ =? 0); repeat constructor.
Qed.

Lemma gan_periodic_no_scalar (w : world) (epoch : Z) (i : nat) (tag : string) :
  filter (writes_to tag) (gan_periodic_calls w epoch i) = [].
Proof.
  unfold gan_periodic_calls.
  destruct (_ =? 0); destruct (_ =? 0); reflexivity.
Qed.

(** ** The GAN training step *)

(** C1: in every GAN iteration stage (1) runs to its end, the discriminator
    optimizer step, before stage (2) makes its first call; stage (2) then
    scores the very tensor [sr] that stage (1) detached, under the
    discriminator weights that step has just produced; and nothing after the
    two stages touches gradients, optimizers or the discriminator. *)
Theorem stage_A_completes_before_stage_B (epoch : Z) (i : nat) (w : world) :
  let lr := lr_batch GAN epoch i in
  let hr := hr_batch GAN epoch i in
  exists a w1 b w2 later,
    update_D lr hr (full 1) (full 0) w = Returned a w1 /\
    history w1 = history w ++
      [ ev_zero_grad Discriminator;
        ev_call Discriminator (weights (discriminator w)) hr;
        ev_call Generator (weights (generator w)) lr;
        ev_call Discriminator (weights (discriminator w)) (detach (sr_of a));
        ev_backward (d_loss_of a);
        ev_step DiscriminatorOptimizer ] /\
    weights (discriminator w1)
    = snd (Adam_step (state (discriminator_optimizer w))
             (param_lr (discriminator_optimizer w))
             (weights (discriminator w)) [d_loss_of a]) /\
    update_G (sr_of a) hr (full 1) w1 = Returned b w2 /\
    history w2 = history w1 ++
      [ ev_zero_grad Generator;
        ev_call Discriminator (weights (discriminator w1)) (sr_of a);
        ev_backward (g_loss_of b);
        ev_step GeneratorOptimizer ] /\
    train_gan_batch epoch i w = Returned tt (log_calls later w2) /\
    Forall (fun e => is_update_call e = false) later.
Proof.
  intros lr hr.
  eexists _, _, _, _, (gan_report_calls w epoch i ++ gan_periodic_calls w epoch i).
  split; [apply update_D_returns|].
  split; [apply history_after_stage_A|].
  split; [reflexivity|].
  split; [apply update_G_returns|].
  split; [now rewrite history_after_stage_B, history_after_stage_A, <- app_assoc|].
  split; [apply train_gan_batch_returns|].
  apply Forall_app; split; [repeat constructor | apply gan_periodic_no_update].
Qed.

(** C2, as the code has it: stage (1) back-propagates a loss whose graph
    does not reach the generator (the super-resolved image is detached), so
    it leaves the generator, weights and gradient accumulators alike, exactly
    as it found it.  The accumulators are cleared at the start of stage (2),
    not before stage (1). *)
Theorem stage_A_leaves_generator_untouched (epoch : Z) (i : nat) (w : world) :
  exists a w1,
    update_D (lr_batch GAN epoch i) (hr_batch GAN epoch i) (full 1) (full 0) w
    = Returned a w1 /\
    requires_grad Generator (d_loss_of a) = false /\
    generator w1 = generator w /\
    generator_optimizer w1 = generator_optimizer w.
Proof.
  eexists _, _. split; [apply update_D_returns|]. now cbn.
Qed.

(** C3: the back-propagations and optimizer steps of one GAN iteration are,
    in order, the discriminator loss as specified, one step of the
    discriminator optimizer, the generator loss as specified, and one step of
    the generator optimizer; each step consumes the gradient of its loss
    alone. *)
Theorem gan_losses_and_steps (epoch : Z) (i : nat) (w : world) :
  exists w' calls,
    train_gan_batch epoch i w = Returned tt w' /\
    history w' = history w ++ calls /\
    filter is_backward_or_step calls
    = [ ev_backward (spec_d_loss w epoch i);
        ev_step DiscriminatorOptimizer;
        ev_backward (spec_g_loss w epoch i);
        ev_step GeneratorOptimizer ] /\
    weights (discriminator w')
    = snd (Adam_step (state (discriminator_optimizer w))
             (param_lr (discriminator_optimizer w))
             (weights (discriminator w)) [spec_d_loss w epoch i]) /\
    weights (generator w')
    = snd (Adam_step (state (generator_optimizer w))
             (param_lr (generator_optimizer w))
             (weights (generator w)) [spec_g_loss w epoch i]).
Proof.
  eexists _, _. split; [apply train_gan_batch_returns|].
  split; [apply history_after_gan_batch|].
  split; [|split; reflexivity].
  rewrite !filter_app.
  assert (filter is_backward_or_step (gan_periodic_calls w epoch i) = []) as ->.
  { unfold gan_periodic_calls. destruct (_ =? 0); destruct (_ =? 0); reflexivity. }
  reflexivity.
Qed.

(** C8: in every GAN iteration the "Train/G Loss" series receives the value
    of [d_loss], the same value the "Train/D Loss" series receives, at the
    same step; the generator loss reaches the "G Loss" meter but no scalar-log
    series. *)
Theorem G_loss_series_receives_d_loss (epoch : Z) (i : nat) (w : world) :
  exists w' calls,
    train_gan_batch epoch i w = Returned tt w' /\
    history w' = history w ++ calls /\
    filter (writes_to "Train/D Loss") calls
    = [ev_add_scalar gan_writer "Train/D Loss" (item (spec_d_loss w epoch i))
         (spec_iters epoch i)] /\
    filter (writes_to "Train/G Loss") calls
    = [ev_add_scalar gan_writer "Train/G Loss" (item (spec_d_loss w epoch i))
         (spec_iters epoch i)] /\
    In (ev_update "G Loss" (item (spec_g_loss w epoch i)) (lr_batch GAN epoch i)) calls /\
    Forall (logs_other_than (item (spec_g_loss w epoch i))) calls.
Proof.
  eexists _, _. split; [apply train_gan_batch_returns|].
  split; [apply history_after_gan_batch|].
  split; [|split; [|split]].
  - rewrite !filter_app, gan_periodic_no_scalar. reflexivity.
  - rewrite !filter_app, gan_periodic_no_scalar. reflexivity.
  - rewrite !in_app_iff. do 2 right. left. right. left. reflexivity.
  - rewrite !Forall_app. repeat split.
    + repeat constructor.
    + repeat constructor.
    + repeat constructor; cbn; discriminate.
    + unfold gan_periodic_calls.
      destruct (_ =? 0); destruct (_ =? 0); repeat constructor.
Qed.

Lemma train_psnr_batch_returns (epoch : Z) (i : nat) (w : world) :
  train_psnr_batch epoch i w = Returned tt (after_psnr_batch epoch w i).
Proof.
  unfold train_psnr_batch, after_psnr_batch, psnr_batch_calls, spec_iters.
  destruct (Z.of_nat i mod 100 =? 0) eqn:E100;
    destruct ((Z.of_nat i + epoch * Z.of_nat len_train_dataloader + 1) mod 1000 =? 0)
      eqn:E1000;
    cbn; rewrite ?E100, ?E1000; reflexivity.
Qed.

Lemma for_returns {A} (body : A -> M unit) (next : world -> A -> world) (xs : list A) :
  (forall x w, body x w = Returned tt (next w x)) ->
  forall w, for_ xs body w = Returned tt (fold_left next xs w).
Proof.
  intros Hbody. induction xs as [|x xs IH]; intros w; cbn; [reflexivity|].
  unfold bind. rewrite Hbody. apply IH.
Qed.

Lemma train_psnr_returns (epoch : Z) (w : world) :
  train_psnr epoch w = Returned tt (after_train_psnr epoch w).
Proof.
  unfold train_psnr, after_train_psnr, bind; cbn.
  apply for_returns, train_psnr_batch_returns.
Qed.

Lemma train_gan_returns (epoch : Z) (w : world) :
  train_gan epoch w = Returned tt (after_train_gan epoch w).
Proof.
  unfold train_gan, after_train_gan, bind; cbn.
  apply for_returns, train_gan_batch_returns.
Qed.

Section Iterations.

Variable next : world -> nat -> world.
Variable calls : world -> nat -> list event.
Hypothesis history_next : forall w i, history (next w i) = history w ++ calls w i.

Lemma history_fold (batches : list nat) (w : world) :
  history (fold_left next batches w) = history w ++ calls_of next calls batches w.
Proof using history_next.
  revert w. induction batches as [|i rest IH]; intros w; cbn.
  - now rewrite app_nil_r.
  - now rewrite IH, history_next, <- app_assoc.
Qed.

Lemma calls_of_Forall (P : event -> Prop) (batches : list nat) (w : world) :
  (forall w i, Forall P (calls w i)) -> Forall P (calls_of next calls batches w).
Proof.
  intros HP. revert w. induction batches as [|i rest IH]; intros w; cbn.
  - constructor.
  - apply Forall_app; split; [apply HP | apply IH].
Qed.

Lemma steps_of_app (tag : string) (l1 l2 : list event) :
  steps_of tag (l1 ++ l2) = steps_of tag l1 ++ steps_of tag l2.
Proof. unfold steps_of. apply flat_map_app. Qed.

Lemma calls_of_steps (tag : string) (step : nat -> Z) (batches : list nat) (w : world) :
  (forall w i, steps_of tag (calls w i) = [step i]) ->
  steps_of tag (calls_of next calls batches w) = map step batches.
Proof.
  intros Hs. revert w. induction batches as [|i rest IH]; intros w; cbn [calls_of map].
  - reflexivity.
  - now rewrite steps_of_app, Hs, IH.
Qed.

Lemma fold_frame (R : world -> world -> Prop) (batches : list nat) (w : world) :
  (forall w, R w w) -> (forall a b c, R a b -> R b c -> R a c) ->
  (forall w i, R w (next w i)) ->
  R w (fold_left next batches w).
Proof.
  intros Hrefl Htrans Hnext. revert w.
  induction batches as [|i rest IH]; intros w; cbn; [apply Hrefl|].
  eapply Htrans; [apply Hnext | apply IH].
Qed.

End Iterations.

Lemma training_frame_refl (w : world) : training_frame w w.
Proof. now repeat split. Qed.

Lemma training_frame_trans (a b c : world) :
  training_frame a b -> training_frame b c -> training_frame a c.
Proof.
  unfold training_frame. intros (?&?&?&?&?&?&?) (?&?&?&?&?&?&?).
  repeat split; congruence.
Qed.

Lemma gan_state_frame_refl (w : world) : gan_state_frame w w.
Proof. now repeat split. Qed.

Lemma gan_state_frame_trans (a b c : world) :
  gan_state_frame a b -> gan_state_frame b c -> gan_state_frame a c.
Proof.
  unfold gan_state_frame. intros (?&?&?&?&?) (?&?&?&?&?).
  repeat split; congruence.
Qed.

Lemma history_after_psnr_batch (epoch : Z) (w : world) (i : nat) :
  history (after_psnr_batch epoch w i) = history w ++ psnr_batch_calls epoch w i.
Proof.
  unfold history, after_psnr_batch; cbn [trace].
  now rewrite rev_app_distr, rev_involutive.
Qed.

Lemma history_after_train_psnr (epoch : Z) (w : world) :
  history (after_train_psnr epoch w) = history w ++ train_psnr_calls epoch w.
Proof.
  unfold after_train_psnr, train_psnr_calls.
  rewrite (history_fold _ _ (history_after_psnr_batch epoch)), history_record.
  now rewrite <- app_assoc.
Qed.

Lemma history_after_train_gan (epoch : Z) (w : world) :
  history (after_train_gan epoch w) = history w ++ train_gan_calls epoch w.
Proof.
  unfold after_train_gan, train_gan_calls.
  rewrite (history_fold _ _ (history_after_gan_batch epoch)), !history_record.
  now rewrite <- !app_assoc.
Qed.

Lemma training_frame_train_psnr (epoch : Z) (w : world) :
  training_frame w (after_train_psnr epoch w).
Proof.
  unfold after_train_psnr.
  eapply training_frame_trans with (b := record (ev_train Generator) w);
    [now repeat split|].
  apply fold_frame;
    [apply training_frame_refl | apply training_frame_trans | now repeat split].
Qed.

Lemma training_frame_train_gan (epoch : Z) (w : world) :
  training_frame w (after_train_gan epoch w).
Proof.
  unfold after_train_gan.
  eapply training_frame_trans
    with (b := record (ev_train Generator) (record (ev_train Discriminator) w));
    [now repeat split|].
  apply fold_frame;
    [apply training_frame_refl | apply training_frame_trans | now repeat split].
Qed.

Lemma gan_state_frame_train_psnr (epoch : Z) (w : world) :
  gan_state_frame w (after_train_psnr epoch w).
Proof.
  unfold after_train_psnr.
  eapply gan_state_frame_trans with (b := record (ev_train Generator) w);
    [now repeat split|].
  apply fold_frame;
    [apply gan_state_frame_refl | apply gan_state_frame_trans | now repeat split].
Qed.

Lemma gan_batch_calls_training (epoch : Z) (w : world) (i : nat) :
  Forall (fun e => is_training_call e = true) (gan_batch_calls epoch w i).
Proof.
  unfold gan_batch_calls, gan_periodic_calls.
  destruct (_ =? 0); destruct (_ =? 0); repeat constructor.
Qed.

Lemma train_gan_calls_training (epoch : Z) (w : world) :
  Forall (fun e => is_training_call e = true) (train_gan_calls epoch w).
Proof.
  unfold train_gan_calls. do 2 (constructor; [reflexivity|]).
  apply calls_of_Forall, gan_batch_calls_training.
Qed.

Lemma psnr_batch_steps (epoch : Z) (w : world) (i : nat) :
  steps_of "Train/MSE Loss" (psnr_batch_calls epoch w i) = [spec_iters epoch i].
Proof.
  unfold psnr_batch_calls.
  destruct (_ =? 0); destruct (_ =? 0); reflexivity.
Qed.

Lemma gan_batch_steps (tag : string) (epoch : Z) (w : world) (i : nat) :
  In tag (train_series GAN) ->
  steps_of tag (gan_batch_calls epoch w i) = [spec_iters epoch i].
Proof.
  intros Htag. unfold gan_batch_calls, gan_periodic_calls.
  cbn in Htag.
  destruct (_ =? 0); destruct (_ =? 0);
    repeat (destruct Htag as [<- | Htag]; [reflexivity|]); destruct Htag.
Qed.

Lemma train_psnr_steps (epoch : Z) (w : world) :
  steps_of "Train/MSE Loss" (train_psnr_calls epoch w)
  = map (spec_iters epoch) (seq 0 len_train_dataloader).
Proof.
  unfold train_psnr_calls.
  change (steps_of ?tag (ev_train Generator :: ?l)) with (steps_of tag l).
  apply calls_of_steps, psnr_batch_steps.
Qed.

Lemma train_gan_steps (tag : string) (epoch : Z) (w : world) :
  In tag (train_series GAN) ->
  steps_of tag (train_gan_calls epoch w)
  = map (spec_iters epoch) (seq 0 len_train_dataloader).
Proof.
  intros Htag. unfold train_gan_calls.
  change (steps_of tag (ev_train Discriminator :: ev_train Generator :: ?l))
    with (steps_of tag l).
  apply calls_of_steps. intros. now apply gan_batch_steps.
Qed.

(** ** Resuming from checkpoints *)

Lemma truthy_nonempty (p : string) : p <> "" -> truthy p = true.
Proof. destruct p; [congruence | reflexivity]. Qed.

(** C9: with a PSNR resume path that names no file, the resume block logs
    "No checkpoint found at '<path>'." and returns; nothing else changes:
    [start_psnr_epoch], the generator and the PSNR optimizer are as they
    were. *)
Theorem missing_psnr_checkpoint_is_skipped (w : world) :
  resume_psnr (args w) <> "" ->
  lookup_file (resume_psnr (args w)) w = None ->
  resume_psnr_checkpoint w
  = Returned tt
      (record (ev_info ("No checkpoint found at '" +:+ resume_psnr (args w) +:+ "'.")) w)
  /\ start_psnr_epoch (args (final (resume_psnr_checkpoint w))) = start_psnr_epoch (args w)
  /\ generator (final (resume_psnr_checkpoint w)) = generator w
  /\ psnr_optimizer (final (resume_psnr_checkpoint w)) = psnr_optimizer w
  /\ files (final (resume_psnr_checkpoint w)) = files w.
Proof.
  intros Hp Hf.
  assert (resume_psnr_checkpoint w
          = Returned tt (record (ev_info ("No checkpoint found at '"
                                          +:+ resume_psnr (args w) +:+ "'.")) w)) as E.
  { unfold resume_psnr_checkpoint, isfile, when, bind, gets. cbv beta.
    now rewrite (truthy_nonempty _ Hp), Hf. }
  rewrite E. now repeat split.
Qed.

(** C10: when a GAN resume path is supplied and at least one of the two
    paths names a file, both files are loaded, the discriminator's first.  A
    missing file makes its load raise FileNotFoundError, with nothing but the
    record of calls changed; when both are checkpoint records the block
    returns and [start_gan_epoch] is the discriminator checkpoint's epoch,
    whatever the generator checkpoint's. *)
Theorem gan_resume_loads_both_files (w : world) :
  let a := args w in
  resume_d a <> "" \/ resume_g a <> "" ->
  lookup_file (resume_d a) w <> None \/ lookup_file (resume_g a) w <> None ->
  match lookup_file (resume_d a) w, lookup_file (resume_g a) w with
  | None, _ =>
      resume_gan_checkpoint w
      = Raised (FileNotFoundError (resume_d a))
          (log_calls [ev_load (resume_d a)] (gan_resume_announced w))
  | Some _, None =>
      resume_gan_checkpoint w
      = Raised (FileNotFoundError (resume_g a))
          (log_calls [ev_load (resume_d a); ev_load (resume_g a)]
             (gan_resume_announced w))
  | Some (checkpoint e_d _ sd_d o_d), Some (checkpoint e_g _ sd_g o_g) =>
      exists w',
        resume_gan_checkpoint w = Returned tt w' /\
        start_gan_epoch (args w') = e_d /\
        weights (discriminator w') = sd_d /\ discriminator_optimizer w' = o_d /\
        weights (generator w') = sd_g /\ generator_optimizer w' = o_g
  | Some (checkpoint e_d _ sd_d o_d), Some (state_dict _) =>
      exists w',
        resume_gan_checkpoint w = Raised (KeyError "state_dict") w' /\
        start_gan_epoch (args w') = e_d
  | Some (state_dict _), Some _ =>
      exists w', resume_gan_checkpoint w = Raised (KeyError "epoch") w'
  end.
Proof.
  intros a Hp Hf.
  assert (truthy (resume_d a) || truthy (resume_g a) = true) as Ht.
  { destruct Hp as [H|H]; rewrite (truthy_nonempty _ H); [reflexivity|].
    apply orb_true_r. }
  unfold resume_gan_checkpoint, isfile, when, bind, gets. cbv beta. fold a. rewrite Ht.
  destruct (lookup_file (resume_d a) w) as [od|] eqn:Ed;
    destruct (lookup_file (resume_g a) w) as [og|] eqn:Eg.
  - destruct od, og; do 3 (cbn; unfold lookup_file in *; cbn; rewrite ?Ed, ?Eg);
      eexists; repeat split.
  - destruct od; do 3 (cbn; unfold lookup_file in *; cbn; rewrite ?Ed, ?Eg); reflexivity.
  - do 3 (cbn; unfold lookup_file in *; cbn; rewrite ?Ed, ?Eg); reflexivity.
  - destruct Hf; congruence.
Qed.

Lemma bind_returned {A B} (c : M A) (k : A -> M B) (w w' : world) (a : A) :
  c w = Returned a w' -> bind c k w = k a w'.
Proof. unfold bind. now intros ->. Qed.

Lemma test_and_log_returns (epoch : Z) (w : world) :
  test_and_log epoch w = Returned tt (log_calls (test_calls epoch w) w).
Proof. reflexivity. Qed.

Lemma is_primary_returns (ngpus_per_node : Z) (w : world) :
  gate_defined ngpus_per_node (args w) ->
  is_primary ngpus_per_node w = Returned (primary ngpus_per_node (args w)) w.
Proof.
  unfold gate_defined, is_primary, primary, py_mod, bind, gets.
  destruct (multiprocessing_distributed (args w)); cbn; [|reflexivity].
  intros H. destruct (Z.eqb_spec ngpus_per_node 0) as [->|_]; [now destruct H|].
  reflexivity.
Qed.

Lemma args_announce_epoch (epoch : Z) (w : world) :
  args (announce_epoch epoch w) = args w.
Proof. unfold announce_epoch. now destruct (distributed (args w)). Qed.

Lemma args_after_train_psnr (epoch : Z) (w : world) :
  args (after_train_psnr epoch w) = args w.
Proof. apply training_frame_train_psnr. Qed.

Lemma args_after_train_gan (epoch : Z) (w : world) :
  args (after_train_gan epoch w) = args w.
Proof. apply training_frame_train_gan. Qed.

Lemma psnr_epoch_to_reload (ngpus_per_node epoch : Z) (w : world) :
  gate_defined ngpus_per_node (args w) ->
  psnr_epoch ngpus_per_node epoch w
  = (best <- torch_load best_PSNR ;; load_state_dict Generator best)
      (after_psnr_save ngpus_per_node epoch w).
Proof.
  intros Hgate. unfold psnr_epoch, after_psnr_save.
  set (w0 := announce_epoch epoch w).
  set (w1 := after_train_psnr epoch w0).
  set (w2 := log_calls (test_calls epoch w1) w1).
  assert (args w2 = args w) as Ea.
  { unfold w2, w1, w0. cbn [args log_calls].
    now rewrite args_after_train_psnr, args_announce_epoch. }
  rewrite (bind_returned _ _ w w (args w)) by reflexivity.
  rewrite (bind_returned _ _ w w0 tt)
    by (unfold w0, announce_epoch, when; now destruct (distributed (args w))).
  rewrite (bind_returned _ _ w0 w1 tt) by apply train_psnr_returns.
  rewrite (bind_returned _ _ w1 w2 tt) by apply test_and_log_returns.
  rewrite (bind_returned _ _ w2 w2 (primary ngpus_per_node (args w)))
    by (rewrite <- Ea; apply is_primary_returns; now rewrite Ea).
  destruct (primary ngpus_per_node (args w)).
  - erewrite bind_returned; [reflexivity|].
    unfold when, psnr_checkpoint, psnr_checkpoint_path. now rewrite Ea.
  - erewrite bind_returned; reflexivity.
Qed.

Lemma history_saved (obj : pyobj) (path : string) (w : world) :
  history (saved obj path w) = history w ++ [ev_save obj path].
Proof. reflexivity. Qed.

Lemma history_announce_epoch (epoch : Z) (w : world) :
  history (announce_epoch epoch w)
  = history w ++ (if distributed (args w) then [ev_set_epoch epoch] else []).
Proof.
  unfold announce_epoch. destruct (distributed (args w)); [reflexivity|].
  now rewrite app_nil_r.
Qed.

Lemma history_after_psnr_save (ngpus_per_node epoch : Z) (w : world) :
  history (after_psnr_save ngpus_per_node epoch w)
  = history w ++ psnr_epoch_calls ngpus_per_node epoch w.
Proof.
  unfold after_psnr_save, psnr_epoch_calls.
  destruct (primary ngpus_per_node (args w)).
  - rewrite history_saved, history_log_calls, history_after_train_psnr,
      history_announce_epoch.
    now rewrite <- !app_assoc.
  - rewrite history_log_calls, history_after_train_psnr, history_announce_epoch.
    now rewrite <- !app_assoc.
Qed.

Lemma files_after_psnr_save_other (ngpus_per_node epoch : Z) (w : world) (p : string) :
  p <> psnr_checkpoint_path epoch ->
  lookup_file p (after_psnr_save ngpus_per_node epoch w) = lookup_file p w.
Proof.
  intros Hp. unfold lookup_file. destruct (truthy p); [|reflexivity].
  assert (files (after_train_psnr epoch (announce_epoch epoch w)) = files w) as Ef.
  { destruct (training_frame_train_psnr epoch (announce_epoch epoch w)) as (_ & H & _).
    rewrite H. unfold announce_epoch. now destruct (distributed (args w)). }
  unfold after_psnr_save. destruct (primary ngpus_per_node (args w)); cbn.
  - rewrite lookup_insert_ne by congruence. now rewrite Ef.
  - now rewrite Ef.
Qed.

Lemma best_PSNR_is_no_epoch_checkpoint (epoch : Z) :
  best_PSNR <> psnr_checkpoint_path epoch.
Proof. cbn. discriminate. Qed.

Lemma psnr_epoch_outcome (ngpus_per_node epoch : Z) (w : world) :
  gate_defined ngpus_per_node (args w) ->
  let w1 := after_psnr_save ngpus_per_node epoch w in
  psnr_epoch ngpus_per_node epoch w
  = match lookup_file best_PSNR w with
    | None => Raised (FileNotFoundError best_PSNR) (record (ev_load best_PSNR) w1)
    | Some (state_dict sd) =>
        Returned tt (set_net Generator {| weights := sd; grad := grad (generator w1) |}
                       (reload_attempted ngpus_per_node epoch w))
    | Some (checkpoint _ _ _ _) =>
        Raised (RuntimeError "Error(s) in loading state_dict")
          (reload_attempted ngpus_per_node epoch w)
    end.
Proof.
  intros Hgate w1.
  pose proof (files_after_psnr_save_other ngpus_per_node epoch w best_PSNR
                (best_PSNR_is_no_epoch_checkpoint epoch)) as Hbest.
  fold w1 in Hbest.
  rewrite psnr_epoch_to_reload by assumption. fold w1.
  unfold torch_load, emit, modify, gets, bind. cbv beta iota.
  change (lookup_file best_PSNR (record (ev_load best_PSNR) w1))
    with (lookup_file best_PSNR w1).
  rewrite Hbest.
  now destruct (lookup_file best_PSNR w) as [[sd|e t sd o]|].
Qed.


Lemma StepLR_step_returns (s : sched) (w : world) :
  step_size (get_sched s w) <> 0 ->
  StepLR_step s w = Returned tt (after_scheduler_step s w).
Proof.
  intros Hs. apply Z.eqb_neq in Hs.
  unfold StepLR_step, after_scheduler_step, py_mod, when, emit, modify, gets, bind.
  destruct s; cbn in *; rewrite Hs;
    destruct (_ + 1 =? 0); cbn; try reflexivity;
    destruct (_ mod _ =? 0); reflexivity.
Qed.

Lemma history_after_scheduler_step (s : sched) (w : world) :
  history (after_scheduler_step s w) = history w ++ [ev_scheduler_step s].
Proof.
  unfold after_scheduler_step. destruct (_ || _); now destruct s.
Qed.

Lemma args_after_scheduler_step (s : sched) (w : world) :
  args (after_scheduler_step s w) = args w.
Proof.
  unfold after_scheduler_step. destruct (_ || _); now destruct s.
Qed.

Lemma step_size_after_D_step (w : world) :
  step_size (generator_scheduler (after_scheduler_step DiscriminatorScheduler w))
  = step_size (generator_scheduler w).
Proof. unfold after_scheduler_step. now destruct (_ || _). Qed.

Lemma gan_epoch_returns (ngpus_per_node epoch : Z) (w : world) :
  gate_defined ngpus_per_node (args w) ->
  step_size (discriminator_scheduler w) <> 0 ->
  step_size (generator_scheduler w) <> 0 ->
  gan_epoch ngpus_per_node epoch w = Returned tt (after_gan_epoch ngpus_per_node epoch w).
Proof.
  intros Hgate HD HG. unfold gan_epoch, after_gan_epoch.
  set (w0 := announce_epoch epoch w).
  set (w1 := after_train_gan epoch w0).
  set (wD := after_scheduler_step DiscriminatorScheduler w1).
  set (w2 := after_scheduler_step GeneratorScheduler wD).
  set (w3 := log_calls (test_calls epoch w2) w2).
  assert (discriminator_scheduler w1 = discriminator_scheduler w
          /\ generator_scheduler w1 = generator_scheduler w) as [ED EG].
  { destruct (training_frame_train_gan epoch w0) as (_ & _ & H1 & H2 & _).
    unfold w1. rewrite H1, H2.
    unfold w0, announce_epoch. now destruct (distributed (args w)). }
  assert (args w3 = args w) as Ea.
  { unfold w3, w2, wD, w1, w0. cbn [args log_calls].
    now rewrite !args_after_scheduler_step, args_after_train_gan, args_announce_epoch. }
  rewrite (bind_returned _ _ w w (args w)) by reflexivity.
  rewrite (bind_returned _ _ w w0 tt)
    by (unfold w0, announce_epoch, when; now destruct (distributed (args w))).
  rewrite (bind_returned _ _ w0 w1 tt) by apply train_gan_returns.
  rewrite (bind_returned _ _ w1 wD tt)
    by (apply StepLR_step_returns; cbn; now rewrite ED).
  rewrite (bind_returned _ _ wD w2 tt)
    by (apply StepLR_step_returns; cbn; unfold wD;
        now rewrite step_size_after_D_step, EG).
  rewrite (bind_returned _ _ w2 w3 tt) by apply test_and_log_returns.
  rewrite (bind_returned _ _ w3 w3 (primary ngpus_per_node (args w)))
    by (rewrite <- Ea; apply is_primary_returns; now rewrite Ea).
  unfold when. destruct (primary ngpus_per_node (args w)); [|reflexivity].
  unfold gan_checkpoints. now rewrite Ea.
Qed.

Lemma history_after_gan_epoch (ngpus_per_node epoch : Z) (w : world) :
  history (after_gan_epoch ngpus_per_node epoch w)
  = history w ++ gan_epoch_calls ngpus_per_node epoch w.
Proof.
  unfold after_gan_epoch, gan_epoch_calls.
  destruct (primary ngpus_per_node (args w)); cbn [fold_left gan_checkpoints map].
  - rewrite !history_saved, history_log_calls, !history_after_scheduler_step,
      history_after_train_gan, history_announce_epoch.
    now rewrite <- !app_assoc.
  - rewrite history_log_calls, !history_after_scheduler_step,
      history_after_train_gan, history_announce_epoch.
    now rewrite <- !app_assoc.
Qed.

Lemma generator_after_scheduler_step (s : sched) (w : world) :
  generator (after_scheduler_step s w) = generator w.
Proof. unfold after_scheduler_step. destruct (_ || _); now destruct s. Qed.

(** C7, as the code has it: a GAN epoch runs every training batch, then
    advances the discriminator's and the generator's learning-rate
    schedulers, then calls the evaluation once (on the generator as trained),
    then passes the checkpoint-save gate. *)
Theorem gan_epoch_order (ngpus_per_node epoch : Z) (w : world) :
  gate_defined ngpus_per_node (args w) ->
  step_size (discriminator_scheduler w) <> 0 ->
  step_size (generator_scheduler w) <> 0 ->
  exists w' training evaluation saving,
    gan_epoch ngpus_per_node epoch w = Returned tt w' /\
    history w' = history w
      ++ (if distributed (args w) then [ev_set_epoch epoch] else [])
      ++ training
      ++ [ev_scheduler_step DiscriminatorScheduler; ev_scheduler_step GeneratorScheduler]
      ++ evaluation
      ++ saving /\
    training = train_gan_calls epoch (announce_epoch epoch w) /\
    Forall (fun e => is_training_call e = true) training /\
    steps_of "Train/D Loss" training
    = map (spec_iters epoch) (seq 0 len_train_dataloader) /\
    evaluation = test_calls epoch (after_train_gan epoch (announce_epoch epoch w)) /\
    saving = (if primary ngpus_per_node (args w)
              then map (fun '(obj, path) => ev_save obj path) (gan_checkpoints epoch w')
              else []).
Proof.
  intros Hgate HD HG.
  eexists _, _, _, _.
  split; [now apply gan_epoch_returns|].
  split; [rewrite history_after_gan_epoch; unfold gan_epoch_calls; reflexivity|].
  split; [reflexivity|].
  split; [apply train_gan_calls_training|].
  split; [apply train_gan_steps; left; reflexivity|].
  split.
  - unfold test_calls. now rewrite !generator_after_scheduler_step.
  - unfold after_gan_epoch. now destruct (primary ngpus_per_node (args w)).
Qed.

Lemma gan_schedule_frame (a : Args) (n : Z) (lr_d lr_g : Q) (w w' : world) :
  training_frame w w' -> gan_schedule a n lr_d lr_g w -> gan_schedule a n lr_d lr_g w'.
Proof.
  unfold training_frame, gan_schedule.
  intros (_ & _ & -> & -> & _ & -> & ->) H. exact H.
Qed.

Lemma gan_schedule_after_steps (a : Args) (n : Z) (lr_d lr_g : Q) (w : world) :
  0 <= n ->
  gan_schedule a n lr_d lr_g w ->
  gan_schedule a (n + 1) (decayed a (n + 1) lr_d) (decayed a (n + 1) lr_g)
    (after_scheduler_step GeneratorScheduler
       (after_scheduler_step DiscriminatorScheduler w)).
Proof.
  intros Hn (HD & HG & Hd & Hg).
  assert ((n + 1 =? 0) = false) as E0 by lia.
  unfold gan_schedule, decayed, after_scheduler_step. cbn.
  rewrite HD. cbn. rewrite E0. cbn.
  destruct ((n + 1) mod (gan_epochs a / 2) =? 0) eqn:Em; cbn;
    rewrite HG; cbn; rewrite E0, Em; cbn; now rewrite ?Hd, ?Hg.
Qed.

Lemma training_frame_announce_epoch (epoch : Z) (w : world) :
  training_frame w (announce_epoch epoch w).
Proof. unfold announce_epoch. destruct (distributed (args w)); now repeat split. Qed.

Lemma gan_schedule_after_epoch (ngpus_per_node epoch : Z) (a : Args) (n : Z)
    (lr_d lr_g : Q) (w : world) :
  0 <= n ->
  gan_schedule a n lr_d lr_g w ->
  gan_schedule a (n + 1) (decayed a (n + 1) lr_d) (decayed a (n + 1) lr_g)
    (after_gan_epoch ngpus_per_node epoch w).
Proof.
  intros Hn Hs. unfold after_gan_epoch.
  set (w1 := after_train_gan epoch (announce_epoch epoch w)).
  assert (gan_schedule a n lr_d lr_g w1) as H1.
  { eapply gan_schedule_frame; [|exact Hs].
    eapply training_frame_trans;
      [apply training_frame_announce_epoch | apply training_frame_train_gan]. }
  apply (gan_schedule_after_steps a n lr_d lr_g w1 Hn) in H1.
  destruct (primary ngpus_per_node (args w)); exact H1.
Qed.

Lemma args_after_gan_epoch (ngpus_per_node epoch : Z) (w : world) :
  args (after_gan_epoch ngpus_per_node epoch w) = args w.
Proof.
  unfold after_gan_epoch.
  destruct (primary ngpus_per_node (args w)); cbn;
    now rewrite !args_after_scheduler_step, args_after_train_gan, args_announce_epoch.
Qed.

Lemma for_app {A} (xs ys : list A) (body : A -> M unit) (w : world) :
  for_ (xs ++ ys) body w = (for_ xs body ;; for_ ys body) w.
Proof.
  revert w. induction xs as [|x xs IH]; intros w; cbn; [reflexivity|].
  unfold bind. destruct (body x w) as [[] w'|e w']; [|reflexivity].
  rewrite IH. reflexivity.
Qed.

(** The GAN loop passes through the world its first [k] iterations leave. *)
Lemma gan_phase_through_completed (ngpus_per_node : Z) (k : nat) (w : world) :
  gan_phase ngpus_per_node w
  = (gan_epochs_completed ngpus_per_node k ;;
     for_ (skipn k (range (start_gan_epoch (args w)) (gan_epochs (args w))))
       (gan_epoch ngpus_per_node)) w.
Proof.
  unfold gan_phase, gan_epochs_completed.
  rewrite (bind_returned _ _ w w (args w)) by reflexivity.
  rewrite <- (firstn_skipn k (range _ _)) at 1. rewrite for_app.
  unfold bind, gets. reflexivity.
Qed.

(** Short of the boundary the learning rates stand. *)
Lemma gan_epochs_before_boundary (ngpus_per_node : Z) (epochs : list Z) :
  forall (w : world) (n : Z) (lr : Q),
    gate_defined ngpus_per_node (args w) ->
    gan_schedule (args w) n lr lr w ->
    0 <= n ->
    n + Z.of_nat (length epochs) < gan_epochs (args w) / 2 ->
    exists w',
      for_ epochs (gan_epoch ngpus_per_node) w = Returned tt w' /\
      args w' = args w /\
      gan_schedule (args w) (n + Z.of_nat (length epochs)) lr lr w'.
Proof.
  induction epochs as [|epoch rest IH]; intros w n lr Hgate Hs Hn Hlt.
  - exists w. cbn. now rewrite Z.add_0_r.
  - cbn [length] in Hlt. cbn [for_].
    assert (gan_epoch ngpus_per_node epoch w
            = Returned tt (after_gan_epoch ngpus_per_node epoch w)) as E.
    { destruct Hs as (HD & HG & _).
      apply gan_epoch_returns; [assumption| |]; rewrite ?HD, ?HG; cbn; lia. }
    rewrite (bind_returned _ _ _ _ _ E).
    pose proof (gan_schedule_after_epoch ngpus_per_node epoch _ _ _ _ _ Hn Hs) as Hs'.
    assert (decayed (args w) (n + 1) lr = lr) as Ed.
    { unfold decayed. rewrite Z.mod_small by lia.
      destruct (Z.eqb_spec (n + 1) 0); [lia | reflexivity]. }
    rewrite Ed in Hs'.
    pose proof (args_after_gan_epoch ngpus_per_node epoch w) as Ea.
    destruct (IH (after_gan_epoch ngpus_per_node epoch w) (n + 1) lr)
      as (w' & Hrun & Hargs & Hsched); rewrite ?Ea; try assumption; try lia.
    exists w'. split; [exact Hrun|]. split; [congruence|].
    replace (n + Z.of_nat (length (epoch :: rest)))
      with (n + 1 + Z.of_nat (length rest)) by (cbn [length]; lia).
    now rewrite Ea in Hsched.
Qed.

Lemma for_invariant {A} (I : world -> Prop) (body : A -> M unit) (xs : list A) :
  (forall x w, I w -> I (final (body x w))) ->
  forall w, I w -> I (final (for_ xs body w)).
Proof.
  intros Hbody. induction xs as [|x xs IH]; intros w Hw; cbn; [exact Hw|].
  unfold bind. specialize (Hbody x w Hw).
  destruct (body x w) as [[] w'|e w']; cbn in *; [now apply IH | exact Hbody].
Qed.

Lemma bind_invariant {A B} (I : world -> Prop) (c : M A) (k : A -> M B) (w : world) :
  I (final (c w)) ->
  (forall a w', I w' -> I (final (k a w'))) ->
  I (final (bind c k w)).
Proof.
  intros Hc Hk. unfold bind. destruct (c w) as [a w'|e w']; cbn in *; auto.
Qed.

Lemma gan_state_frame_after_psnr_save (ngpus_per_node epoch : Z) (w : world) :
  gan_state_frame w (after_psnr_save ngpus_per_node epoch w)
  /\ args (after_psnr_save ngpus_per_node epoch w) = args w.
Proof.
  assert (gan_state_frame w (after_train_psnr epoch (announce_epoch epoch w))) as H.
  { eapply gan_state_frame_trans; [|apply gan_state_frame_train_psnr].
    unfold announce_epoch. destruct (distributed (args w)); now repeat split. }
  unfold after_psnr_save.
  destruct (primary ngpus_per_node (args w)); cbn;
    rewrite args_after_train_psnr, args_announce_epoch; (split; [|reflexivity]);
    destruct H as (?&?&?&?&?); now repeat split.
Qed.

Section Entry.

Variable ngpus_per_node : Z.
Variable a : Args.
Variable w0 : world.
Hypothesis gate : gate_defined ngpus_per_node a.

(** Nothing of the GAN phase has been touched since [w0], and the
    arguments are [a] but for [start_psnr_epoch]. *)
Definition gan_untouched (a : Args) (w0 w : world) : Prop :=
  gan_state_frame w0 w /\ keeps_gan_args a (args w).

Lemma gan_untouched_gate (w : world) :
  gan_untouched a w0 w -> gate_defined ngpus_per_node (args w).
Proof using gate.
  intros [_ Ha]. unfold gate_defined.
  replace (multiprocessing_distributed (args w))
    with (multiprocessing_distributed (set_start_psnr_epoch 0 (args w))) by reflexivity.
  now rewrite Ha.
Qed.

Lemma gan_untouched_step (w w' : world) :
  gan_untouched a w0 w -> gan_state_frame w w' -> args w' = args w -> gan_untouched a w0 w'.
Proof.
  intros [Hf Ha] Hf' Ha'. split.
  - eapply gan_state_frame_trans; eassumption.
  - now rewrite Ha'.
Qed.

Lemma gan_untouched_psnr_epoch (epoch : Z) (w : world) :
  gan_untouched a w0 w -> gan_untouched a w0 (final (psnr_epoch ngpus_per_node epoch w)).
Proof using gate.
  intros Hw.
  rewrite (psnr_epoch_outcome _ _ _ (gan_untouched_gate w Hw)).
  destruct (gan_state_frame_after_psnr_save ngpus_per_node epoch w)
    as [(?&?&?&?&?) Ha].
  destruct (lookup_file best_PSNR w) as [[sd|e t sd o]|]; cbn [final];
    (eapply gan_untouched_step; [exact Hw| |]);
    unfold gan_state_frame, reload_attempted; cbn; try assumption;
    repeat split; assumption.
Qed.

Lemma gan_untouched_resume_psnr (w : world) :
  gan_untouched a w0 w -> gan_untouched a w0 (final (resume_psnr_checkpoint w)).
Proof.
  intros [Hf Ha].
  unfold resume_psnr_checkpoint, isfile, torch_load, when, bind, gets.
  cbv beta.
  destruct (truthy (resume_psnr (args w))) eqn:Et; [|now split].
  destruct (lookup_file (resume_psnr (args w)) w) as [[sd|e t sd o]|] eqn:El;
    unfold lookup_file in *; rewrite Et in El; cbn; rewrite ?Et, ?El; cbn;
    (split; [unfold gan_state_frame in *; cbn; exact Hf
            | unfold keeps_gan_args in *; cbn; exact Ha]).
Qed.

Lemma files_resume_psnr (w : world) :
  files (final (resume_psnr_checkpoint w)) = files w.
Proof.
  unfold resume_psnr_checkpoint, isfile, torch_load, when, bind, gets.
  cbv beta.
  destruct (truthy (resume_psnr (args w))) eqn:Et; [|reflexivity].
  destruct (lookup_file (resume_psnr (args w)) w) as [[sd|e t sd o]|] eqn:El;
    unfold lookup_file in *; rewrite Et in El; cbn; rewrite ?Et, ?El; reflexivity.
Qed.

Lemma gan_untouched_resume_gan (w : world) :
  lookup_file (resume_d (args w)) w = None ->
  lookup_file (resume_g (args w)) w = None ->
  gan_untouched a w0 w -> gan_untouched a w0 (final (resume_gan_checkpoint w)).
Proof.
  intros Hd Hg Hw.
  unfold resume_gan_checkpoint, isfile, when, bind, gets. cbv beta.
  destruct (truthy (resume_d (args w)) || truthy (resume_g (args w))); [|exact Hw].
  rewrite Hd, Hg.
  destruct Hw as [Hf Ha]. split; [exact Hf | exact Ha].
Qed.

Lemma gan_untouched_until_gan_phase (w : world) :
  lookup_file (resume_d a) w = None ->
  lookup_file (resume_g a) w = None ->
  gan_untouched a w0 w -> gan_untouched a w0 (final (until_gan_phase ngpus_per_node w)).
Proof using gate.
  intros Hd Hg Hw. unfold until_gan_phase.
  pose proof (gan_untouched_resume_psnr w Hw) as H1.
  pose proof (files_resume_psnr w) as Hfiles.
  unfold bind at 1.
  destruct (resume_psnr_checkpoint w) as [[] w1|e w1]; cbn [final] in *; [|exact H1].
  assert (resume_d (args w1) = resume_d a /\ resume_g (args w1) = resume_g a)
    as [Hd1 Hg1].
  { destruct H1 as [_ Ha]. unfold keeps_gan_args in Ha.
    split.
    - replace (resume_d (args w1)) with (resume_d (set_start_psnr_epoch 0 (args w1)))
        by reflexivity. now rewrite Ha.
    - replace (resume_g (args w1)) with (resume_g (set_start_psnr_epoch 0 (args w1)))
        by reflexivity. now rewrite Ha. }
  apply bind_invariant.
  { apply gan_untouched_resume_gan; [| |exact H1];
      unfold lookup_file in *; rewrite ?Hd1, ?Hg1, Hfiles; assumption. }
  intros _ w2 H2.
  apply bind_invariant; [exact H2|].
  intros a2 w3 H3.
  apply bind_invariant.
  { destruct H3 as [(?&?&?&?&?) ?]. split; [now repeat split | assumption]. }
  intros _ w4 H4. unfold psnr_phase.
  apply bind_invariant; [exact H4|].
  intros a5 w5 H5.
  apply for_invariant; [|exact H5].
  intros epoch w6. apply gan_untouched_psnr_epoch.
Qed.

End Entry.

Lemma firstn_succ {A} (l : list A) (n : nat) :
  (n < length l)%nat -> exists x, firstn (S n) l = firstn n l ++ [x].
Proof.
  revert n. induction l as [|y l IH]; intros n Hn; cbn in Hn; [lia|].
  destruct n as [|n]; [now exists y|].
  destruct (IH n) as [x Hx]; [lia|].
  exists x. cbn [firstn]. now rewrite Hx.
Qed.

(** C5, as the code has it: when GAN training starts from the optimizers
    and schedulers [main_worker] builds (no GAN checkpoint is resumed:
    neither resume path names a file) and [gan_epochs] is at least 2, then
    after [gan_epochs // 2] completed iterations of the GAN loop both
    learning rates are [gan_lr * 0.1], and after any smaller number of
    completed iterations both are still [gan_lr]. *)
Theorem lr_decays_at_half_the_gan_epochs (ngpus_per_node : Z) (a : Args)
    (fs : gmap string pyobj) (w : world) (k : nat) :
  lookup_file (resume_d a) (construct a fs) = None ->
  lookup_file (resume_g a) (construct a fs) = None ->
  2 <= gan_epochs a ->
  gate_defined ngpus_per_node a ->
  until_gan_phase ngpus_per_node (construct a fs) = Returned tt w ->
  (k <= length (range (start_gan_epoch a) (gan_epochs a)))%nat ->
  Z.of_nat k <= gan_epochs a / 2 ->
  exists w',
    gan_epochs_completed ngpus_per_node k w = Returned tt w' /\
    param_lr (discriminator_optimizer w')
    = (if Z.of_nat k =? gan_epochs a / 2 then gan_lr a * (1 # 10) else gan_lr a)%Q /\
    param_lr (generator_optimizer w')
    = (if Z.of_nat k =? gan_epochs a / 2 then gan_lr a * (1 # 10) else gan_lr a)%Q.
Proof.
  intros Hd Hg Hge Hgate Hrun Hk Hhalf.
  assert (gan_untouched a (construct a fs) w) as [Hf Ha].
  { pose proof (gan_untouched_until_gan_phase ngpus_per_node a (construct a fs) Hgate
                  (construct a fs) Hd Hg) as H.
    rewrite Hrun in H. apply H. split; [apply gan_state_frame_refl | reflexivity]. }
  assert (gan_epochs (args w) = gan_epochs a
          /\ start_gan_epoch (args w) = start_gan_epoch a
          /\ gate_defined ngpus_per_node (args w)) as (Ege & Est & Hgate').
  { unfold keeps_gan_args in Ha. repeat split.
    - replace (gan_epochs (args w)) with (gan_epochs (set_start_psnr_epoch 0 (args w)))
        by reflexivity. now rewrite Ha.
    - replace (start_gan_epoch (args w))
        with (start_gan_epoch (set_start_psnr_epoch 0 (args w))) by reflexivity.
      now rewrite Ha.
    - apply (gan_untouched_gate ngpus_per_node a (construct a fs) Hgate w).
      now split. }
  assert (gan_schedule (args w) 0 (gan_lr a) (gan_lr a) w) as Hs.
  { destruct Hf as (_ & HoD & HoG & HsD & HsG).
    unfold gan_schedule. rewrite HsD, HsG, HoD, HoG, Ege. now cbn. }
  assert (0 < gan_epochs a / 2) as Hpos by (apply Z.div_str_pos; lia).
  unfold gan_epochs_completed, bind, gets. cbv beta. rewrite Ege, Est.
  set (epochs := range (start_gan_epoch a) (gan_epochs a)) in *.
  destruct (Z.eqb_spec (Z.of_nat k) (gan_epochs a / 2)) as [Hkeq|Hkne].
  - destruct k as [|k']; [lia|].
    destruct (firstn_succ epochs k') as [x Hx]; [lia|].
    rewrite Hx, for_app.
    destruct (gan_epochs_before_boundary ngpus_per_node (firstn k' epochs) w 0 (gan_lr a))
      as (w1 & Hrun1 & Ha1 & Hs1); try assumption; try lia.
    { rewrite length_firstn, Ege. lia. }
    rewrite (bind_returned _ _ _ _ _ Hrun1).
    rewrite length_firstn, Nat.min_l in Hs1 by lia.
    rewrite <- Ha1 in Hs1, Hgate'.
    assert (gan_epoch ngpus_per_node x w1
            = Returned tt (after_gan_epoch ngpus_per_node x w1)) as E.
    { destruct Hs1 as (HD & HG & _).
      apply gan_epoch_returns; [assumption| |]; rewrite ?HD, ?HG; cbn;
        rewrite Ha1, Ege; lia. }
    cbn [for_]. rewrite (bind_returned _ _ _ _ _ E).
    eexists. split; [reflexivity|].
    assert (0 <= 0 + Z.of_nat k') as Hn by lia.
    pose proof (gan_schedule_after_epoch ngpus_per_node x _ _ _ _ _ Hn Hs1)
      as (_ & _ & HlD & HlG).
    assert (decayed (args w1) (0 + Z.of_nat k' + 1) (gan_lr a)
            = (gan_lr a * (1 # 10))%Q) as Ed.
    { unfold decayed. rewrite Ha1, Ege.
      replace (0 + Z.of_nat k' + 1) with (gan_epochs a / 2) by lia.
      rewrite Z.mod_same by lia. reflexivity. }
    rewrite Ed in HlD, HlG. now split.
  - destruct (gan_epochs_before_boundary ngpus_per_node (firstn k epochs) w 0 (gan_lr a))
      as (w1 & Hrun1 & Ha1 & Hs1); try assumption; try lia.
    { rewrite length_firstn, Ege. lia. }
    exists w1. split; [exact Hrun1|]. destruct Hs1 as (_ & _ & HlD & HlG). now split.
Qed.

Lemma steps_of_nil_if (tag : string) (b : bool) (l : list event) :
  steps_of tag l = [] -> steps_of tag (if b then l else []) = [].
Proof. now destruct b. Qed.

Lemma for_steps (body : Z -> M unit) (tag : string) :
  (forall epoch w,
     exists calls,
       history (final (body epoch w)) = history w ++ calls /\
       steps_of tag calls = map (spec_iters epoch) (seq 0 len_train_dataloader)) ->
  forall epochs w,
    exists calls done,
      history (final (for_ epochs body w)) = history w ++ calls /\
      (done <= length epochs)%nat /\
      (forall w', for_ epochs body w = Returned tt w' -> done = length epochs) /\
      steps_of tag calls = epoch_iters (firstn done epochs).
Proof.
  intros Hbody. induction epochs as [|epoch rest IH]; intros w.
  - exists [], 0%nat. cbn. rewrite app_nil_r. auto.
  - destruct (Hbody epoch w) as (calls & Hh & Hs).
    cbn [for_]. unfold bind.
    destruct (body epoch w) as [[] w1|e w1]; cbn [final] in *.
    + destruct (IH w1) as (calls' & done & Hh' & Hle & Hret & Hs').
      exists (calls ++ calls'), (S done).
      split; [now rewrite Hh', Hh, app_assoc|].
      split; [cbn; lia|].
      split; [intros w' Hw'; cbn; f_equal; eauto|].
      rewrite steps_of_app, Hs, Hs'. reflexivity.
    + exists calls, 1%nat.
      split; [exact Hh|]. split; [cbn; lia|]. split; [discriminate|].
      rewrite Hs. unfold epoch_iters. cbn. now rewrite app_nil_r.
Qed.

Lemma map_seq_shift {A} (f g : nat -> A) (n s t : nat) :
  (forall i, (i < n)%nat -> f (s + i)%nat = g (t + i)%nat) ->
  map f (seq s n) = map g (seq t n).
Proof.
  revert s t. induction n as [|n IH]; intros s t H; [reflexivity|].
  cbn [seq map]. f_equal.
  - specialize (H 0%nat). rewrite !Nat.add_0_r in H. apply H. lia.
  - apply IH. intros i Hi. specialize (H (S i)).
    rewrite !Nat.add_succ_r in H. apply H. lia.
Qed.

Lemma epoch_iters_range (start : Z) (n : nat) :
  epoch_iters (map (fun k => start + Z.of_nat k) (seq 0 n))
  = map (fun k => spec_iters start 0 + Z.of_nat k) (seq 0 (n * len_train_dataloader)).
Proof.
  unfold epoch_iters. induction n as [|n IH]; [reflexivity|].
  rewrite seq_S, map_app, flat_map_app, IH. cbn [map flat_map plus].
  rewrite app_nil_r.
  replace (S n * len_train_dataloader)%nat
    with (n * len_train_dataloader + len_train_dataloader)%nat by lia.
  rewrite seq_app, map_app. f_equal. cbn [plus].
  apply map_seq_shift. intros i _. unfold spec_iters. nia.
Qed.

Lemma consecutive_sorted (c : Z) (s n : nat) :
  StronglySorted Z.lt (map (fun k => c + Z.of_nat k) (seq s n)).
Proof.
  revert s. induction n as [|n IH]; intros s; cbn; constructor; [apply IH|].
  apply List.Forall_forall. intros x Hx. apply in_map_iff in Hx as (k & <- & Hk).
  apply in_seq in Hk. lia.
Qed.

Lemma quiet_ret {A} (tag : string) (a : A) : quiet tag (ret a).
Proof. intros w. exists []. cbn. now rewrite app_nil_r. Qed.

Lemma quiet_raise {A} (tag : string) (e : exn) : quiet tag (raise (A := A) e).
Proof. intros w. exists []. cbn. now rewrite app_nil_r. Qed.

Lemma quiet_gets {A} (tag : string) (f : world -> A) : quiet tag (gets f).
Proof. intros w. exists []. cbn. now rewrite app_nil_r. Qed.

Lemma quiet_modify (tag : string) (f : world -> world) :
  (forall w, trace (f w) = trace w) -> quiet tag (modify f).
Proof.
  intros Hf w. exists []. unfold history. cbn. now rewrite Hf, app_nil_r.
Qed.

Lemma quiet_emit (tag : string) (e : event) :
  steps_of tag [e] = [] -> quiet tag (emit e).
Proof. intros He w. now exists [e]. Qed.

Lemma quiet_bind {A B} (tag : string) (c : M A) (k : A -> M B) :
  quiet tag c -> (forall a, quiet tag (k a)) -> quiet tag (bind c k).
Proof.
  intros Hc Hk w. destruct (Hc w) as (calls & Hh & Hs). unfold bind.
  destruct (c w) as [a w'|e w']; cbn [final] in *.
  - destruct (Hk a w') as (calls' & Hh' & Hs').
    exists (calls ++ calls'). rewrite Hh', Hh, steps_of_app, Hs, Hs'.
    now rewrite app_assoc.
  - now exists calls.
Qed.

Ltac quiet_steps :=
  repeat first
    [ apply quiet_bind; [|intros ?]
    | apply quiet_ret
    | apply quiet_raise
    | apply quiet_gets
    | apply quiet_emit; reflexivity
    | apply quiet_modify; intros ?; reflexivity
    | match goal with
      | |- quiet _ (when ?b _) => destruct b; unfold when
      | |- quiet _ (if ?b then _ else _) => destruct b
      | |- quiet _ (match ?x with _ => _ end) => destruct x
      | |- quiet _ (let (_, _) := ?x in _) => destruct x
      end ].

Lemma quiet_StepLR_step (tag : string) (s : sched) : quiet tag (StepLR_step s).
Proof.
  unfold StepLR_step, py_mod. quiet_steps.
Qed.

Lemma quiet_test_and_log (ph : phase) (tag : string) (epoch : Z) :
  In tag (train_series ph) -> quiet tag (test_and_log epoch).
Proof.
  intros Htag. unfold test_and_log, test, add_scalar.
  destruct ph; cbn in Htag;
    repeat (destruct Htag as [<- | Htag]; [quiet_steps|]); destruct Htag.
Qed.

Lemma quiet_is_primary (tag : string) (ngpus_per_node : Z) :
  quiet tag (is_primary ngpus_per_node).
Proof. unfold is_primary, py_mod. quiet_steps. Qed.

Lemma quiet_torch_load (tag : string) (path : string) : quiet tag (torch_load path).
Proof. unfold torch_load. quiet_steps. Qed.

Lemma quiet_load_state_dict (tag : string) (m : net) (obj : pyobj) :
  quiet tag (load_state_dict m obj).
Proof.
  unfold load_state_dict. quiet_steps.
Qed.

Lemma psnr_epoch_steps (ngpus_per_node epoch : Z) (w : world) :
  exists calls,
    history (final (psnr_epoch ngpus_per_node epoch w)) = history w ++ calls /\
    steps_of "Train/MSE Loss" calls
    = map (spec_iters epoch) (seq 0 len_train_dataloader).
Proof.
  unfold psnr_epoch.
  set (w0 := announce_epoch epoch w).
  set (w1 := after_train_psnr epoch w0).
  rewrite (bind_returned _ _ w w (args w)) by reflexivity.
  rewrite (bind_returned _ _ w w0 tt)
    by (unfold w0, announce_epoch, when; now destruct (distributed (args w))).
  rewrite (bind_returned _ _ w0 w1 tt) by apply train_psnr_returns.
  match goal with |- context [final (?rest w1)] =>
    assert (quiet "Train/MSE Loss" rest) as Hq
  end.
  { apply quiet_bind; [apply (quiet_test_and_log PSNR); now left|intros _].
    apply quiet_bind; [apply quiet_is_primary|intros primary].
    apply quiet_bind.
    - destruct primary; unfold when; [|apply quiet_ret].
      quiet_steps.
    - intros _. apply quiet_bind; [apply quiet_torch_load|intros best].
      apply quiet_load_state_dict. }
  destruct (Hq w1) as (calls & Hh & Hs).
  exists ((if distributed (args w) then [ev_set_epoch epoch] else [])
          ++ train_psnr_calls epoch w0 ++ calls).
  rewrite Hh. unfold w1. rewrite history_after_train_psnr. unfold w0.
  rewrite history_announce_epoch, !steps_of_app, Hs, train_psnr_steps.
  rewrite steps_of_nil_if by reflexivity.
  now rewrite <- !app_assoc, app_nil_r.
Qed.

Lemma gan_epoch_steps (tag : string) (ngpus_per_node epoch : Z) (w : world) :
  In tag (train_series GAN) ->
  exists calls,
    history (final (gan_epoch ngpus_per_node epoch w)) = history w ++ calls /\
    steps_of tag calls = map (spec_iters epoch) (seq 0 len_train_dataloader).
Proof.
  intros Htag. unfold gan_epoch.
  set (w0 := announce_epoch epoch w).
  set (w1 := after_train_gan epoch w0).
  rewrite (bind_returned _ _ w w (args w)) by reflexivity.
  rewrite (bind_returned _ _ w w0 tt)
    by (unfold w0, announce_epoch, when; now destruct (distributed (args w))).
  rewrite (bind_returned _ _ w0 w1 tt) by apply train_gan_returns.
  match goal with |- context [final (?rest w1)] =>
    assert (quiet tag rest) as Hq
  end.
  { apply quiet_bind; [apply quiet_StepLR_step|intros _].
    apply quiet_bind; [apply quiet_StepLR_step|intros _].
    apply quiet_bind; [now apply (quiet_test_and_log GAN)|intros _].
    apply quiet_bind; [apply quiet_is_primary|intros primary].
    destruct primary; unfold when; [|apply quiet_ret].
    quiet_steps. }
  destruct (Hq w1) as (calls & Hh & Hs).
  exists ((if distributed (args w) then [ev_set_epoch epoch] else [])
          ++ train_gan_calls epoch w0 ++ calls).
  rewrite Hh. unfold w1. rewrite history_after_train_gan. unfold w0.
  rewrite history_announce_epoch, !steps_of_app, Hs, train_gan_steps by assumption.
  rewrite steps_of_nil_if by reflexivity.
  now rewrite <- !app_assoc, app_nil_r.
Qed.

Lemma firstn_range (a b : Z) (n : nat) :
  (n <= length (range a b))%nat ->
  firstn n (range a b) = map (fun k => a + Z.of_nat k) (seq 0 n).
Proof.
  unfold range. rewrite length_map, length_seq. intros Hn.
  rewrite firstn_map. f_equal.
  generalize 0%nat as s. revert Hn. generalize (Z.to_nat (b - a)) as m.
  induction n as [|n IH]; intros m Hn s; [reflexivity|].
  destruct m as [|m]; [lia|]. cbn. f_equal. apply IH. lia.
Qed.

Lemma train_batch_steps (ph : phase) (tag : string) (epoch : Z) (i : nat) (w : world) :
  In tag (train_series ph) ->
  exists calls,
    history (final (train_batch ph epoch i w)) = history w ++ calls /\
    steps_of tag calls = [spec_iters epoch i] /\
    captures calls = (spec_iters epoch i mod 1000 =? 0).
Proof.
  intros Htag. destruct ph; cbn [train_batch].
  - rewrite train_psnr_batch_returns. cbn [final].
    exists (psnr_batch_calls epoch w i).
    split; [apply history_after_psnr_batch|].
    destruct Htag as [<-|[]]. split; [apply psnr_batch_steps|].
    unfold psnr_batch_calls.
    destruct (_ =? 0); destruct (_ =? 0); reflexivity.
  - rewrite train_gan_batch_returns. cbn [final].
    exists (gan_batch_calls epoch w i).
    split; [apply history_after_gan_batch|].
    split; [now apply gan_batch_steps|].
    unfold gan_batch_calls, gan_periodic_calls.
    destruct (_ =? 0); destruct (_ =? 0); reflexivity.
Qed.

(** C6: in both phases every batch logs its scalars at, and gates its
    sample capture on, batch_index + epoch_index * batches_per_epoch + 1; and
    whatever way a phase's loop ends, the counter values each of its series
    has received are those of the epochs trained, batch by batch: consecutive
    integers from the first epoch's first value on, hence strictly increasing
    also across epoch boundaries. *)
Theorem global_iteration_counter (ngpus_per_node : Z) (ph : phase) (w : world) :
  let epochs := range (phase_start ph (args w)) (phase_epochs ph (args w)) in
  Forall (fun tag =>
    (forall epoch i w0, exists calls,
        history (final (train_batch ph epoch i w0)) = history w0 ++ calls /\
        steps_of tag calls = [spec_iters epoch i] /\
        captures calls = (spec_iters epoch i mod 1000 =? 0)) /\
    exists calls done,
      history (final (phase_loop ph ngpus_per_node w)) = history w ++ calls /\
      (done <= length epochs)%nat /\
      (forall w', phase_loop ph ngpus_per_node w = Returned tt w' ->
                  done = length epochs) /\
      steps_of tag calls = epoch_iters (firstn done epochs) /\
      steps_of tag calls
      = map (fun k => spec_iters (phase_start ph (args w)) 0 + Z.of_nat k)
          (seq 0 (done * len_train_dataloader)) /\
      StronglySorted Z.lt (steps_of tag calls))
    (train_series ph).
Proof.
  intros epochs. apply List.Forall_forall. intros tag Htag.
  split; [intros; now apply train_batch_steps|].
  assert (exists calls done,
             history (final (phase_loop ph ngpus_per_node w)) = history w ++ calls /\
             (done <= length epochs)%nat /\
             (forall w', phase_loop ph ngpus_per_node w = Returned tt w' ->
                         done = length epochs) /\
             steps_of tag calls = epoch_iters (firstn done epochs))
    as (calls & done & Hh & Hle & Hret & Hs).
  { destruct ph; cbn [phase_loop phase_start phase_epochs] in *.
    - destruct Htag as [<-|[]].
      apply (for_steps (psnr_epoch ngpus_per_node) "Train/MSE Loss").
      intros. apply psnr_epoch_steps.
    - apply (for_steps (gan_epoch ngpus_per_node) tag).
      intros. now apply gan_epoch_steps. }
  exists calls, done. repeat (split; [assumption|]).
  assert (steps_of tag calls
          = map (fun k => spec_iters (phase_start ph (args w)) 0 + Z.of_nat k)
              (seq 0 (done * len_train_dataloader))) as Hc.
  { rewrite Hs. unfold epochs. rewrite firstn_range by exact Hle.
    apply epoch_iters_range. }
  split; [exact Hc|]. rewrite Hc. apply consecutive_sorted.
Qed.

(** * Further properties of the driver *)

(** ** The training steps *)









(** X4: the generator loss is back-propagated through the discriminator,
    which is not frozen in stage (2): when an iteration is over the
    discriminator's accumulators hold the gradients of both losses, while its
    weights are those the discriminator loss alone produced, and the
    generator's accumulators hold the gradient of the generator loss only. *)
Theorem generator_loss_reaches_the_discriminator (epoch : Z) (i : nat) (w : world) :
  exists w',
    train_gan_batch epoch i w = Returned tt w' /\
    requires_grad Discriminator (spec_g_loss w epoch i) = true /\
    requires_grad Generator (spec_d_loss w epoch i) = false /\
    grad (discriminator w') = [spec_d_loss w epoch i; spec_g_loss w epoch i] /\
    grad (generator w') = [spec_g_loss w epoch i] /\
    weights (discriminator w')
    = snd (Adam_step (state (discriminator_optimizer w))
             (param_lr (discriminator_optimizer w))
             (weights (discriminator w)) [spec_d_loss w epoch i]).
Proof.
  eexists. split; [apply train_gan_batch_returns|]. now repeat split.
Qed.

(** ** Resuming from checkpoints that exist *)

(** X5: when the PSNR resume path names a checkpoint record, the block
    returns with [start_psnr_epoch] set to the record's epoch, the generator's
    weights and the PSNR optimizer (learning rate included) replaced by the
    record's, and nothing else changed; when it names a bare state dict, the
    read of its "epoch" key raises KeyError before anything is changed. *)
Theorem psnr_resume_restores_checkpoint (w : world) (obj : pyobj) :
  let path := resume_psnr (args w) in
  lookup_file path w = Some obj ->
  match obj with
  | checkpoint e _ sd o =>
      exists w',
        resume_psnr_checkpoint w = Returned tt w' /\
        args w' = set_start_psnr_epoch e (args w) /\
        generator w' = {| weights := sd; grad := grad (generator w) |} /\
        psnr_optimizer w' = o /\
        gan_state_frame w w' /\ files w' = files w /\
        history w' = history w ++
          [ ev_info ("Loading checkpoint '" +:+ path +:+ "'.");
            ev_load path;
            ev_load_state_dict Generator;
            ev_optimizer_load_state_dict PsnrOptimizer;
            ev_info ("Loaded checkpoint '" +:+ path +:+ "' (epoch " +:+ str e +:+ ").") ]
  | state_dict _ =>
      resume_psnr_checkpoint w
      = Raised (KeyError "epoch")
          (log_calls [ev_info ("Loading checkpoint '" +:+ path +:+ "'."); ev_load path] w)
  end.
Proof.
  intros path Hf.
  assert (truthy path = true) as Et.
  { unfold lookup_file in Hf. destruct (truthy path); [reflexivity | discriminate]. }
  unfold resume_psnr_checkpoint, isfile, torch_load, when, bind, gets. cbv beta.
  fold path. rewrite Et, Hf.
  unfold lookup_file in *. rewrite Et in Hf.
  destruct obj as [sd|e t sd o]; cbn; rewrite ?Et, ?Hf; cbn.
  - reflexivity.
  - eexists. split; [reflexivity|]. repeat split.
    unfold history. cbn [trace record set_optim set_net set_args rev].
    now rewrite <- !app_assoc.
Qed.

Lemma resume_gan_both_records (w : world) (e_d : Z) (t_d : string) (sd_d : Weights)
    (o_d : Adam) (e_g : Z) (t_g : string) (sd_g : Weights) (o_g : Adam) :
  lookup_file (resume_d (args w)) w = Some (checkpoint e_d t_d sd_d o_d) ->
  lookup_file (resume_g (args w)) w = Some (checkpoint e_g t_g sd_g o_g) ->
  exists w',
    resume_gan_checkpoint w = Returned tt w' /\
    args w' = set_start_gan_epoch e_d (args w) /\
    discriminator w' = {| weights := sd_d; grad := grad (discriminator w) |} /\
    discriminator_optimizer w' = o_d /\
    generator w' = {| weights := sd_g; grad := grad (generator w) |} /\
    generator_optimizer w' = o_g /\
    discriminator_scheduler w' = discriminator_scheduler w /\
    generator_scheduler w' = generator_scheduler w /\
    psnr_optimizer w' = psnr_optimizer w /\ files w' = files w.
Proof.
  intros Ed Eg.
  assert (truthy (resume_d (args w)) = true) as Et.
  { unfold lookup_file in Ed. destruct (truthy _); [reflexivity | discriminate]. }
  unfold resume_gan_checkpoint, isfile, when, bind, gets. cbv beta.
  rewrite Et. cbn [orb].
  do 3 (cbn; unfold lookup_file in *; cbn; rewrite ?Ed, ?Eg).
  eexists. repeat split.
Qed.

(** X6: the GAN resume block returns in exactly two situations.  When
    neither path names a file it leaves everything as it was, but for the
    message "No checkpoint found at '<d>' or '<g>'." logged if a path was
    given; when both name checkpoint records it returns with both restored.
    In every other situation (a path that names no file beside one that does,
    a bare state dict in place of a record) it raises. *)
Theorem gan_resume_returns_or_raises (w : world) :
  let a := args w in
  match lookup_file (resume_d a) w, lookup_file (resume_g a) w with
  | None, None =>
      resume_gan_checkpoint w
      = Returned tt
          (if truthy (resume_d a) || truthy (resume_g a)
           then record (ev_info ("No checkpoint found at '" +:+ resume_d a +:+ "' or '"
                                 +:+ resume_g a +:+ "'.")) w
           else w)
  | Some (checkpoint _ _ _ _), Some (checkpoint _ _ _ _) =>
      exists w', resume_gan_checkpoint w = Returned tt w'
  | _, _ => exists e w', resume_gan_checkpoint w = Raised e w'
  end.
Proof.
  intros a.
  destruct (lookup_file (resume_d a) w) as [od|] eqn:Ed;
    destruct (lookup_file (resume_g a) w) as [og|] eqn:Eg.
  - destruct od as [sd|e t sd o], og as [sd'|e' t' sd' o'].
    1-3: assert (truthy (resume_d a) = true) as Et
      by (unfold lookup_file in Ed; destruct (truthy _); [reflexivity | discriminate]);
      unfold resume_gan_checkpoint, isfile, when, bind, gets; cbv beta; fold a;
      rewrite Et; cbn [orb];
      do 3 (cbn; unfold lookup_file in *; cbn; rewrite ?Ed, ?Eg);
      eexists _, _; reflexivity.
    destruct (resume_gan_both_records w _ _ _ _ _ _ _ _ Ed Eg) as (w' & H & _).
    now exists w'.
  - assert (truthy (resume_d a) = true) as Et
      by (unfold lookup_file in Ed; destruct (truthy _); [reflexivity | discriminate]).
    unfold resume_gan_checkpoint, isfile, when, bind, gets; cbv beta; fold a.
    rewrite Et; cbn [orb].
    destruct od; do 3 (cbn; unfold lookup_file in *; cbn; rewrite ?Ed, ?Eg);
      eexists _, _; reflexivity.
  - assert (truthy (resume_g a) = true) as Et
      by (unfold lookup_file in Eg; destruct (truthy _); [reflexivity | discriminate]).
    unfold resume_gan_checkpoint, isfile, when, bind, gets; cbv beta; fold a.
    rewrite Et, orb_true_r.
    destruct og; do 3 (cbn; unfold lookup_file in *; cbn; rewrite ?Ed, ?Eg);
      eexists _, _; reflexivity.
  - unfold resume_gan_checkpoint, isfile, when, bind, gets; cbv beta; fold a.
    destruct (truthy (resume_d a) || truthy (resume_g a)); [|reflexivity].
    now rewrite Ed, Eg.
Qed.

Lemma gan_checkpoint_paths_differ (e e' : Z) :
  discriminator_checkpoint_path e <> generator_checkpoint_path e'.
Proof. cbn. discriminate. Qed.


(** ** What a whole run does and never does *)

Lemma emits_only_ret {A} (P : event -> Prop) (a : A) : emits_only P (ret a).
Proof. intros w. exists []. cbn. now rewrite app_nil_r. Qed.

Lemma emits_only_raise {A} (P : event -> Prop) (e : exn) :
  emits_only P (raise (A := A) e).
Proof. intros w. exists []. cbn. now rewrite app_nil_r. Qed.

Lemma emits_only_gets {A} (P : event -> Prop) (f : world -> A) : emits_only P (gets f).
Proof. intros w. exists []. cbn. now rewrite app_nil_r. Qed.

Lemma emits_only_modify (P : event -> Prop) (f : world -> world) :
  (forall w, trace (f w) = trace w) -> emits_only P (modify f).
Proof.
  intros Hf w. exists []. unfold history. cbn. now rewrite Hf, app_nil_r.
Qed.

Lemma emits_only_emit (P : event -> Prop) (e : event) : P e -> emits_only P (emit e).
Proof. intros He w. exists [e]. split; [reflexivity | now constructor]. Qed.

Lemma emits_only_bind {A B} (P : event -> Prop) (c : M A) (k : A -> M B) :
  emits_only P c -> (forall a, emits_only P (k a)) -> emits_only P (bind c k).
Proof.
  intros Hc Hk w. destruct (Hc w) as (calls & Hh & HP). unfold bind.
  destruct (c w) as [a w'|e w']; cbn [final] in *.
  - destruct (Hk a w') as (calls' & Hh' & HP').
    exists (calls ++ calls'). rewrite Hh', Hh, app_assoc.
    split; [reflexivity | now apply Forall_app].
  - now exists calls.
Qed.

Lemma emits_only_for {A} (P : event -> Prop) (body : A -> M unit) (xs : list A) :
  (forall x, emits_only P (body x)) -> emits_only P (for_ xs body).
Proof.
  intros Hbody. induction xs as [|x xs IH]; cbn [for_].
  - apply emits_only_ret.
  - apply emits_only_bind; [apply Hbody | intros _; exact IH].
Qed.

(** Every primitive is a composition of [emit], [modify], [gets], [ret] and
    [raise]; [event_ok] settles the events met on the way. *)
Ltac emits_steps event_ok :=
  repeat first
    [ apply emits_only_bind; [|intros ?]
    | apply emits_only_for; intros ?
    | apply emits_only_ret
    | apply emits_only_raise
    | apply emits_only_gets
    | apply emits_only_emit; event_ok
    | apply emits_only_modify; intros ?; reflexivity
    | match goal with
      | |- emits_only _ (when ?b _) => destruct b; unfold when
      | |- emits_only _ (if ?b then _ else _) => destruct b
      | |- emits_only _ (match ?x with _ => _ end) => destruct x
      | |- emits_only _ (let (_, _) := ?x in _) => destruct x
      end ].

Ltac unfold_driver :=
  unfold main_worker, until_gan_phase, gan_phase, psnr_phase, psnr_epoch, gan_epoch,
    resume_psnr_checkpoint, resume_gan_checkpoint, train_psnr, train_gan,
    train_psnr_batch, train_gan_batch, update_D, update_G, test_and_log, test,
    is_primary, StepLR_step, py_mod, torch_load, torch_save, isfile, load_state_dict,
    optimizer_load_state_dict, getitem_epoch, getitem_state_dict, getitem_optimizer,
    logger_info, add_scalar, update, save_image, zero_grad, call, backward, accumulate,
    step.

(** X8: throughout a run, however it ends, the PSNR writer receives the
    "Train/MSE Loss" series and nothing else: the evaluation metrics of the
    PSNR epochs go, like those of the GAN epochs and all GAN training series,
    to the GAN writer. *)
Theorem psnr_writer_receives_only_the_mse_loss (ngpus_per_node : Z) (w : world) :
  exists calls,
    history (final (main_worker ngpus_per_node w)) = history w ++ calls /\
    Forall scalar_routing calls.
Proof.
  revert w. change (emits_only scalar_routing (main_worker ngpus_per_node)).
  unfold_driver.
  emits_steps ltac:(cbn; first [exact I | reflexivity | discriminate]).
Qed.

(** X9: before the GAN loop is entered no call of GAN training is made (no
    step of the discriminator's or the generator's GAN optimizer, no scheduler
    step, no forward pass or gradient reset of the discriminator); in the GAN
    loop the PSNR optimizer is never stepped and nothing is loaded, from disk
    or into a network or optimizer.  Both hold however the phase ends. *)
Theorem phases_keep_to_their_own_calls (ngpus_per_node : Z) (w : world) :
  (exists calls,
     history (final (until_gan_phase ngpus_per_node w)) = history w ++ calls /\
     Forall (fun e => is_gan_training e = false) calls) /\
  (exists calls,
     history (final (gan_phase ngpus_per_node w)) = history w ++ calls /\
     Forall (fun e => is_psnr_step_or_load e = false) calls).
Proof.
  split; revert w.
  - change (emits_only (fun e => is_gan_training e = false)
              (until_gan_phase ngpus_per_node)).
    unfold_driver. emits_steps ltac:(reflexivity).
  - change (emits_only (fun e => is_psnr_step_or_load e = false)
              (gan_phase ngpus_per_node)).
    unfold_driver. emits_steps ltac:(reflexivity).
Qed.

Lemma keeps_ret {A} (I : world -> Prop) (a : A) : keeps I (ret a).
Proof. intros w H. exact H. Qed.

Lemma keeps_raise {A} (I : world -> Prop) (e : exn) : keeps I (raise (A := A) e).
Proof. intros w H. exact H. Qed.

Lemma keeps_gets {A} (I : world -> Prop) (f : world -> A) : keeps I (gets f).
Proof. intros w H. exact H. Qed.

Lemma keeps_modify (I : world -> Prop) (f : world -> world) :
  (forall w, I w -> I (f w)) -> keeps I (modify f).
Proof. intros Hf w H. now apply Hf. Qed.

Lemma keeps_bind {A B} (I : world -> Prop) (c : M A) (k : A -> M B) :
  keeps I c -> (forall a, keeps I (k a)) -> keeps I (bind c k).
Proof.
  intros Hc Hk w H. apply bind_invariant; [now apply Hc|].
  intros a w' H'. now apply Hk.
Qed.

Lemma keeps_for {A} (I : world -> Prop) (body : A -> M unit) (xs : list A) :
  (forall x, keeps I (body x)) -> keeps I (for_ xs body).
Proof.
  intros Hbody w H. apply for_invariant; [|exact H].
  intros x w' H'. now apply Hbody.
Qed.

(** [step_ok] settles the state changes met on the way. *)
Ltac keeps_steps step_ok :=
  repeat first
    [ apply keeps_bind; [|intros ?]
    | apply keeps_for; intros ?
    | apply keeps_ret
    | apply keeps_raise
    | apply keeps_gets
    | apply keeps_modify; intros ? ?; step_ok
    | match goal with
      | |- keeps _ (when ?b _) => destruct b; unfold when
      | |- keeps _ (if ?b then _ else _) => destruct b
      | |- keeps _ (match ?x with _ => _ end) => destruct x
      | |- keeps _ (let (_, _) := ?x in _) => destruct x
      end ].


(** ** The PSNR phase as a whole *)

Lemma files_resume_gan (w : world) :
  files (final (resume_gan_checkpoint w)) = files w.
Proof.
  assert (keeps (fun w' => files w' = files w) resume_gan_checkpoint) as H;
    [|now apply H].
  unfold_driver. unfold emit. keeps_steps ltac:(assumption).
Qed.

Lemma range_cons (a b : Z) : a < b -> range a b = a :: range (a + 1) b.
Proof.
  intros Hlt. unfold range.
  replace (Z.to_nat (b - a)) with (S (Z.to_nat (b - (a + 1)))) by lia.
  cbn [seq map]. f_equal; [lia|].
  apply map_seq_shift. intros i _. lia.
Qed.

(** X11: a run that gets as far as the PSNR loop with an epoch left to run
    and no file at weights/PSNR.pth cannot get further: it trains, evaluates
    and saves that one epoch and then raises FileNotFoundError on the reload,
    so that no GAN epoch is ever started. *)
Theorem run_needs_the_best_PSNR_file (ngpus_per_node : Z) (w w1 w2 : world) :
  resume_psnr_checkpoint w = Returned tt w1 ->
  resume_gan_checkpoint w1 = Returned tt w2 ->
  gate_defined ngpus_per_node (args w2) ->
  start_psnr_epoch (args w2) < psnr_epochs (args w2) ->
  lookup_file best_PSNR w = None ->
  exists msg w',
    main_worker ngpus_per_node w = Raised (FileNotFoundError best_PSNR) w' /\
    history w'
    = history w2
      ++ ev_info msg
         :: psnr_epoch_calls ngpus_per_node (start_psnr_epoch (args w2))
              (record (ev_info msg) w2)
      ++ [ev_load best_PSNR].
Proof.
  intros H1 H2 Hgate Hlt Hbest.
  assert (lookup_file best_PSNR w2 = None) as Hbest2.
  { pose proof (files_resume_psnr w) as F1. pose proof (files_resume_gan w1) as F2.
    rewrite H1 in F1. rewrite H2 in F2. cbn [final] in F1, F2.
    unfold lookup_file in *. now rewrite F2, F1. }
  eexists _, _.
  split.
  - unfold main_worker, until_gan_phase.
    unfold bind at 1.
    rewrite (bind_returned _ _ _ _ _ H1), (bind_returned _ _ _ _ _ H2).
    rewrite (bind_returned _ _ w2 w2 (args w2)) by reflexivity.
    erewrite (bind_returned _ _ w2 _ tt) by reflexivity.
    unfold psnr_phase.
    erewrite (bind_returned _ _ _ _ (args w2)) by reflexivity.
    rewrite (range_cons _ _ Hlt). cbn [for_]. unfold bind at 1.
    rewrite psnr_epoch_outcome by exact Hgate.
    change (lookup_file best_PSNR (record ?e w2)) with (lookup_file best_PSNR w2).
    rewrite Hbest2. reflexivity.
  - rewrite history_record, history_after_psnr_save, history_record.
    now rewrite <- !app_assoc.
Qed.



(** ** The GAN phase as a whole *)


Lemma decayed_decay_times (a : Args) (k : Z) (lr : Q) :
  0 < gan_epochs a / 2 -> 0 <= k ->
  decayed a (k + 1) (decay_times (Z.to_nat (k / (gan_epochs a / 2))) lr)
  = decay_times (Z.to_nat ((k + 1) / (gan_epochs a / 2))) lr.
Proof.
  intros Hs Hk. unfold decayed. set (s := gan_epochs a / 2) in *.
  assert (0 <= k / s) as Hq by (apply Z.div_pos; lia).
  destruct (Z.eqb_spec ((k + 1) mod s) 0) as [E|E].
  - assert ((k + 1) / s = k / s + 1) as ->.
    { pose proof (Z.div_mod k s ltac:(lia)). pose proof (Z.mod_pos_bound k s Hs).
      pose proof (Z.div_mod (k + 1) s ltac:(lia)). nia. }
    replace (Z.to_nat (k / s + 1)) with (S (Z.to_nat (k / s))) by lia.
    reflexivity.
  - assert ((k + 1) / s = k / s) as ->; [|reflexivity].
    pose proof (Z.div_mod k s ltac:(lia)). pose proof (Z.mod_pos_bound k s Hs).
    pose proof (Z.div_mod (k + 1) s ltac:(lia)).
    pose proof (Z.mod_pos_bound (k + 1) s Hs). nia.
Qed.

Lemma gan_epochs_follow_schedule (ngpus_per_node : Z) (lr : Q) (epochs : list Z) :
  forall (w : world) (k : Z),
    gate_defined ngpus_per_node (args w) ->
    0 < gan_epochs (args w) / 2 ->
    0 <= k ->
    gan_schedule (args w) k
      (decay_times (Z.to_nat (k / (gan_epochs (args w) / 2))) lr)
      (decay_times (Z.to_nat (k / (gan_epochs (args w) / 2))) lr) w ->
    exists w',
      for_ epochs (gan_epoch ngpus_per_node) w = Returned tt w' /\
      args w' = args w /\
      gan_schedule (args w) (k + Z.of_nat (length epochs))
        (decay_times (Z.to_nat ((k + Z.of_nat (length epochs))
                                / (gan_epochs (args w) / 2))) lr)
        (decay_times (Z.to_nat ((k + Z.of_nat (length epochs))
                                / (gan_epochs (args w) / 2))) lr) w'.
Proof.
  induction epochs as [|epoch rest IH]; intros w k Hgate Hpos Hk Hs.
  - exists w. cbn. now rewrite Z.add_0_r.
  - cbn [for_].
    assert (gan_epoch ngpus_per_node epoch w
            = Returned tt (after_gan_epoch ngpus_per_node epoch w)) as E.
    { destruct Hs as (HD & HG & _).
      apply gan_epoch_returns; [assumption| |]; rewrite ?HD, ?HG; cbn; lia. }
    rewrite (bind_returned _ _ _ _ _ E).
    pose proof (gan_schedule_after_epoch ngpus_per_node epoch _ _ _ _ _ Hk Hs) as Hs'.
    rewrite decayed_decay_times in Hs' by assumption.
    pose proof (args_after_gan_epoch ngpus_per_node epoch w) as Ea.
    destruct (IH (after_gan_epoch ngpus_per_node epoch w) (k + 1))
      as (w' & Hrun & Hargs & Hsched); rewrite ?Ea; try assumption; try lia.
    exists w'. split; [exact Hrun|]. split; [congruence|].
    replace (k + Z.of_nat (length (epoch :: rest)))
      with (k + 1 + Z.of_nat (length rest)) by (cbn [length]; lia).
    now rewrite Ea in Hsched.
Qed.

(** X14: in a run that resumes no GAN checkpoint and has [gan_epochs] of
    at least 2, both GAN learning rates are, after any number [k] of completed
    iterations of the GAN loop, the initial rate multiplied by 0.1 once for
    every full [gan_epochs // 2] epochs among the [k]. *)
Theorem lr_after_completed_gan_epochs (ngpus_per_node : Z) (a : Args)
    (fs : gmap string pyobj) (w : world) (k : nat) :
  lookup_file (resume_d a) (construct a fs) = None ->
  lookup_file (resume_g a) (construct a fs) = None ->
  2 <= gan_epochs a ->
  gate_defined ngpus_per_node a ->
  until_gan_phase ngpus_per_node (construct a fs) = Returned tt w ->
  (k <= length (range (start_gan_epoch a) (gan_epochs a)))%nat ->
  exists w',
    gan_epochs_completed ngpus_per_node k w = Returned tt w' /\
    param_lr (discriminator_optimizer w')
    = decay_times (Z.to_nat (Z.of_nat k / (gan_epochs a / 2))) (gan_lr a) /\
    param_lr (generator_optimizer w')
    = decay_times (Z.to_nat (Z.of_nat k / (gan_epochs a / 2))) (gan_lr a).
Proof.
  intros Hd Hg Hge Hgate Hrun Hk.
  assert (gan_untouched a (construct a fs) w) as [Hf Ha].
  { pose proof (gan_untouched_until_gan_phase ngpus_per_node a (construct a fs) Hgate
                  (construct a fs) Hd Hg) as H.
    rewrite Hrun in H. apply H. split; [apply gan_state_frame_refl | reflexivity]. }
  assert (gan_epochs (args w) = gan_epochs a
          /\ start_gan_epoch (args w) = start_gan_epoch a
          /\ gate_defined ngpus_per_node (args w)) as (Ege & Est & Hgate').
  { unfold keeps_gan_args in Ha. repeat split.
    - replace (gan_epochs (args w)) with (gan_epochs (set_start_psnr_epoch 0 (args w)))
        by reflexivity. now rewrite Ha.
    - replace (start_gan_epoch (args w))
        with (start_gan_epoch (set_start_psnr_epoch 0 (args w))) by reflexivity.
      now rewrite Ha.
    - apply (gan_untouched_gate ngpus_per_node a (construct a fs) Hgate w).
      now split. }
  assert (0 < gan_epochs a / 2) as Hpos by (apply Z.div_str_pos; lia).
  assert (gan_schedule (args w) 0
            (decay_times (Z.to_nat (0 / (gan_epochs (args w) / 2))) (gan_lr a))
            (decay_times (Z.to_nat (0 / (gan_epochs (args w) / 2))) (gan_lr a)) w) as Hs.
  { destruct Hf as (_ & HoD & HoG & HsD & HsG).
    unfold gan_schedule. rewrite HsD, HsG, HoD, HoG, Ege. now cbn. }
  unfold gan_epochs_completed, bind, gets. cbv beta. rewrite Ege, Est.
  set (epochs := range (start_gan_epoch a) (gan_epochs a)) in *.
  destruct (gan_epochs_follow_schedule ngpus_per_node (gan_lr a) (firstn k epochs) w 0)
    as (w' & Hrun' & _ & (_ & _ & HlD & HlG)); try assumption; try lia.
  { rewrite Ege. exact Hpos. }
  exists w'. split; [exact Hrun'|].
  rewrite length_firstn, Nat.min_l, Ege in HlD, HlG by exact Hk.
  now split.
Qed.

Lemma append_length (s t : string) :
  String.length (s +:+ t) = (String.length s + String.length t)%nat.
Proof.
  induction s as [|c s IH]; [reflexivity|].
  change (String c s +:+ t) with (String c (s +:+ t)). cbn [String.length plus].
  now rewrite IH.
Qed.

Lemma append_inv_tail (s1 s2 t : string) : s1 +:+ t = s2 +:+ t -> s1 = s2.
Proof.
  revert s2. induction s1 as [|c s1 IH]; intros [|c' s2] H.
  - reflexivity.
  - apply (f_equal String.length) in H. rewrite !append_length in H. cbn in H. lia.
  - apply (f_equal String.length) in H. rewrite !append_length in H. cbn in H. lia.
  - change (String c (s1 +:+ t) = String c' (s2 +:+ t)) in H.
    injection H as -> H. f_equal. now apply IH.
Qed.

Lemma to_int_not_nil (z : Z) :
  Z.to_int z <> Decimal.Pos Decimal.Nil /\ Z.to_int z <> Decimal.Neg Decimal.Nil.
Proof.
  pose proof (DecimalZ.to_of (Z.to_int z)) as H. rewrite DecimalZ.of_to in H.
  split; intros E; rewrite E in H; discriminate H.
Qed.

(** [str] renders different integers differently. *)
Lemma str_inj (a b : Z) : str a = str b -> a = b.
Proof.
  unfold str. intros H. apply DecimalZ.to_int_inj.
  apply (f_equal NilZero.int_of_string) in H.
  rewrite !NilZero.isi in H by apply to_int_not_nil.
  now injection H.
Qed.

Lemma discriminator_checkpoint_path_inj (e e' : Z) :
  discriminator_checkpoint_path e = discriminator_checkpoint_path e' -> e = e'.
Proof.
  unfold discriminator_checkpoint_path, os_path_join. intros H.
  do 3 apply String.app_inj in H. now apply append_inv_tail, str_inj in H.
Qed.

Lemma generator_checkpoint_path_inj (e e' : Z) :
  generator_checkpoint_path e = generator_checkpoint_path e' -> e = e'.
Proof.
  unfold generator_checkpoint_path, os_path_join. intros H.
  do 3 apply String.app_inj in H. now apply append_inv_tail, str_inj in H.
Qed.

Lemma checkpoint_of_epoch_saved (e x : Z) (p path tag : string) (sd : Weights)
    (o : Adam) (w : world) :
  (path = p -> x = e) ->
  checkpoint_of_epoch e p w ->
  checkpoint_of_epoch e p (set_files (<[path := checkpoint (x + 1) tag sd o]> (files w)) w).
Proof.
  intros Hpath (t & sd' & o' & H). unfold checkpoint_of_epoch. cbn [files set_files].
  destruct (decide (path = p)) as [E|E].
  - rewrite (Hpath E), E, lookup_insert_eq. now eexists _, _, _.
  - rewrite lookup_insert_ne by exact E. now exists t, sd', o'.
Qed.

Ltac same_checkpoint :=
  intros E;
  first [ apply discriminator_checkpoint_path_inj; exact E
        | apply generator_checkpoint_path_inj; exact E
        | exfalso; eapply gan_checkpoint_paths_differ; exact E
        | exfalso; eapply gan_checkpoint_paths_differ; symmetry; exact E ].

Lemma gan_epoch_keeps_checkpoints (ngpus_per_node e x : Z) (p : string) :
  p = discriminator_checkpoint_path e \/ p = generator_checkpoint_path e ->
  keeps (checkpoint_of_epoch e p) (gan_epoch ngpus_per_node x).
Proof.
  intros Hp. unfold_driver. unfold emit.
  keeps_steps
    ltac:(first [ assumption
                | apply checkpoint_of_epoch_saved; [|assumption];
                  destruct Hp as [-> | ->]; same_checkpoint ]).
Qed.

Lemma args_gan_epoch (ngpus_per_node epoch : Z) (w : world) :
  args (final (gan_epoch ngpus_per_node epoch w)) = args w.
Proof.
  assert (keeps (fun w' => args w' = args w) (gan_epoch ngpus_per_node epoch)) as H;
    [|now apply H].
  unfold_driver. unfold emit. keeps_steps ltac:(assumption).
Qed.

Lemma args_StepLR_step (s : sched) (w : world) :
  args (final (StepLR_step s w)) = args w.
Proof.
  assert (keeps (fun w' => args w' = args w) (StepLR_step s)) as H; [|now apply H].
  unfold_driver. unfold emit. keeps_steps ltac:(assumption).
Qed.

(** A GAN epoch that returns on the saving process has written both its
    checkpoints. *)
Lemma gan_epoch_saves_checkpoints (ngpus_per_node epoch : Z) (w w' : world) :
  gate_defined ngpus_per_node (args w) ->
  primary ngpus_per_node (args w) = true ->
  gan_epoch ngpus_per_node epoch w = Returned tt w' ->
  checkpoint_of_epoch epoch (discriminator_checkpoint_path epoch) w' /\
  checkpoint_of_epoch epoch (generator_checkpoint_path epoch) w'.
Proof.
  intros Hgate Hprim. unfold gan_epoch.
  set (w0 := announce_epoch epoch w).
  set (w1 := after_train_gan epoch w0).
  rewrite (bind_returned _ _ w w (args w)) by reflexivity.
  rewrite (bind_returned _ _ w w0 tt)
    by (unfold w0, announce_epoch, when; now destruct (distributed (args w))).
  rewrite (bind_returned _ _ w0 w1 tt) by apply train_gan_returns.
  assert (args w1 = args w) as Ea1
    by (unfold w1, w0; now rewrite args_after_train_gan, args_announce_epoch).
  unfold bind at 1.
  pose proof (args_StepLR_step DiscriminatorScheduler w1) as EaD.
  destruct (StepLR_step DiscriminatorScheduler w1) as [[] wD|e wD]; [|discriminate].
  unfold bind at 1.
  pose proof (args_StepLR_step GeneratorScheduler wD) as EaG.
  destruct (StepLR_step GeneratorScheduler wD) as [[] wG|e wG]; [|discriminate].
  cbn [final] in EaD, EaG.
  rewrite (bind_returned _ _ wG _ tt) by apply test_and_log_returns.
  set (w3 := log_calls _ wG).
  assert (args w3 = args w) as Ea3 by (unfold w3; cbn [args log_calls]; congruence).
  rewrite (bind_returned _ _ w3 w3 (primary ngpus_per_node (args w)))
    by (rewrite <- Ea3; apply is_primary_returns; now rewrite Ea3).
  rewrite Hprim. unfold when, torch_save, emit, modify, gets, bind. cbv beta iota.
  intros H. injection H as <-. unfold checkpoint_of_epoch. cbn [files set_files record].
  split.
  - rewrite lookup_insert_ne by (apply not_eq_sym, gan_checkpoint_paths_differ).
    unfold discriminator_checkpoint_path. rewrite lookup_insert_eq. now eexists _, _, _.
  - unfold generator_checkpoint_path. rewrite lookup_insert_eq. now eexists _, _, _.
Qed.

Lemma gan_epochs_save_checkpoints (ngpus_per_node : Z) (epochs : list Z) :
  forall w w',
    gate_defined ngpus_per_node (args w) ->
    primary ngpus_per_node (args w) = true ->
    for_ epochs (gan_epoch ngpus_per_node) w = Returned tt w' ->
    forall e, In e epochs ->
      checkpoint_of_epoch e (discriminator_checkpoint_path e) w' /\
      checkpoint_of_epoch e (generator_checkpoint_path e) w'.
Proof.
  induction epochs as [|x rest IH]; intros w w' Hgate Hprim Hrun e Hin; [destruct Hin|].
  cbn [for_] in Hrun. unfold bind in Hrun.
  pose proof (args_gan_epoch ngpus_per_node x w) as Ea.
  destruct (gan_epoch ngpus_per_node x w) as [[] w1|err w1] eqn:E; [|discriminate].
  cbn [final] in Ea.
  destruct (in_inv Hin) as [<- | Hin'].
  - destruct (gan_epoch_saves_checkpoints _ _ _ _ Hgate Hprim E) as [HD HG].
    assert (w' = final (for_ rest (gan_epoch ngpus_per_node) w1)) as ->
      by now rewrite Hrun.
    split; (apply keeps_for; [|assumption]); intros x';
      apply gan_epoch_keeps_checkpoints; [now left | now right].
  - apply (IH w1 w'); rewrite ?Ea; assumption.
Qed.

(** X15: when the GAN loop returns on the saving process, the two
    checkpoints of every epoch it has run are on disk, each a record written
    at the end of its own epoch: no epoch's save overwrites another's. *)
Theorem gan_checkpoints_persist (ngpus_per_node : Z) (w w' : world) :
  gate_defined ngpus_per_node (args w) ->
  primary ngpus_per_node (args w) = true ->
  gan_phase ngpus_per_node w = Returned tt w' ->
  forall epoch,
    In epoch (range (start_gan_epoch (args w)) (gan_epochs (args w))) ->
    checkpoint_of_epoch epoch (discriminator_checkpoint_path epoch) w' /\
    checkpoint_of_epoch epoch (generator_checkpoint_path epoch) w'.
Proof.
  intros Hgate Hprim Hrun. unfold gan_phase in Hrun.
  rewrite (bind_returned _ _ w w (args w)) in Hrun by reflexivity.
  now apply (gan_epochs_save_checkpoints ngpus_per_node _ w w').
Qed.

(** ** The evaluation series across the two phases *)

Lemma steps_of_Forall_nil (tag : string) (calls : list event) :
  Forall (fun e => steps_of tag [e] = []) calls -> steps_of tag calls = [].
Proof.
  induction 1 as [|e l He _ IH]; [reflexivity|].
  change (e :: l) with ([e] ++ l). now rewrite steps_of_app, He, IH.
Qed.

Lemma train_calls_write_no_test_series (tag : string) (epoch : Z) (w : world) :
  In tag test_series ->
  steps_of tag (train_psnr_calls epoch w) = [] /\
  steps_of tag (train_gan_calls epoch w) = [].
Proof.
  intros Htag. split; apply steps_of_Forall_nil.
  - unfold train_psnr_calls. constructor; [reflexivity|].
    apply calls_of_Forall. intros w' i. unfold psnr_batch_calls.
    cbn in Htag.
    destruct (_ =? 0); destruct (_ =? 0);
      repeat (destruct Htag as [<- | Htag]; [repeat constructor|]); destruct Htag.
  - unfold train_gan_calls. do 2 (constructor; [reflexivity|]).
    apply calls_of_Forall. intros w' i. unfold gan_batch_calls, gan_periodic_calls.
    cbn in Htag.
    destruct (_ =? 0); destruct (_ =? 0);
      repeat (destruct Htag as [<- | Htag]; [repeat constructor|]); destruct Htag.
Qed.

Lemma test_calls_steps (tag : string) (epoch : Z) (w : world) :
  In tag test_series -> steps_of tag (test_calls epoch w) = [epoch + 1].
Proof.
  intros Htag. cbn in Htag.
  repeat (destruct Htag as [<- | Htag]; [reflexivity|]). destruct Htag.
Qed.

Lemma psnr_epoch_test_steps (tag : string) (ngpus_per_node epoch : Z) (w : world) :
  In tag test_series ->
  exists calls,
    history (final (psnr_epoch ngpus_per_node epoch w)) = history w ++ calls /\
    steps_of tag calls = [epoch + 1].
Proof.
  intros Htag. unfold psnr_epoch.
  set (w0 := announce_epoch epoch w).
  set (w1 := after_train_psnr epoch w0).
  set (w2 := log_calls (test_calls epoch w1) w1).
  rewrite (bind_returned _ _ w w (args w)) by reflexivity.
  rewrite (bind_returned _ _ w w0 tt)
    by (unfold w0, announce_epoch, when; now destruct (distributed (args w))).
  rewrite (bind_returned _ _ w0 w1 tt) by apply train_psnr_returns.
  rewrite (bind_returned _ _ w1 w2 tt) by apply test_and_log_returns.
  match goal with |- context [final (?rest w2)] =>
    assert (quiet tag rest) as Hq
  end.
  { apply quiet_bind; [apply quiet_is_primary|intros primary].
    apply quiet_bind.
    - destruct primary; unfold when; [|apply quiet_ret].
      unfold torch_save. quiet_steps.
    - intros _. apply quiet_bind; [apply quiet_torch_load|intros best].
      apply quiet_load_state_dict. }
  destruct (Hq w2) as (calls & Hh & Hs).
  exists ((if distributed (args w) then [ev_set_epoch epoch] else [])
          ++ train_psnr_calls epoch w0 ++ test_calls epoch w1 ++ calls).
  rewrite Hh. unfold w2. rewrite history_log_calls. unfold w1.
  rewrite history_after_train_psnr. unfold w0 at 1.
  rewrite history_announce_epoch, !steps_of_app, Hs, test_calls_steps by assumption.
  rewrite (proj1 (train_calls_write_no_test_series tag epoch w0 Htag)).
  rewrite steps_of_nil_if by reflexivity.
  now rewrite <- !app_assoc.
Qed.

Lemma gan_epoch_test_steps (tag : string) (ngpus_per_node epoch : Z) (w w' : world) :
  In tag test_series ->
  gan_epoch ngpus_per_node epoch w = Returned tt w' ->
  exists calls,
    history w' = history w ++ calls /\ steps_of tag calls = [epoch + 1].
Proof.
  intros Htag. unfold gan_epoch.
  set (w0 := announce_epoch epoch w).
  set (w1 := after_train_gan epoch w0).
  rewrite (bind_returned _ _ w w (args w)) by reflexivity.
  rewrite (bind_returned _ _ w w0 tt)
    by (unfold w0, announce_epoch, when; now destruct (distributed (args w))).
  rewrite (bind_returned _ _ w0 w1 tt) by apply train_gan_returns.
  unfold bind at 1.
  destruct (quiet_StepLR_step tag DiscriminatorScheduler w1) as (cD & HhD & HsD).
  destruct (StepLR_step DiscriminatorScheduler w1) as [[] wD|e wD]; [|discriminate].
  unfold bind at 1.
  destruct (quiet_StepLR_step tag GeneratorScheduler wD) as (cG & HhG & HsG).
  destruct (StepLR_step GeneratorScheduler wD) as [[] wG|e wG]; [|discriminate].
  cbn [final] in HhD, HhG.
  rewrite (bind_returned _ _ wG _ tt) by apply test_and_log_returns.
  set (w3 := log_calls _ wG).
  match goal with |- ?rest w3 = _ -> _ =>
    assert (quiet tag rest) as Hq
  end.
  { apply quiet_bind; [apply quiet_is_primary|intros primary].
    destruct primary; unfold when; [|apply quiet_ret].
    unfold torch_save. quiet_steps. }
  destruct (Hq w3) as (calls & Hh & Hs).
  intros Hrun. rewrite Hrun in Hh. cbn [final] in Hh.
  exists ((if distributed (args w) then [ev_set_epoch epoch] else [])
          ++ train_gan_calls epoch w0 ++ cD ++ cG ++ test_calls epoch wG ++ calls).
  rewrite Hh. unfold w3. rewrite history_log_calls, HhG, HhD. unfold w1.
  rewrite history_after_train_gan. unfold w0 at 1.
  rewrite history_announce_epoch, !steps_of_app, Hs, HsD, HsG, test_calls_steps
    by assumption.
  rewrite (proj2 (train_calls_write_no_test_series tag epoch w0 Htag)).
  rewrite steps_of_nil_if by reflexivity.
  now rewrite <- !app_assoc.
Qed.

Lemma for_returned_steps (body : Z -> M unit) (tag : string) :
  (forall epoch w w',
     body epoch w = Returned tt w' ->
     exists calls, history w' = history w ++ calls /\ steps_of tag calls = [epoch + 1]) ->
  forall epochs w w',
    for_ epochs body w = Returned tt w' ->
    exists calls,
      history w' = history w ++ calls /\
      steps_of tag calls = map (fun epoch => epoch + 1) epochs.
Proof.
  intros Hbody. induction epochs as [|epoch rest IH]; intros w w' Hrun.
  - injection Hrun as <-. exists []. now rewrite app_nil_r.
  - cbn [for_] in Hrun. unfold bind in Hrun.
    destruct (body epoch w) as [[] w1|e w1] eqn:E; [|discriminate].
    destruct (Hbody _ _ _ E) as (c1 & Hh1 & Hs1).
    destruct (IH _ _ Hrun) as (c2 & Hh2 & Hs2).
    exists (c1 ++ c2). rewrite Hh2, Hh1, steps_of_app, Hs1, Hs2.
    now rewrite <- app_assoc.
Qed.

Lemma args_psnr_phase (ngpus_per_node : Z) (w : world) :
  args (final (psnr_phase ngpus_per_node w)) = args w.
Proof.
  assert (keeps (fun w' => args w' = args w) (psnr_phase ngpus_per_node)) as H;
    [|now apply H].
  unfold_driver. unfold emit. keeps_steps ltac:(assumption).
Qed.

(** X16: the evaluation metrics of both loops are written to the same
    series at step epoch + 1, so that in a run whose two loops return each
    "Test/..." series receives the steps of the PSNR epochs followed by those
    of the GAN epochs, which start over from [start_gan_epoch + 1]. *)
Theorem evaluation_series_start_over_in_the_gan_loop (ngpus_per_node : Z) (tag : string)
    (w w1 w2 : world) :
  In tag test_series ->
  psnr_phase ngpus_per_node w = Returned tt w1 ->
  gan_phase ngpus_per_node w1 = Returned tt w2 ->
  exists calls,
    history w2 = history w ++ calls /\
    steps_of tag calls
    = map (fun epoch => epoch + 1)
        (range (start_psnr_epoch (args w)) (psnr_epochs (args w)))
      ++ map (fun epoch => epoch + 1)
           (range (start_gan_epoch (args w)) (gan_epochs (args w))).
Proof.
  intros Htag H1 H2.
  pose proof (args_psnr_phase ngpus_per_node w) as Ea. rewrite H1 in Ea. cbn [final] in Ea.
  unfold psnr_phase in H1. rewrite (bind_returned _ _ w w (args w)) in H1 by reflexivity.
  unfold gan_phase in H2. rewrite (bind_returned _ _ w1 w1 (args w1)) in H2 by reflexivity.
  rewrite Ea in H2.
  destruct (for_returned_steps (psnr_epoch ngpus_per_node) tag) with (2 := H1)
    as (c1 & Hh1 & Hs1).
  { intros epoch w0 w0' E.
    destruct (psnr_epoch_test_steps tag ngpus_per_node epoch w0 Htag) as (c & Hh & Hs).
    rewrite E in Hh. now exists c. }
  destruct (for_returned_steps (gan_epoch ngpus_per_node) tag) with (2 := H2)
    as (c2 & Hh2 & Hs2).
  { intros epoch w0 w0' E. now apply (gan_epoch_test_steps tag ngpus_per_node epoch w0). }
  exists (c1 ++ c2). rewrite Hh2, Hh1, steps_of_app, Hs1, Hs2.
  now rewrite <- app_assoc.
Qed.

(** ** Launching the workers *)

Lemma in_range (a b i : Z) : In i (range a b) <-> a <= i < b.
Proof.
  unfold range. rewrite in_map_iff. split.
  - intros (k & <- & Hk). apply in_seq in Hk. lia.
  - intros H. exists (Z.to_nat (i - a)). split; [lia|]. apply in_seq. lia.
Qed.

Lemma main_returns (int : string -> option Z) (ns : Namespace)
    (environ : gmap string string) (device_count : Z) (calls : list invocation) :
  snd (main int ns environ device_count) = inr calls ->
  exists size,
    (if String.eqb (dist_url ns) "env://" && (world_size ns =? -1)
     then exists s, environ !! "WORLD_SIZE" = Some s /\ int s = Some size
     else size = world_size ns) /\
    let a := set_distributed ((1 <? size) || multiprocessing_distributed (parsed ns))
               (parsed ns) in
    calls
    = if multiprocessing_distributed (parsed ns)
      then map (fun i => {| inv_gpu := Some i; inv_ngpus_per_node := device_count;
                            inv_args := set_world_size (device_count * size)
                                          (set_parsed a (set_world_size size ns)) |})
             (range 0 device_count)
      else [ {| inv_gpu := gpu ns; inv_ngpus_per_node := device_count;
                inv_args := set_parsed a (set_world_size size ns) |} ].
Proof.
  unfold main, environ_int, l_bind, l_ret, l_emit, l_raise. cbn.
  repeat case_match; cbn; intros Hmain; simplify_eq/=; eauto.
Qed.

Lemma spawned_rank_gate (r i n : Z) :
  0 <= i < n -> ((r * n + i) mod n =? 0) = match i with 0 => true | _ => false end.
Proof.
  intros Hi. rewrite Z.add_comm, Z.mod_add, Z.mod_small by lia. now destruct i.
Qed.

(** X17: of the workers [main] launches, every one that gets through the
    entry of [main_worker] can evaluate the checkpoint-save gate, and passes
    it exactly when the run is not multi-process or the worker is the process
    spawned with index 0: one saver per node, whatever the node's rank. *)
Theorem one_saver_per_node (int : string -> option Z)
    (init_process_group : string -> string -> Z -> Z -> bool)
    (ns : Namespace) (environ environ' : gmap string string) (device_count : Z)
    (cuda : bool) (calls : list invocation) (call : invocation)
    (ns' : Namespace) (pl : placement) (fs : gmap string pyobj) :
  snd (main int ns environ device_count) = inr calls ->
  In call calls ->
  snd (main_worker_entry int init_process_group call environ' cuda) = inr (ns', pl) ->
  let saves := negb (multiprocessing_distributed (parsed ns))
               || match inv_gpu call with Some 0 => true | _ => false end in
  gate_defined (inv_ngpus_per_node call) (parsed ns') /\
  is_primary (inv_ngpus_per_node call) (construct (parsed ns') fs)
  = Returned saves (construct (parsed ns') fs).
Proof.
  intros Hmain Hin Hentry saves.
  enough (gate_defined (inv_ngpus_per_node call) (parsed ns') /\
          primary (inv_ngpus_per_node call) (parsed ns') = saves) as [Hgate Hprim].
  { split; [exact Hgate|]. rewrite <- Hprim. now apply is_primary_returns. }
  subst saves.
  destruct (main_returns _ _ _ _ _ Hmain) as (size & _ & Hcalls). cbv zeta in Hcalls.
  destruct (multiprocessing_distributed (parsed ns)) eqn:Emp; subst calls.
  - apply in_map_iff in Hin as (i & <- & Hi). apply in_range in Hi.
    revert Hentry.
    unfold main_worker_entry, environ_int, int_truediv, l_bind, l_ret, l_emit, l_raise,
      gate_defined, primary.
    cbn. rewrite Emp, orb_true_r. cbn.
    repeat case_match; cbn; intros Hentry; simplify_eq/=;
      rewrite ?Emp; cbn; (split; [lia | apply spawned_rank_gate; lia]).
  - destruct Hin as [<- | []].
    revert Hentry.
    unfold main_worker_entry, environ_int, int_truediv, l_bind, l_ret, l_emit, l_raise,
      gate_defined, primary.
    cbn. rewrite Emp. cbn.
    repeat case_match; cbn; intros Hentry; simplify_eq/=;
      rewrite ?Emp; cbn; (split; [congruence | reflexivity]).
Qed.


Ltac launch_cases H :=
  revert H;
  unfold main_worker_entry, environ_int, int_truediv, l_bind, l_ret, l_emit, l_raise;
  cbn.

Lemma spawned_worker_rank (int : string -> option Z)
    (init_process_group : string -> string -> Z -> Z -> bool)
    (ns : Namespace) (environ environ' : gmap string string) (device_count : Z)
    (cuda : bool) (calls : list invocation) (call : invocation)
    (ns' : Namespace) (pl : placement) :
  multiprocessing_distributed (parsed ns) = true ->
  0 <= rank (parsed ns) < world_size ns ->
  snd (main int ns environ device_count) = inr calls ->
  In call calls ->
  snd (main_worker_entry int init_process_group call environ' cuda) = inr (ns', pl) ->
  exists g,
    inv_gpu call = Some g /\ 0 <= g < device_count /\
    rank (parsed ns') = rank (parsed ns) * device_count + g /\
    world_size ns' = device_count * world_size ns /\
    dist_backend ns' = dist_backend ns /\ dist_url ns' = dist_url ns /\
    init_process_group (dist_backend ns) (dist_url ns) (world_size ns')
      (rank (parsed ns')) = true /\
    In (la_init_process_group (dist_backend ns) (dist_url ns) (world_size ns')
          (rank (parsed ns')))
       (fst (main_worker_entry int init_process_group call environ' cuda)).
Proof.
  intros Emp Hr Hmain Hin Hentry.
  destruct (main_returns _ _ _ _ _ Hmain) as (size & Hsize & Hcalls).
  cbv zeta in Hcalls. rewrite Emp in Hcalls. subst calls.
  assert ((world_size ns =? -1) = false) as Ews by lia.
  assert ((rank (parsed ns) =? -1) = false) as Erk by lia.
  rewrite Ews, andb_false_r in Hsize. subst size.
  apply in_map_iff in Hin as (i & <- & Hi). apply in_range in Hi.
  exists i. split; [reflexivity|]. split; [exact Hi|].
  launch_cases Hentry. rewrite Emp, Erk, orb_true_r, andb_false_r. cbn.
  repeat case_match; cbn; intros Hentry; simplify_eq/=;
    repeat split; try reflexivity; try assumption;
    rewrite ?in_app_iff; cbn; auto 10.
Qed.

(** X18: in a multi-process run on a node of rank [r], with
    0 <= r < world_size, the process spawned with index [g] joins the process
    group as rank r * ngpus_per_node + g of a world of
    ngpus_per_node * world_size processes, so that its rank lies within that
    world. *)
Theorem spawned_ranks_lie_in_the_world (int : string -> option Z)
    (init_process_group : string -> string -> Z -> Z -> bool)
    (ns : Namespace) (environ environ' : gmap string string) (device_count : Z)
    (cuda : bool) (calls : list invocation) (call : invocation)
    (ns' : Namespace) (pl : placement) :
  multiprocessing_distributed (parsed ns) = true ->
  0 <= rank (parsed ns) < world_size ns ->
  snd (main int ns environ device_count) = inr calls ->
  In call calls ->
  snd (main_worker_entry int init_process_group call environ' cuda) = inr (ns', pl) ->
  exists g,
    inv_gpu call = Some g /\ 0 <= g < device_count /\
    rank (parsed ns') = rank (parsed ns) * device_count + g /\
    world_size ns' = device_count * world_size ns /\
    0 <= rank (parsed ns') < world_size ns' /\
    In (la_init_process_group (dist_backend ns) (dist_url ns) (world_size ns')
          (rank (parsed ns')))
       (fst (main_worker_entry int init_process_group call environ' cuda)).
Proof.
  intros Emp Hr Hmain Hin Hentry.
  destruct (spawned_worker_rank _ _ _ _ _ _ _ _ _ _ _ Emp Hr Hmain Hin Hentry)
    as (g & Hg & Hb & Hrank & Hws & _ & _ & _ & Hev).
  exists g. repeat split; try assumption; try lia; rewrite Hrank, ?Hws; nia.
Qed.

(** X19: two processes of a multi-process run with the same number of GPUs
    per node get the same global rank only if they are the processes of the
    same index on nodes of the same rank. *)
Theorem spawned_ranks_are_distinct (int : string -> option Z)
    (init_process_group : string -> string -> Z -> Z -> bool)
    (ns1 ns2 : Namespace) (environ1 environ2 environ1' environ2' : gmap string string)
    (device_count : Z) (cuda1 cuda2 : bool) (calls1 calls2 : list invocation)
    (call1 call2 : invocation) (ns1' ns2' : Namespace) (pl1 pl2 : placement) :
  multiprocessing_distributed (parsed ns1) = true ->
  multiprocessing_distributed (parsed ns2) = true ->
  0 <= rank (parsed ns1) < world_size ns1 ->
  0 <= rank (parsed ns2) < world_size ns2 ->
  snd (main int ns1 environ1 device_count) = inr calls1 ->
  snd (main int ns2 environ2 device_count) = inr calls2 ->
  In call1 calls1 ->
  In call2 calls2 ->
  snd (main_worker_entry int init_process_group call1 environ1' cuda1) = inr (ns1', pl1) ->
  snd (main_worker_entry int init_process_group call2 environ2' cuda2) = inr (ns2', pl2) ->
  rank (parsed ns1') = rank (parsed ns2') ->
  rank (parsed ns1) = rank (parsed ns2) /\ inv_gpu call1 = inv_gpu call2.
Proof.
  intros Emp1 Emp2 Hr1 Hr2 Hmain1 Hmain2 Hin1 Hin2 Hentry1 Hentry2 Heq.
  destruct (spawned_worker_rank _ _ _ _ _ _ _ _ _ _ _ Emp1 Hr1 Hmain1 Hin1 Hentry1)
    as (g1 & Hg1 & Hb1 & Hrank1 & _).
  destruct (spawned_worker_rank _ _ _ _ _ _ _ _ _ _ _ Emp2 Hr2 Hmain2 Hin2 Hentry2)
    as (g2 & Hg2 & Hb2 & Hrank2 & _).
  rewrite Hrank1, Hrank2 in Heq. rewrite Hg1, Hg2.
  assert (rank (parsed ns1) = rank (parsed ns2)) as Er by nia.
  split; [exact Er|]. f_equal. rewrite Er in Heq. lia.
Qed.


(** X21: [main] consults the environment only when the URL is "env://" and
    the world size was left at -1.  It then needs WORLD_SIZE: unset, the run
    ends in KeyError; not a number, in ValueError; otherwise every worker is
    launched with that world size (multiplied by the number of GPUs in a
    multi-process run). *)
Theorem main_reads_the_environment_for_env_url_only (int : string -> option Z)
    (ns : Namespace) (environ : gmap string string) (device_count : Z) :
  if String.eqb (dist_url ns) "env://" && (world_size ns =? -1)
  then
    match environ !! "WORLD_SIZE" with
    | None => snd (main int ns environ device_count) = inl (Builtin (KeyError "WORLD_SIZE"))
    | Some s =>
        match int s with
        | None => snd (main int ns environ device_count) = inl (ValueError s)
        | Some size =>
            exists calls,
              snd (main int ns environ device_count) = inr calls /\
              Forall (fun call =>
                        world_size (inv_args call)
                        = if multiprocessing_distributed (parsed ns)
                          then device_count * size else size) calls
        end
    end
  else forall environ', main int ns environ' device_count = main int ns environ device_count.
Proof.
  unfold main, environ_int, l_bind, l_ret, l_emit, l_raise. cbn.
  destruct (String.eqb (dist_url ns) "env://" && (world_size ns =? -1)); [|reflexivity].
  destruct (environ !! "WORLD_SIZE") as [s|];
    [|repeat case_match; simplify_eq/=; reflexivity].
  destruct (int s) as [size|]; [|repeat case_match; simplify_eq/=; reflexivity].
  repeat case_match; simplify_eq/=; eexists; (split; [reflexivity|]).
  all: apply List.Forall_forall; intros call Hin;
    first [ apply in_map_iff in Hin as (i & <- & _); reflexivity
          | destruct Hin as [<- | []]; reflexivity ].
Qed.

End Training.

(** The type arguments of the model are left to inference from here on. *)
Arguments history {Weights AdamState}.
Arguments record {Weights AdamState}.
Arguments final {Weights AdamState A}.
Arguments update_D {Weights AdamState}.
Arguments train_gan_batch {Weights AdamState}.
Arguments construct {Weights AdamState}.
Arguments resume_psnr_checkpoint {Weights AdamState}.
Arguments resume_gan_checkpoint {Weights AdamState}.
Arguments psnr_epoch {Weights AdamState}.
Arguments gan_epoch {Weights AdamState}.
Arguments phase_loop {Weights AdamState}.
Arguments gan_epochs_completed {Weights AdamState}.
Arguments until_gan_phase {Weights AdamState}.
Arguments spec_g_loss {Weights AdamState}.
Arguments log_calls {Weights AdamState}.
Arguments after_train_gan {Weights AdamState}.
Arguments train_gan_calls {Weights AdamState}.
Arguments is_training_call {Weights AdamState}.
Arguments steps_of {Weights AdamState}.
Arguments gan_resume_announced {Weights AdamState}.
Arguments test_calls {Weights AdamState}.
Arguments after_psnr_save {Weights AdamState}.
Arguments gan_checkpoints {Weights AdamState}.
Arguments after_first_scheduler_step {Weights AdamState}.
Arguments spec_schedulers_advance_last {Weights AdamState}.
Arguments lr_batch {Weights}.
Arguments hr_batch {Weights}.
Arguments full {Weights}.
Arguments metric {Weights}.
Arguments state_dict {Weights AdamState}.
Arguments checkpoint {Weights AdamState}.
Arguments ev_scheduler_step {Weights AdamState}.
Arguments ev_add_scalar {Weights AdamState}.
Arguments ev_test {Weights AdamState}.
Arguments ev_save {Weights AdamState}.
Arguments ev_load {Weights AdamState}.
Arguments ev_info {Weights AdamState}.
Arguments Returned {Weights AdamState A}.
Arguments Raised {Weights AdamState A}.
Arguments weights {Weights}.
Arguments grad {Weights}.
Arguments param_lr {AdamState}.
Arguments state {AdamState}.
Arguments args {Weights AdamState}.
Arguments generator {Weights AdamState}.
Arguments discriminator {Weights AdamState}.
Arguments psnr_optimizer {Weights AdamState}.
Arguments discriminator_optimizer {Weights AdamState}.
Arguments generator_optimizer {Weights AdamState}.
Arguments files {Weights AdamState}.
Arguments lookup_file {Weights AdamState}.
Arguments main_worker {Weights AdamState}.
Arguments psnr_phase {Weights AdamState}.
Arguments gan_phase {Weights AdamState}.
Arguments psnr_epoch_calls {Weights AdamState}.
Arguments checkpoint_of_epoch {Weights AdamState}.
Arguments is_primary {Weights AdamState}.

(** * A concrete run

    Weights and optimizer states are version stamps that every update bumps;
    an epoch has two batches. *)
Module Run.

Definition Adam_step (st : nat) (lr : Q) (w : nat) (g : gradient nat) : nat * nat :=
  (S st, S w).

Definition configure (_ : Args) : nat := 0%nat.
Definition discriminator_for_vgg (_ : Z) : nat := 100%nat.
Definition len_train_dataloader : nat := 2.

(** The parser's defaults, with one PSNR epoch and four GAN epochs. *)
Definition default_args : Args :=
  {| arch := "srgan"; psnr_epochs := 1; start_psnr_epoch := 0;
     gan_epochs := 4; start_gan_epoch := 0;
     psnr_lr := 1 # 10000; gan_lr := 1 # 10000; image_size := 96;
     resume_psnr := ""; resume_d := ""; resume_g := "";
     rank := -1; distributed := false; multiprocessing_distributed := false |}.

Definition with_resume (psnr d g : string) (a : Args) : Args :=
  {| arch := arch a; psnr_epochs := psnr_epochs a;
     start_psnr_epoch := start_psnr_epoch a;
     gan_epochs := gan_epochs a; start_gan_epoch := start_gan_epoch a;
     psnr_lr := psnr_lr a; gan_lr := gan_lr a; image_size := image_size a;
     resume_psnr := psnr; resume_d := d; resume_g := g;
     rank := rank a; distributed := distributed a;
     multiprocessing_distributed := multiprocessing_distributed a |}.

Definition with_epochs (psnr gan : Z) (a : Args) : Args :=
  {| arch := arch a; psnr_epochs := psnr; start_psnr_epoch := start_psnr_epoch a;
     gan_epochs := gan; start_gan_epoch := start_gan_epoch a;
     psnr_lr := psnr_lr a; gan_lr := gan_lr a; image_size := image_size a;
     resume_psnr := resume_psnr a; resume_d := resume_d a; resume_g := resume_g a;
     rank := rank a; distributed := distributed a;
     multiprocessing_distributed := multiprocessing_distributed a |}.

Definition no_files : gmap string (pyobj nat nat) := ∅.

(** A pre-seeded best-PSNR state dict. *)
Definition best_only : gmap string (pyobj nat nat) :=
  {[ "weights/PSNR.pth" := state_dict 7%nat ]}.

(** The world [main_worker] builds. *)
Definition built (a : Args) (fs : gmap string (pyobj nat nat)) : world nat nat :=
  construct configure discriminator_for_vgg 0%nat a fs.

(** The world at the start of the GAN loop. *)
Definition at_gan_phase (a : Args) (fs : gmap string (pyobj nat nat)) : world nat nat :=
  final (until_gan_phase Adam_step len_train_dataloader 1 (built a fs)).

(** The world after the first [k] GAN epochs of a run. *)
Definition after_gan_epochs (k : nat) (a : Args) (fs : gmap string (pyobj nat nat)) :
    world nat nat :=
  final (gan_epochs_completed Adam_step len_train_dataloader 1 k (at_gan_phase a fs)).

(** The files a first run leaves when it is stopped after [k] GAN epochs,
    and the arguments of a second run that skips the PSNR phase and resumes
    from the checkpoints written at the end of GAN epoch [epoch]. *)
Definition first_run_files (k : nat) : gmap string (pyobj nat nat) :=
  files (after_gan_epochs k default_args best_only).

Definition resumed_args (epoch : Z) : Args :=
  with_resume ""
    (os_path_join "weights" ("Discriminator_epoch" +:+ str epoch +:+ ".pth"))
    (os_path_join "weights" ("Generator_epoch" +:+ str epoch +:+ ".pth"))
    (with_epochs 0 4 default_args).

Definition fresh : world nat nat := built default_args no_files.

(** The world after the first GAN iteration of a fresh run. *)
Definition first_batch_done : world nat nat :=
  final (train_gan_batch Adam_step len_train_dataloader 0 0 fresh).

(** A run told to resume the PSNR phase from a file that does not exist. *)
Definition missing_resume : world nat nat :=
  built (with_resume "weights/PSNR_epoch9.pth" "" "" default_args) no_files.

(** Checkpoints of a discriminator (epoch 7) and a generator (epoch 9). *)
Definition d_checkpoint : pyobj nat nat :=
  checkpoint 7 "vgg" 170%nat {| param_lr := 1 # 10000; state := 70%nat |}.
Definition g_checkpoint : pyobj nat nat :=
  checkpoint 9 "srgan" 90%nat {| param_lr := 1 # 10000; state := 90%nat |}.
Definition gan_resume_args : Args := with_resume "" "d.pth" "g.pth" default_args.
Definition both_checkpoints : world nat nat :=
  built gan_resume_args (<["g.pth" := g_checkpoint]> {["d.pth" := d_checkpoint]}).
Definition generator_checkpoint_missing : world nat nat :=
  built gan_resume_args {["d.pth" := d_checkpoint]}.

Lemma default_gate : gate_defined 1 default_args.
Proof. intros H. discriminate H. Defined.

(** C2, the claim as stated fails: in the second iteration of a fresh run
    the generator's accumulators still hold the gradient of the first
    iteration's generator loss when stage (1) is over. *)
Lemma generator_gradient_survives_stage_A :
  exists a w2,
    update_D Adam_step (lr_batch GAN 0 1) (hr_batch GAN 0 1) (full 1) (full 0)
      first_batch_done
    = Returned a w2 /\
    grad (generator fresh) = [] /\
    grad (generator w2) = [spec_g_loss Adam_step fresh 0 0] /\
    grad (generator w2) <> [].
Proof.
  eexists _, _. split; [vm_compute; reflexivity|]. split; [reflexivity|].
  split; [reflexivity | discriminate].
Qed.


(** C5 at a run with a pre-seeded weights/PSNR.pth and four GAN epochs:
    after two of them both learning rates are 0.0001 * 0.1. *)
Lemma lr_decays_witness :
  exists w',
    gan_epochs_completed Adam_step len_train_dataloader 1 2
      (at_gan_phase default_args best_only)
    = Returned tt w' /\
    param_lr (discriminator_optimizer w') = ((1 # 10000) * (1 # 10))%Q /\
    param_lr (generator_optimizer w') = ((1 # 10000) * (1 # 10))%Q.
Proof.
  apply (lr_decays_at_half_the_gan_epochs nat nat Adam_step configure
           discriminator_for_vgg 0%nat len_train_dataloader 1 default_args best_only
           (at_gan_phase default_args best_only) 2%nat);
    [reflexivity | reflexivity | discriminate | exact default_gate
    | vm_compute; reflexivity | vm_compute; lia | discriminate].
Defined.

(** C5, the claim as stated fails.  With [gan_epochs = 1] the boundary is
    0 completed epochs, where the learning rate is [gan_lr], not a tenth of
    it.  And in resumed runs of four GAN epochs: resumed after the first
    epoch, the run completes the second (two completed in all) with the rate
    still at [gan_lr]; resumed after the second, it starts, with no epoch
    completed in the run, at a tenth of [gan_lr], and is at a hundredth two
    epochs later. *)
Lemma lr_schedule_counterexample :
  (gan_epochs (with_epochs 0 1 default_args) / 2 = 0 /\
   exists w',
     gan_epochs_completed Adam_step len_train_dataloader 1 0
       (at_gan_phase (with_epochs 0 1 default_args) no_files)
     = Returned tt w' /\
     param_lr (discriminator_optimizer w') = 1 # 10000 /\
     ~ (1 # 10000 == gan_lr default_args * (1 # 10))%Q) /\
  (gan_epochs (resumed_args 0) / 2 = 2 /\
   until_gan_phase Adam_step len_train_dataloader 1
     (built (resumed_args 0) (first_run_files 1))
   = Returned tt (at_gan_phase (resumed_args 0) (first_run_files 1)) /\
   start_gan_epoch (args (at_gan_phase (resumed_args 0) (first_run_files 1))) = 1 /\
   exists w',
     gan_epochs_completed Adam_step len_train_dataloader 1 1
       (at_gan_phase (resumed_args 0) (first_run_files 1))
     = Returned tt w' /\
     param_lr (discriminator_optimizer w') = 1 # 10000 /\
     ~ (1 # 10000 == gan_lr (resumed_args 0) * (1 # 10))%Q) /\
  (until_gan_phase Adam_step len_train_dataloader 1
     (built (resumed_args 1) (first_run_files 2))
   = Returned tt (at_gan_phase (resumed_args 1) (first_run_files 2)) /\
   start_gan_epoch (args (at_gan_phase (resumed_args 1) (first_run_files 2))) = 2 /\
   param_lr (discriminator_optimizer (at_gan_phase (resumed_args 1) (first_run_files 2)))
   = ((1 # 10000) * (1 # 10))%Q /\
   ~ ((1 # 10000) * (1 # 10) == gan_lr (resumed_args 1))%Q /\
   exists w',
     gan_epochs_completed Adam_step len_train_dataloader 1 2
       (at_gan_phase (resumed_args 1) (first_run_files 2))
     = Returned tt w' /\
     param_lr (discriminator_optimizer w') = ((1 # 10000) * (1 # 10) * (1 # 10))%Q).
Proof.
  split; [|split].
  - split; [reflexivity|]. eexists. split; [vm_compute; reflexivity|].
    split; [reflexivity|]. intros H. vm_compute in H. discriminate H.
  - split; [reflexivity|]. split; [vm_compute; reflexivity|].
    split; [vm_compute; reflexivity|].
    eexists. split; [vm_compute; reflexivity|].
    split; [reflexivity|]. intros H. vm_compute in H. discriminate H.
  - split; [vm_compute; reflexivity|]. split; [vm_compute; reflexivity|].
    split; [vm_compute; reflexivity|].
    split; [intros H; vm_compute in H; discriminate H|].
    eexists. split; [vm_compute; reflexivity|]. reflexivity.
Qed.

(** C7 at the first GAN epoch of a fresh run. *)
Lemma gan_epoch_order_witness :
  exists w' training evaluation saving,
    gan_epoch Adam_step len_train_dataloader 1 0 fresh = Returned tt w' /\
    history w' = history fresh ++ [] ++ training
      ++ [ev_scheduler_step DiscriminatorScheduler; ev_scheduler_step GeneratorScheduler]
      ++ evaluation ++ saving /\
    training = train_gan_calls Adam_step len_train_dataloader 0 fresh /\
    Forall (fun e => is_training_call e = true) training /\
    steps_of "Train/D Loss" training = [1; 2] /\
    evaluation = test_calls 0 (after_train_gan Adam_step len_train_dataloader 0 fresh) /\
    saving = map (fun '(obj, path) => ev_save obj path) (gan_checkpoints 0 w').
Proof.
  exact (gan_epoch_order nat nat Adam_step len_train_dataloader 1 0 fresh
           default_gate ltac:(discriminate) ltac:(discriminate)).
Defined.

(** C7, the claim as stated fails: in the first GAN epoch of a fresh run
    the evaluation and both checkpoint saves come after the scheduler
    steps. *)
Lemma schedulers_advance_before_evaluation :
  exists w',
    gan_epoch Adam_step len_train_dataloader 1 0 fresh = Returned tt w' /\
    spec_schedulers_advance_last (history w') = false /\
    after_first_scheduler_step (history w')
    = [ ev_scheduler_step GeneratorScheduler;
        ev_test 2%nat;
        ev_add_scalar gan_writer "Test/PSNR" (metric "PSNR" 2%nat) 1;
        ev_add_scalar gan_writer "Test/SSIM" (metric "SSIM" 2%nat) 1;
        ev_add_scalar gan_writer "Test/LPIPS" (metric "LPIPS" 2%nat) 1;
        ev_add_scalar gan_writer "Test/GMSD" (metric "GMSD" 2%nat) 1;
        ev_save (checkpoint 1 "vgg" 102%nat
                   {| param_lr := 1 # 10000; state := 2%nat |})
          "weights/Discriminator_epoch0.pth";
        ev_save (checkpoint 1 "srgan" 2%nat
                   {| param_lr := 1 # 10000; state := 2%nat |})
          "weights/Generator_epoch0.pth" ].
Proof.
  eexists. split; [vm_compute; reflexivity|]. split; reflexivity.
Qed.

(** C9 at a run whose --resume_psnr names no file. *)
Lemma missing_psnr_checkpoint_witness :
  resume_psnr_checkpoint missing_resume
  = Returned tt
      (record (ev_info "No checkpoint found at 'weights/PSNR_epoch9.pth'.") missing_resume)
  /\ start_psnr_epoch (args (final (resume_psnr_checkpoint missing_resume))) = 0
  /\ generator (final (resume_psnr_checkpoint missing_resume)) = generator missing_resume
  /\ psnr_optimizer (final (resume_psnr_checkpoint missing_resume))
     = psnr_optimizer missing_resume
  /\ files (final (resume_psnr_checkpoint missing_resume)) = files missing_resume.
Proof.
  exact (missing_psnr_checkpoint_is_skipped nat nat missing_resume
           ltac:(discriminate) eq_refl).
Defined.

(** C10 at a run whose two resume files both exist, and at one whose
    generator file is missing. *)
Lemma gan_resume_witness :
  (exists w',
     resume_gan_checkpoint both_checkpoints = Returned tt w' /\
     start_gan_epoch (args w') = 7 /\
     weights (discriminator w') = 170%nat /\
     discriminator_optimizer w' = {| param_lr := 1 # 10000; state := 70%nat |} /\
     weights (generator w') = 90%nat /\
     generator_optimizer w' = {| param_lr := 1 # 10000; state := 90%nat |}) /\
  resume_gan_checkpoint generator_checkpoint_missing
  = Raised (FileNotFoundError "g.pth")
      (log_calls [ev_load "d.pth"; ev_load "g.pth"]
         (gan_resume_announced generator_checkpoint_missing)).
Proof.
  assert (resume_d gan_resume_args <> "" \/ resume_g gan_resume_args <> "") as Hpaths
    by (left; discriminate).
  split.
  - assert (lookup_file "d.pth" both_checkpoints <> None
            \/ lookup_file "g.pth" both_checkpoints <> None) as Hfiles
      by (left; vm_compute; discriminate).
    pose proof (gan_resume_loads_both_files nat nat both_checkpoints Hpaths Hfiles) as H.
    vm_compute in H. vm_compute. exact H.
  - assert (lookup_file "d.pth" generator_checkpoint_missing <> None
            \/ lookup_file "g.pth" generator_checkpoint_missing <> None) as Hfiles
      by (left; vm_compute; discriminate).
    pose proof (gan_resume_loads_both_files nat nat generator_checkpoint_missing
                  Hpaths Hfiles) as H.
    vm_compute in H. vm_compute. exact H.
Defined.

(** A run told to resume the PSNR phase from a checkpoint of epoch 3. *)
Definition p_checkpoint : pyobj nat nat :=
  checkpoint 3 "srgan" 33%nat {| param_lr := 1 # 1000; state := 30%nat |}.
Definition psnr_resumed : world nat nat :=
  built (with_resume "p.pth" "" "" default_args) {["p.pth" := p_checkpoint]}.

(** X5 at that run: epoch, weights and optimizer are the checkpoint's. *)
Lemma psnr_resume_witness :
  exists w',
    resume_psnr_checkpoint psnr_resumed = Returned tt w' /\
    start_psnr_epoch (args w') = 3 /\
    generator w' = {| weights := 33%nat; grad := [] |} /\
    psnr_optimizer w' = {| param_lr := 1 # 1000; state := 30%nat |}.
Proof.
  pose proof (psnr_resume_restores_checkpoint nat nat psnr_resumed p_checkpoint
                ltac:(vm_compute; reflexivity)) as H.
  cbv beta iota zeta delta [p_checkpoint] in H.
  destruct H as (w' & Hrun & Ha & Hg & Ho & _).
  exists w'. split; [exact Hrun|]. rewrite Ha, Hg, Ho. repeat split.
Defined.



(** X11 at a fresh run with no file at all. *)
Lemma fresh_run_stops_in_its_first_psnr_epoch :
  exists msg w',
    main_worker Adam_step len_train_dataloader 1 fresh
    = Raised (FileNotFoundError best_PSNR) w' /\
    history w'
    = history fresh
      ++ ev_info msg
         :: psnr_epoch_calls Adam_step len_train_dataloader 1 (start_psnr_epoch (args fresh))
              (record (ev_info msg) fresh)
      ++ [ev_load best_PSNR].
Proof.
  exact (run_needs_the_best_PSNR_file nat nat Adam_step len_train_dataloader 1
           fresh fresh fresh eq_refl eq_refl default_gate eq_refl eq_refl).
Defined.




(** X14 at the end of a run of four GAN epochs: two decays. *)
Lemma lr_schedule_witness :
  exists w',
    gan_epochs_completed Adam_step len_train_dataloader 1 4
      (at_gan_phase default_args best_only)
    = Returned tt w' /\
    param_lr (discriminator_optimizer w') = ((1 # 10000) * (1 # 10) * (1 # 10))%Q /\
    param_lr (generator_optimizer w') = ((1 # 10000) * (1 # 10) * (1 # 10))%Q.
Proof.
  apply (lr_after_completed_gan_epochs nat nat Adam_step configure
           discriminator_for_vgg 0%nat len_train_dataloader 1 default_args best_only
           (at_gan_phase default_args best_only) 4%nat);
    [reflexivity | reflexivity | discriminate | exact default_gate
    | vm_compute; reflexivity | vm_compute; lia ].
Defined.

(** The world a run of four GAN epochs ends in. *)
Definition gan_run_end : world nat nat :=
  final (gan_phase Adam_step len_train_dataloader 1 (at_gan_phase default_args best_only)).

(** X15 at the third of those epochs. *)
Lemma gan_checkpoints_witness :
  checkpoint_of_epoch 2 (discriminator_checkpoint_path 2) gan_run_end /\
  checkpoint_of_epoch 2 (generator_checkpoint_path 2) gan_run_end.
Proof.
  apply (gan_checkpoints_persist nat nat Adam_step len_train_dataloader 1
           (at_gan_phase default_args best_only) gan_run_end).
  - intros H. discriminate.
  - vm_compute. reflexivity.
  - vm_compute. reflexivity.
  - vm_compute. right. right. left. reflexivity.
Defined.

(** The two loops run one after the other on a pre-seeded weights/PSNR.pth. *)
Definition psnr_loop_done : world nat nat :=
  final (psnr_phase Adam_step len_train_dataloader 1 (built default_args best_only)).
Definition both_loops_done : world nat nat :=
  final (gan_phase Adam_step len_train_dataloader 1 psnr_loop_done).

(** X16 at the "Test/PSNR" series: step 1 is written in both loops. *)
Lemma evaluation_series_witness :
  exists calls,
    history both_loops_done = history (built default_args best_only) ++ calls /\
    steps_of "Test/PSNR" calls
    = map (fun epoch => epoch + 1) (range 0 1) ++ map (fun epoch => epoch + 1) (range 0 4).
Proof.
  apply (evaluation_series_start_over_in_the_gan_loop nat nat Adam_step
           len_train_dataloader 1 "Test/PSNR" (built default_args best_only)
           psnr_loop_done both_loops_done).
  - left. reflexivity.
  - vm_compute. reflexivity.
  - vm_compute. reflexivity.
Defined.

(** A two-GPU node of rank 1 in a multi-process run over two nodes. *)
Definition parse (s : string) : option Z :=
  if String.eqb s "2" then Some 2 else None.

Definition always_joins (backend init_method : string) (world_size rank : Z) : bool := true.

Definition node_args : Args :=
  {| arch := "srgan"; psnr_epochs := 1; start_psnr_epoch := 0;
     gan_epochs := 4; start_gan_epoch := 0;
     psnr_lr := 1 # 10000; gan_lr := 1 # 10000; image_size := 96;
     resume_psnr := ""; resume_d := ""; resume_g := "";
     rank := 1; distributed := false; multiprocessing_distributed := true |}.

Definition node : Namespace :=
  {| parsed := node_args; seed := None; gpu := None;
     dist_url := "tcp://59.110.31.55:12345"; dist_backend := "nccl";
     world_size := 2; batch_size := 16; workers := 5 |}.

(** The calls of [main_worker] that [main] makes on that node, and the
    arguments the worker of index [i] goes on with. *)
Definition spawned : list invocation :=
  match snd (main parse node ∅ 2) with inr calls => calls | inl _ => [] end.

Definition worker (i : Z) : invocation :=
  {| inv_gpu := Some i; inv_ngpus_per_node := 2;
     inv_args := set_world_size 4 (set_parsed (set_distributed true node_args) node) |}.

Definition entered (i : Z) : Namespace :=
  match snd (main_worker_entry parse always_joins (worker i) ∅ true) with
  | inr (ns, _) => ns
  | inl _ => node
  end.

(** X17 at the two workers of that node: the first saves, the second does
    not. *)
Lemma one_saver_witness :
  (gate_defined 2 (parsed (entered 0)) /\
   is_primary 2 (built (parsed (entered 0)) no_files)
   = Returned true (built (parsed (entered 0)) no_files)) /\
  (gate_defined 2 (parsed (entered 1)) /\
   is_primary 2 (built (parsed (entered 1)) no_files)
   = Returned false (built (parsed (entered 1)) no_files)).
Proof.
  split.
  - exact (one_saver_per_node nat nat configure discriminator_for_vgg 0%nat parse
             always_joins node ∅ ∅ 2 true spawned (worker 0) (entered 0)
             (DistributedDataParallel_on 0) no_files eq_refl
             ltac:(left; reflexivity) eq_refl).
  - exact (one_saver_per_node nat nat configure discriminator_for_vgg 0%nat parse
             always_joins node ∅ ∅ 2 true spawned (worker 1) (entered 1)
             (DistributedDataParallel_on 1) no_files eq_refl
             ltac:(right; left; reflexivity) eq_refl).
Defined.

(** X18 at the second worker of that node: rank 3 of 4. *)
Lemma spawned_rank_witness :
  exists g,
    inv_gpu (worker 1) = Some g /\ 0 <= g < 2 /\
    rank (parsed (entered 1)) = rank (parsed node) * 2 + g /\
    world_size (entered 1) = 2 * world_size node /\
    0 <= rank (parsed (entered 1)) < world_size (entered 1) /\
    In (la_init_process_group (dist_backend node) (dist_url node) (world_size (entered 1))
          (rank (parsed (entered 1))))
       (fst (main_worker_entry parse always_joins (worker 1) ∅ true)).
Proof.
  exact (spawned_ranks_lie_in_the_world parse always_joins node ∅ ∅ 2 true spawned
           (worker 1) (entered 1) (DistributedDataParallel_on 1) eq_refl
           ltac:(split; [discriminate | reflexivity]) eq_refl
           ltac:(right; left; reflexivity) eq_refl).
Defined.

(** X19 at that worker, met twice. *)
Lemma distinct_ranks_witness :
  rank (parsed node) = rank (parsed node) /\ inv_gpu (worker 1) = inv_gpu (worker 1).
Proof.
  exact (spawned_ranks_are_distinct parse always_joins node node ∅ ∅ ∅ ∅ 2 true true
           spawned spawned (worker 1) (worker 1) (entered 1) (entered 1)
           (DistributedDataParallel_on 1) (DistributedDataParallel_on 1)
           eq_refl eq_refl
           ltac:(split; [discriminate | reflexivity])
           ltac:(split; [discriminate | reflexivity])
           eq_refl eq_refl
           ltac:(right; left; reflexivity) ltac:(right; left; reflexivity)
           eq_refl eq_refl eq_refl).
Defined.


End Run.
